(** * The Parquet file writer (src/parquet/file_writer.cc)

    A shallow embedding of the write-side orchestration layer: the row-group
    serializer with its row-count agreement check, the file serializer with
    its footer, the append variant that merges an old footer into the new
    one, and the public wrappers [RowGroupWriter] and [ParquetFileWriter].

    Conventions.
    - A C++ method is a function from the state it can reach to an outcome
      and the state it leaves.  An exception leaves the state as it was at
      the [throw]: assignments made before it stay.
    - [int64_t] and [int] values are integers of [Z].  Signed overflow is
      undefined in C++; the checked additions below return [Undefined]
      there.  [uint32_t] arithmetic wraps modulo [2^32].
    - Objects reached through a raw pointer by several owners (the sink and
      the row-group metadata builders) live in a [Heap]; a pointer to a
      builder is its index in the heap. *)

From Stdlib Require Import ZArith Lia FMapList FMapFacts OrderedTypeEx.
From Stdlib.Strings Require Byte.
From stdpp Require Import base list strings pretty.

Local Open Scope Z_scope.

Abbreviation byte := Byte.byte.

(** ** Outcomes and the state monad of method calls *)

(** [ParquetException(ss.str())]: the only exception type of the file. *)
Inductive Exception : Type :=
  | ParquetException (what : string).

(** A call returns, throws, or has no defined behaviour (a null or dangling
    pointer is dereferenced, a signed counter overflows). *)
Inductive Outcome (A : Type) : Type :=
  | Ok (a : A)
  | Throw (e : Exception)
  | Undefined.
Arguments Ok {A} a.
Arguments Throw {A} e.
Arguments Undefined {A}.

Definition M (S A : Type) : Type := S -> Outcome A * S.

Definition ret {S A} (a : A) : M S A := fun s => (Ok a, s).

Definition bind {S A B} (m : M S A) (k : A -> M S B) : M S B :=
  fun s =>
    match m s with
    | (Ok a, s') => k a s'
    | (Throw e, s') => (Throw e, s')
    | (Undefined, s') => (Undefined, s')
    end.

Declare Scope cpp_scope.
Delimit Scope cpp_scope with cpp.
Notation "x <- m ;; k" := (bind m (fun x => k))
  (at level 100, m at next level, k at level 200, right associativity) : cpp_scope.
Notation "m ;; k" := (bind m (fun _ => k))
  (at level 100, k at level 200, right associativity) : cpp_scope.
Local Open Scope cpp_scope.

Definition throw {S A} (e : Exception) : M S A := fun s => (Throw e, s).
Definition undefined {S A} : M S A := fun s => (Undefined, s).
Definition gets {S A} (f : S -> A) : M S A := fun s => (Ok (f s), s).
Definition modify {S} (f : S -> S) : M S unit := fun s => (Ok tt, f s).

(** [if (c) { m }] *)
Definition when {S} (c : bool) (m : M S unit) : M S unit :=
  if c then m else ret tt.

(** [try { m } catch (...) { }] *)
Definition try_catch_all {S} (m : M S unit) : M S unit :=
  fun s =>
    match m s with
    | (Throw _, s') => (Ok tt, s')
    | r => r
    end.

(** Run a method of a sub-object: [get] reads it, [put] writes it back. *)
Definition zoom {S T A} (get : S -> T) (put : T -> S -> S) (m : M T A) : M S A :=
  fun s => let '(r, t') := m (get s) in (r, put t' s).

(** ** Machine integers *)

Definition INT64_MIN : Z := - 2 ^ 63.
Definition INT64_MAX : Z := 2 ^ 63 - 1.
Definition INT_MIN : Z := - 2 ^ 31.
Definition INT_MAX : Z := 2 ^ 31 - 1.

Definition in_int64 (z : Z) : bool := (INT64_MIN <=? z) && (z <=? INT64_MAX).
Definition in_int (z : Z) : bool := (INT_MIN <=? z) && (z <=? INT_MAX).

(** [a + b] on [int64_t] *)
Definition int64_add {S} (a b : Z) : M S Z :=
  if in_int64 (a + b) then ret (a + b) else undefined.

(** [a + b] on [int] *)
Definition int_add {S} (a b : Z) : M S Z :=
  if in_int (a + b) then ret (a + b) else undefined.

(** [static_cast<uint32_t>(z)] *)
Definition to_uint32 (z : Z) : Z := z mod 2 ^ 32.

(** [a - b] on [uint32_t] *)
Definition uint32_sub (a b : Z) : Z := (a - b) mod 2 ^ 32.

Definition byte_of_Z (z : Z) : byte :=
  match Byte.of_N (Z.to_N (Z.land z 255)) with
  | Some b => b
  | None => Byte.x00
  end.

(** [reinterpret_cast<uint8_t*>(&v)] read over 4 bytes, for a [uint32_t v]
    on a little-endian host. *)
Definition uint32_object_bytes (v : Z) : list byte :=
  [ byte_of_Z v;
    byte_of_Z (Z.shiftr v 8);
    byte_of_Z (Z.shiftr v 16);
    byte_of_Z (Z.shiftr v 24) ].

(** The value a reader on the same host gets back from 4 such bytes. *)
Definition uint32_of_bytes (bs : list byte) : Z :=
  match bs with
  | [b0; b1; b2; b3] =>
      Z.of_N (Byte.to_N b0)
      + Z.shiftl (Z.of_N (Byte.to_N b1)) 8
      + Z.shiftl (Z.of_N (Byte.to_N b2)) 16
      + Z.shiftl (Z.of_N (Byte.to_N b3)) 24
  | _ => 0
  end.

(** [static constexpr uint8_t PARQUET_MAGIC[4] = {'P', 'A', 'R', '1'}] *)
Definition PARQUET_MAGIC : list byte := [Byte.x50; Byte.x41; Byte.x52; Byte.x31].

(** ** The sink *)

(** Modelled from the spec: the [OutputStream] interface is declared outside
    this file.  Section 6: "Sink: Write(bytes), Tell() -> position, Close().
    Must support sequential append-only writes"; section 7: any of them may
    fail with an IOError.  [written] is what the stream holds, [closes] the
    number of completed [Close] calls. *)
Class OutputStream (St : Type) : Type := {
  Tell : St -> Z;
  Write : list byte -> M St unit;
  Close : M St unit;
  written : St -> list byte;
  closes : St -> nat;
  Tell_written : forall s, Tell s = Z.of_nat (length (written s));
  Write_Ok : forall bs s s',
    Write bs s = (Ok tt, s') ->
    written s' = written s ++ bs /\ closes s' = closes s;
  Write_Throw : forall bs s s' e,
    Write bs s = (Throw e, s') ->
    (exists n, written s' = written s ++ take n bs) /\ closes s' = closes s;
  Write_defined : forall bs s, (Write bs s).1 <> Undefined;
  Close_Ok : forall s s',
    Close s = (Ok tt, s') ->
    written s' = written s /\ closes s' = S (closes s);
  Close_Throw : forall s s' e,
    Close s = (Throw e, s') ->
    written s' = written s /\ closes s' = closes s;
  Close_defined : forall s, (Close s).1 <> Undefined
}.

(** A stream that keeps everything in memory and never fails. *)
Module InMemoryOutputStream.

Record t : Type := mk { buffer : list byte; close_calls : nat }.

Definition empty : t := mk [] 0.

Definition Write (bs : list byte) : M t unit :=
  modify (fun s => mk (buffer s ++ bs) (close_calls s)).

Definition Tell (s : t) : Z := Z.of_nat (length (buffer s)).

Definition Close : M t unit :=
  modify (fun s => mk (buffer s) (S (close_calls s))).

#[global] Instance stream : OutputStream t.
Proof.
  refine (Build_OutputStream t Tell Write Close buffer close_calls _ _ _ _ _ _ _);
    unfold Write, Close, Tell, modify; simpl; try congruence.
  - intros bs s s' [= <-]. done.
  - intros s s' [= <-]. done.
Defined.

End InMemoryOutputStream.

(** A stream over a device of [capacity] bytes: a write that does not fit
    writes nothing and throws. *)
Module BoundedOutputStream.

Record t : Type := mk { buffer : list byte; capacity : nat; close_calls : nat }.

Definition Write (bs : list byte) : M t unit :=
  fun s =>
    if (length (buffer s) + length bs <=? capacity s)%nat
    then (Ok tt, mk (buffer s ++ bs) (capacity s) (close_calls s))
    else (Throw (ParquetException "IOError: no space left on device"), s).

Definition Tell (s : t) : Z := Z.of_nat (length (buffer s)).

Definition Close : M t unit :=
  modify (fun s => mk (buffer s) (capacity s) (S (close_calls s))).

#[global] Instance stream : OutputStream t.
Proof.
  refine (Build_OutputStream t Tell Write Close buffer close_calls _ _ _ _ _ _ _);
    unfold Write, Close, Tell, modify; simpl; try congruence.
  - intros bs s s'. case_match; intros [= <-]. done.
  - intros bs s s' e. case_match; intros [= _ <-]. split; [|done].
    exists 0%nat. by rewrite take_0, app_nil_r.
  - intros bs s. by case_match.
  - intros s s' [= <-]. done.
Defined.

End BoundedOutputStream.

(** ** Collaborators declared outside this file *)

(** Modelled from the spec: the column writer ([ColumnWriter], with its
    [PageWriter]) is declared in parquet/column_writer.h.  Section 6: it is
    "constructed per column from a descriptor and write properties; accepts
    value batches; on close reports (rows_written, bytes_written)".  The
    encoded pages of the batches are what [Close] flushes to the sink. *)
Module ColumnWriter.

Record t : Type := mk {
  rows_written_ : Z;
  total_bytes_written_ : Z;
  pending : list byte;
  closed_ : bool
}.

(** [ColumnWriter::Make(col_meta, std::move(pager), properties_)] *)
Definition Make : t := mk 0 0 [] false.

Definition rows_written (w : t) : Z := rows_written_ w.

(** A batch of [num_rows] rows whose encoding is [encoded]. *)
Definition WriteBatch (num_rows : Z) (encoded : list byte) (w : t) : t :=
  mk (rows_written_ w + num_rows)
     (total_bytes_written_ w + Z.of_nat (length encoded))
     (pending w ++ encoded)
     (closed_ w).

Section WithSink.
Context {St : Type} `{OutputStream St}.

Definition Close : M (St * t) Z :=
  fun '(s, w) =>
    if closed_ w then (Ok (total_bytes_written_ w), (s, w))
    else
      match Write (pending w) s with
      | (Ok _, s') =>
          (Ok (total_bytes_written_ w),
           (s', mk (rows_written_ w) (total_bytes_written_ w) [] true))
      | (Throw e, s') => (Throw e, (s', w))
      | (Undefined, s') => (Undefined, (s', w))
      end.

End WithSink.
End ColumnWriter.

(** Modelled from the spec: [RowGroupMetaDataBuilder] is declared in
    parquet/metadata.h.  Section 3: it "holds an ordered sequence of
    column-chunk descriptors (one per schema column, filled in schema order)
    and the agreed row count for the group.  Finish fails if fewer
    column-chunk descriptors were filled than the schema declares columns";
    section 4.2: the next slot request fails "if all columns for this schema
    are already filled". *)
Module RowGroupMetaDataBuilder.

Record t : Type := mk {
  num_columns_ : Z;
  next_column_ : Z;
  num_rows_ : Z;
  column_chunks : list (list (string * string));
  total_byte_size : option Z
}.

Definition Make (num_columns : Z) : t := mk num_columns 0 0 [] None.

Definition num_columns (b : t) : Z := num_columns_ b.

Definition current_column (b : t) : Z := next_column_ b - 1.

Definition set_num_rows (n : Z) : M t unit :=
  modify (fun b =>
    mk (num_columns_ b) (next_column_ b) n (column_chunks b) (total_byte_size b)).

Definition NextColumnChunk (meta : list (string * string)) : M t unit :=
  fun b =>
    if num_columns_ b <=? next_column_ b
    then (Throw (ParquetException "SchemaError: all columns of the schema are filled"), b)
    else (Ok tt, mk (num_columns_ b) (next_column_ b + 1) (num_rows_ b)
                    (column_chunks b ++ [meta]) (total_byte_size b)).

Definition Finish (total_bytes_written : Z) : M t unit :=
  fun b =>
    if next_column_ b <? num_columns_ b
    then (Throw (ParquetException "IncompleteRowGroupError: not every column was written"), b)
    else (Ok tt, mk (num_columns_ b) (next_column_ b) (num_rows_ b)
                    (column_chunks b) (Some total_bytes_written)).

End RowGroupMetaDataBuilder.

(** Modelled from the spec: the Thrift structures of the footer ([format::],
    generated code included through parquet/thrift.h), with the fields this
    file reads and writes.  Section 6: the footer holds "row-group metadata,
    schema summary, total row count, key-value side metadata". *)
Module format.

Module KeyValue.
Record t : Type := mk { key : string; value : string; isset_value : bool }.
End KeyValue.

Module RowGroup.
Record t : Type := mk {
  columns : list (list (string * string));
  total_byte_size : Z;
  num_rows : Z
}.
End RowGroup.

Module FileMetaData.
Record t : Type := mk {
  schema : Z;
  num_rows : Z;
  row_groups : list RowGroup.t;
  key_value_metadata : list KeyValue.t;
  isset_key_value_metadata : bool
}.
End FileMetaData.

End format.

(** The Thrift serialization of a footer ([SerializeThriftMsg]), which this
    layer uses as a black box. *)
Class ThriftSerializer : Type :=
  SerializeThriftMsg : format.FileMetaData.t -> list byte.

(** Modelled from the spec: [parquet::FileMetaData] is declared in
    parquet/metadata.h.  It is a finished footer, a wrapper of the Thrift
    structure ([GetFormatFileMetaData] gives it, [Make] wraps one); section
    6: "footer.WriteTo(sink)" serializes it to the sink. *)
Module FileMetaData.

Definition t : Type := format.FileMetaData.t.

Definition GetFormatFileMetaData (m : t) : format.FileMetaData.t := m.

Definition Make (m : format.FileMetaData.t) : t := m.

Section WithSink.
Context {St : Type} `{OutputStream St} `{ThriftSerializer}.

Definition WriteTo (m : t) : M St unit := Write (SerializeThriftMsg m).

End WithSink.
End FileMetaData.

(** The objects several owners point to. *)
Record Heap (St : Type) : Type := mkHeap {
  sink : St;
  row_group_builders : list RowGroupMetaDataBuilder.t
}.
Arguments mkHeap {St} sink row_group_builders.
Arguments sink {St} h.
Arguments row_group_builders {St} h.

Definition set_sink {St} (s : St) (h : Heap St) : Heap St :=
  mkHeap s (row_group_builders h).

Definition set_row_group_builders {St}
    (bs : list RowGroupMetaDataBuilder.t) (h : Heap St) : Heap St :=
  mkHeap (sink h) bs.

(** [sink_->m] *)
Definition on_sink {St T A} (m : M St A) : M (Heap St * T) A :=
  fun '(h, x) => let '(r, s') := m (sink h) in (r, (set_sink s' h, x)).

(** Modelled from the spec: [FileMetaDataBuilder] is declared in
    parquet/metadata.h.  Section 3: it "holds the immutable schema, optional
    key-value side metadata (string-to-string mapping), and an ordered
    sequence of row-group metadata slots.  Produces a finished, serializable
    footer representation on demand"; the footer carries "row-group metadata,
    schema summary, total row count, key-value side metadata" (section 6). *)
Module FileMetaDataBuilder.

Record t : Type := mk {
  schema_ : Z;
  key_value_metadata_ : option (list (string * string));
  row_groups_ : list nat
}.

Definition Make (num_columns : Z)
    (key_value_metadata : option (list (string * string))) : t :=
  mk num_columns key_value_metadata [].

Definition finished_row_group (b : RowGroupMetaDataBuilder.t) : format.RowGroup.t :=
  format.RowGroup.mk
    (RowGroupMetaDataBuilder.column_chunks b)
    (default 0 (RowGroupMetaDataBuilder.total_byte_size b))
    (RowGroupMetaDataBuilder.num_rows_ b).

Definition finished_key_value (kv : string * string) : format.KeyValue.t :=
  format.KeyValue.mk kv.1 kv.2 true.

Section WithHeap.
Context {St : Type}.

(** Returns the pointer to the new slot. *)
Definition AppendRowGroup : M (Heap St * t) nat :=
  fun '(h, b) =>
    let p := length (row_group_builders h) in
    (Ok p,
     (set_row_group_builders
        (row_group_builders h ++ [RowGroupMetaDataBuilder.Make (schema_ b)]) h,
      mk (schema_ b) (key_value_metadata_ b) (row_groups_ b ++ [p]))).

Definition Finish : M (Heap St * t) FileMetaData.t :=
  fun '(h, b) =>
    match mapM (fun p => row_group_builders h !! p) (row_groups_ b) with
    | None => (Undefined, (h, b))
    | Some bs =>
        let rgs := finished_row_group <$> bs in
        (Ok (format.FileMetaData.mk
               (schema_ b)
               (foldr Z.add 0 (format.RowGroup.num_rows <$> rgs))
               rgs
               (finished_key_value <$> default [] (key_value_metadata_ b))
               (bool_decide (is_Some (key_value_metadata_ b)))),
         (h, b))
    end.

End WithHeap.
End FileMetaDataBuilder.

(** ** RowGroupSerializer (lines 62-145) *)

Module RowGroupSerializer.

(** [sink_] is the heap's sink and [metadata_] a pointer into the heap's
    builders; [properties_] is not read by what is modelled here. *)
Record t : Type := mk {
  metadata_ : nat;
  total_bytes_written_ : Z;
  closed_ : bool;
  current_column_index_ : Z;
  num_rows_ : Z;
  current_column_writer_ : option ColumnWriter.t
}.

(** The constructor's initializer list. *)
Definition new (metadata : nat) : t := mk metadata 0 false 0 (-1) None.

Definition set_total_bytes_written_ (v : Z) (rg : t) : t :=
  mk (metadata_ rg) v (closed_ rg) (current_column_index_ rg) (num_rows_ rg)
     (current_column_writer_ rg).

Definition set_closed_ (v : bool) (rg : t) : t :=
  mk (metadata_ rg) (total_bytes_written_ rg) v (current_column_index_ rg)
     (num_rows_ rg) (current_column_writer_ rg).

Definition set_current_column_index_ (v : Z) (rg : t) : t :=
  mk (metadata_ rg) (total_bytes_written_ rg) (closed_ rg) v (num_rows_ rg)
     (current_column_writer_ rg).

Definition set_num_rows_ (v : Z) (rg : t) : t :=
  mk (metadata_ rg) (total_bytes_written_ rg) (closed_ rg)
     (current_column_index_ rg) v (current_column_writer_ rg).

Definition set_current_column_writer_ (v : option ColumnWriter.t) (rg : t) : t :=
  mk (metadata_ rg) (total_bytes_written_ rg) (closed_ rg)
     (current_column_index_ rg) (num_rows_ rg) v.

(** [if (current_column_writer_)] *)
Definition has_column_writer (rg : t) : bool :=
  match current_column_writer_ rg with Some _ => true | None => false end.

(** The text built in the [std::stringstream] of [CheckRowsWritten]. *)
Definition mismatch_message (current_column_index current_rows num_rows : Z) : string :=
  "Column " +:+ pretty current_column_index +:+ " had " +:+ pretty current_rows
  +:+ " while previous column had " +:+ pretty num_rows.

Section Methods.
Context {St : Type} `{OutputStream St}.

(** A read of a member. *)
Definition this {A} (f : t -> A) : M (Heap St * t) A := gets (fun st => f st.2).

(** An assignment to a member. *)
Definition assign (f : t -> t) : M (Heap St * t) unit :=
  modify (fun st => (st.1, f st.2)).

(** [metadata_->m] *)
Definition on_metadata {A} (m : M RowGroupMetaDataBuilder.t A) : M (Heap St * t) A :=
  fun '(h, rg) =>
    match row_group_builders h !! metadata_ rg with
    | None => (Undefined, (h, rg))
    | Some b =>
        let '(r, b') := m b in
        (r, (set_row_group_builders (<[metadata_ rg := b']> (row_group_builders h)) h, rg))
    end.

(** [current_column_writer_->m] *)
Definition on_current_column_writer {A} (m : M (St * ColumnWriter.t) A)
    : M (Heap St * t) A :=
  fun '(h, rg) =>
    match current_column_writer_ rg with
    | None => (Undefined, (h, rg))
    | Some w =>
        let '(r, (s', w')) := m (sink h, w) in
        (r, (set_sink s' h, set_current_column_writer_ (Some w') rg))
    end.

(** Lines 131-142. *)
Definition CheckRowsWritten : M (Heap St * t) unit :=
  current_rows <- on_current_column_writer
                    (gets (fun sw => ColumnWriter.rows_written sw.2)) ;;
  num_rows <- this num_rows_ ;;
  if num_rows <? 0 then
    assign (set_num_rows_ current_rows) ;;
    on_metadata (RowGroupMetaDataBuilder.set_num_rows current_rows)
  else if negb (num_rows =? current_rows) then
    index <- this current_column_index_ ;;
    throw (ParquetException (mismatch_message index current_rows num_rows))
  else ret tt.

(** Lines 76-81. *)
Definition num_rows : M (Heap St * t) Z :=
  open <- this has_column_writer ;;
  when open CheckRowsWritten ;;
  n <- this num_rows_ ;;
  ret (if n <? 0 then 0 else n).

(** [total_bytes_written_ += current_column_writer_->Close()] *)
Definition close_current_column : M (Heap St * t) unit :=
  bytes <- on_current_column_writer ColumnWriter.Close ;;
  total <- this total_bytes_written_ ;;
  total' <- int64_add total bytes ;;
  assign (set_total_bytes_written_ total').

(** Lines 83-103.  The returned pointer is to [current_column_writer_]. *)
Definition NextColumn (meta : list (string * string)) : M (Heap St * t) unit :=
  open <- this has_column_writer ;;
  when open CheckRowsWritten ;;
  on_metadata (RowGroupMetaDataBuilder.NextColumnChunk meta) ;;
  open <- this has_column_writer ;;
  when open close_current_column ;;
  index <- this current_column_index_ ;;
  index' <- int_add index 1 ;;
  assign (set_current_column_index_ index') ;;
  assign (set_current_column_writer_ (Some ColumnWriter.Make)).

(** Lines 107-120. *)
Definition Close : M (Heap St * t) unit :=
  closed <- this closed_ ;;
  when (negb closed) (
    assign (set_closed_ true) ;;
    open <- this has_column_writer ;;
    when open (
      CheckRowsWritten ;;
      close_current_column ;;
      assign (set_current_column_writer_ None)) ;;
    total <- this total_bytes_written_ ;;
    on_metadata (RowGroupMetaDataBuilder.Finish total)).

Definition num_columns : M (Heap St * t) Z :=
  on_metadata (gets RowGroupMetaDataBuilder.num_columns).

Definition current_column : M (Heap St * t) Z :=
  on_metadata (gets RowGroupMetaDataBuilder.current_column).

(** What the caller does through the pointer [NextColumn] returned: write a
    batch to the open column. *)
Definition column_WriteBatch (num_rows : Z) (encoded : list byte)
    : M (Heap St * t) unit :=
  on_current_column_writer
    (modify (fun sw => (sw.1, ColumnWriter.WriteBatch num_rows encoded sw.2))).

End Methods.
End RowGroupSerializer.

(** ** RowGroupWriter (lines 39-56) *)

Module RowGroupWriter.

Record t : Type := mk { contents_ : option RowGroupSerializer.t }.

Section Methods.
Context {St : Type} `{OutputStream St}.

(** [contents_->m] *)
Definition on_contents {A} (m : M (Heap St * RowGroupSerializer.t) A)
    : M (Heap St * t) A :=
  fun '(h, w) =>
    match contents_ w with
    | None => (Undefined, (h, w))
    | Some c => let '(r, (h', c')) := m (h, c) in (r, (h', mk (Some c')))
    end.

Definition Close : M (Heap St * t) unit :=
  fun '(h, w) =>
    match contents_ w with
    | None => (Ok tt, (h, w))
    | Some _ => on_contents RowGroupSerializer.Close (h, w)
    end.

Definition NextColumn (meta : list (string * string)) : M (Heap St * t) unit :=
  on_contents (RowGroupSerializer.NextColumn meta).

Definition current_column : M (Heap St * t) Z :=
  on_contents RowGroupSerializer.current_column.

Definition num_columns : M (Heap St * t) Z :=
  on_contents RowGroupSerializer.num_columns.

Definition num_rows : M (Heap St * t) Z :=
  on_contents RowGroupSerializer.num_rows.

Definition column_WriteBatch (num_rows : Z) (encoded : list byte)
    : M (Heap St * t) unit :=
  on_contents (RowGroupSerializer.column_WriteBatch num_rows encoded).

End Methods.
End RowGroupWriter.

(** ** FileSerializer (lines 153-252) *)

Module FileSerializer.

(** [sink_] is the heap's sink; [schema_] is the number of leaf columns of
    the schema; [properties_] is not read by what is modelled here. *)
Record t : Type := mk {
  schema_ : Z;
  key_value_metadata_ : option (list (string * string));
  is_open_ : bool;
  num_row_groups_ : Z;
  num_rows_ : Z;
  metadata_ : FileMetaDataBuilder.t;
  row_group_writer_ : option RowGroupWriter.t
}.

Definition set_is_open_ (v : bool) (f : t) : t :=
  mk (schema_ f) (key_value_metadata_ f) v (num_row_groups_ f) (num_rows_ f)
     (metadata_ f) (row_group_writer_ f).

Definition set_num_row_groups_ (v : Z) (f : t) : t :=
  mk (schema_ f) (key_value_metadata_ f) (is_open_ f) v (num_rows_ f)
     (metadata_ f) (row_group_writer_ f).

Definition set_num_rows_ (v : Z) (f : t) : t :=
  mk (schema_ f) (key_value_metadata_ f) (is_open_ f) (num_row_groups_ f) v
     (metadata_ f) (row_group_writer_ f).

Definition set_metadata_ (v : FileMetaDataBuilder.t) (f : t) : t :=
  mk (schema_ f) (key_value_metadata_ f) (is_open_ f) (num_row_groups_ f)
     (num_rows_ f) v (row_group_writer_ f).

Definition set_row_group_writer_ (v : option RowGroupWriter.t) (f : t) : t :=
  mk (schema_ f) (key_value_metadata_ f) (is_open_ f) (num_row_groups_ f)
     (num_rows_ f) (metadata_ f) v.

(** [if (row_group_writer_)] *)
Definition has_row_group_writer (f : t) : bool :=
  match row_group_writer_ f with Some _ => true | None => false end.

Section Methods.
Context {St : Type} `{OutputStream St} `{ThriftSerializer}.

Definition this {A} (g : t -> A) : M (Heap St * t) A := gets (fun st => g st.2).

Definition assign (g : t -> t) : M (Heap St * t) unit :=
  modify (fun st => (st.1, g st.2)).

(** [metadata_->m] *)
Definition on_metadata {A} (m : M (Heap St * FileMetaDataBuilder.t) A)
    : M (Heap St * t) A :=
  fun '(h, f) =>
    let '(r, (h', b')) := m (h, metadata_ f) in (r, (h', set_metadata_ b' f)).

(** [row_group_writer_->m] *)
Definition on_row_group_writer {A} (m : M (Heap St * RowGroupWriter.t) A)
    : M (Heap St * t) A :=
  fun '(h, f) =>
    match row_group_writer_ f with
    | None => (Undefined, (h, f))
    | Some w =>
        let '(r, (h', w')) := m (h, w) in (r, (h', set_row_group_writer_ (Some w') f))
    end.

(** Lines 234-237. *)
Definition StartFile : M (Heap St * t) unit := on_sink (Write PARQUET_MAGIC).

(** The constructor, lines 212-224: the members, then [StartFile()]. *)
Definition new (sink : St) (schema : Z)
    (key_value_metadata : option (list (string * string)))
    : Outcome unit * (Heap St * t) :=
  StartFile
    (mkHeap sink [],
     mk schema key_value_metadata true 0 0
        (FileMetaDataBuilder.Make schema key_value_metadata) None).

(** Lines 155-163. *)
Definition Open (sink : St) (schema : Z)
    (key_value_metadata : option (list (string * string)))
    : Outcome unit * (Heap St * t) :=
  new sink schema key_value_metadata.

(** Lines 239-251. *)
Definition WriteMetaData : M (Heap St * t) unit :=
  position <- on_sink (gets Tell) ;;
  let metadata_len := to_uint32 position in
  metadata <- on_metadata FileMetaDataBuilder.Finish ;;
  on_sink (FileMetaData.WriteTo metadata) ;;
  position' <- on_sink (gets Tell) ;;
  let metadata_len := uint32_sub (to_uint32 position') metadata_len in
  on_sink (Write (uint32_object_bytes metadata_len)) ;;
  on_sink (Write PARQUET_MAGIC).

(** Lines 165-179, with the virtual [WriteMetaData] it calls as argument. *)
Definition Close_ (virtual_WriteMetaData : M (Heap St * t) unit)
    : M (Heap St * t) unit :=
  open <- this is_open_ ;;
  when open (
    has <- this has_row_group_writer ;;
    when has (
      n <- on_row_group_writer RowGroupWriter.num_rows ;;
      total <- this num_rows_ ;;
      total' <- int64_add total n ;;
      assign (set_num_rows_ total') ;;
      on_row_group_writer RowGroupWriter.Close) ;;
    assign (set_row_group_writer_ None) ;;
    virtual_WriteMetaData ;;
    on_sink Close ;;
    assign (set_is_open_ false)).

(** [Close] of an object whose dynamic type is [FileSerializer]. *)
Definition Close : M (Heap St * t) unit := Close_ WriteMetaData.

Definition num_columns : M (Heap St * t) Z := this schema_.

Definition num_row_groups : M (Heap St * t) Z := this num_row_groups_.

Definition num_rows : M (Heap St * t) Z := this num_rows_.

(** Lines 191-201.  The returned pointer is to [row_group_writer_]. *)
Definition AppendRowGroup : M (Heap St * t) unit :=
  has <- this has_row_group_writer ;;
  when has (on_row_group_writer RowGroupWriter.Close) ;;
  n <- this num_row_groups_ ;;
  n' <- int_add n 1 ;;
  assign (set_num_row_groups_ n') ;;
  rg_metadata <- on_metadata FileMetaDataBuilder.AppendRowGroup ;;
  assign (set_row_group_writer_
            (Some (RowGroupWriter.mk (Some (RowGroupSerializer.new rg_metadata))))).

(** Lines 203-208.  In a destructor the dynamic type is the class's own, so
    the [WriteMetaData] called is this class's, also for a derived object. *)
Definition destructor : M (Heap St * t) unit := try_catch_all (Close_ WriteMetaData).

End Methods.
End FileSerializer.

(** ** ZdbFileSerializer (lines 256-343) *)

(** [std::map<std::string, std::string>]: ordered by key, one entry per key. *)
Module StringMap := FMapList.Make(String_as_OT).
Module StringMapFacts := FMapFacts.WFacts_fun(String_as_OT)(StringMap).

Module ZdbFileSerializer.

Record t : Type := mk {
  base : FileSerializer.t;
  old_file_meta_ : option FileMetaData.t
}.

(** [*std::inserter(kv_meta, hint) = p], that is [kv_meta.insert(hint, p)]:
    a key that is in the map keeps its value. *)
Definition insert (p : string * string) (kv_meta : StringMap.t string)
    : StringMap.t string :=
  if StringMap.mem p.1 kv_meta then kv_meta else StringMap.add p.1 p.2 kv_meta.

(** [std::transform(first, last, std::inserter(kv_meta, ...), make_pair)] *)
Definition transform_into (kvs : list format.KeyValue.t)
    (kv_meta : StringMap.t string) : StringMap.t string :=
  foldl (fun m kv => insert (format.KeyValue.key kv, format.KeyValue.value kv) m)
        kv_meta kvs.

(** Lines 287-311: the entries of the merged footer. *)
Definition merged_key_value_metadata
    (old_kvs target_kvs : list format.KeyValue.t) : list format.KeyValue.t :=
  let kv_meta := transform_into old_kvs (StringMap.empty string) in
  let kv_meta := transform_into target_kvs kv_meta in
  (fun kv : string * string => format.KeyValue.mk kv.1 kv.2 true)
    <$> StringMap.elements kv_meta.

(** Lines 278-319: what is done to [metadata_target]. *)
Definition merge {S} (metadata_target metadata_old : format.FileMetaData.t)
    : M S FileMetaData.t :=
  let row_groups :=
    format.FileMetaData.row_groups metadata_old
    ++ format.FileMetaData.row_groups metadata_target in
  num_rows <- int64_add (format.FileMetaData.num_rows metadata_target)
                        (format.FileMetaData.num_rows metadata_old) ;;
  let key_value_metadata :=
    merged_key_value_metadata
      (format.FileMetaData.key_value_metadata metadata_old)
      (format.FileMetaData.key_value_metadata metadata_target) in
  let isset :=
    match key_value_metadata with [] => false | _ :: _ => true end in
  ret (FileMetaData.Make
         (format.FileMetaData.mk (format.FileMetaData.schema metadata_target)
            num_rows row_groups key_value_metadata isset)).

Section Methods.
Context {St : Type} `{OutputStream St} `{ThriftSerializer}.

(** Lines 270-327, for the value [old_file_meta] of [old_file_meta_]. *)
Definition WriteMetaData (old_file_meta : option FileMetaData.t)
    : M (Heap St * FileSerializer.t) unit :=
  position <- on_sink (gets Tell) ;;
  let metadata_len := to_uint32 position in
  metadata <- FileSerializer.on_metadata FileMetaDataBuilder.Finish ;;
  let metadata_target := FileMetaData.GetFormatFileMetaData metadata in
  match old_file_meta with
  | None => undefined
  | Some old =>
      let metadata_old := FileMetaData.GetFormatFileMetaData old in
      new_meta <- merge metadata_target metadata_old ;;
      on_sink (FileMetaData.WriteTo new_meta) ;;
      position' <- on_sink (gets Tell) ;;
      let metadata_len := uint32_sub (to_uint32 position') metadata_len in
      on_sink (Write (uint32_object_bytes metadata_len)) ;;
      on_sink (Write PARQUET_MAGIC)
  end.

(** A method of the base class run on the base part of the object. *)
Definition on_base {A} (m : M (Heap St * FileSerializer.t) A) : M (Heap St * t) A :=
  fun '(h, z) =>
    let '(r, (h', f')) := m (h, base z) in (r, (h', mk f' (old_file_meta_ z))).

(** The constructor, lines 329-339: the base class's, then the body.  When
    the body throws, the base class part is already constructed and its
    destructor runs while the exception leaves the constructor. *)
Definition new (sink : St) (schema : Z)
    (key_value_metadata : option (list (string * string)))
    (old_file_meta : option FileMetaData.t)
    : Outcome unit * (Heap St * t) :=
  match FileSerializer.new sink schema key_value_metadata with
  | (Ok _, (h, f)) =>
      match old_file_meta with
      | None =>
          match FileSerializer.StartFile (h, f) with
          | (Throw e, s') =>
              let '(r, (h'', f'')) := FileSerializer.destructor s' in
              (match r with Undefined => Undefined | _ => Throw e end,
               (h'', mk f'' old_file_meta))
          | (r, (h', f')) => (r, (h', mk f' old_file_meta))
          end
      | Some _ => (Ok tt, (h, mk f old_file_meta))
      end
  | (r, (h, f)) => (r, (h, mk f old_file_meta))
  end.

(** Lines 258-268. *)
Definition Open (sink : St) (schema : Z)
    (key_value_metadata : option (list (string * string)))
    (old_file_meta : option FileMetaData.t)
    : Outcome unit * (Heap St * t) :=
  new sink schema key_value_metadata old_file_meta.

(** The inherited [Close] of an object whose dynamic type is
    [ZdbFileSerializer]. *)
Definition Close : M (Heap St * t) unit :=
  fun '(h, z) =>
    on_base (FileSerializer.Close_ (WriteMetaData (old_file_meta_ z))) (h, z).

Definition AppendRowGroup : M (Heap St * t) unit :=
  on_base FileSerializer.AppendRowGroup.

(** The class declares no destructor: its members go, then the base class's
    destructor runs. *)
Definition destructor : M (Heap St * t) unit := on_base FileSerializer.destructor.

End Methods.
End ZdbFileSerializer.

(** ** ParquetFileWriter (lines 349-428) *)

Module ParquetFileWriter.

(** [std::unique_ptr<ParquetFileWriter::Contents>]: the two implementations
    of the abstract class [Contents]. *)
Inductive Contents : Type :=
  | FileSerializer_ (f : FileSerializer.t)
  | ZdbFileSerializer_ (z : ZdbFileSerializer.t).

Record t : Type := mk { contents_ : option Contents }.

Section Methods.
Context {St : Type} `{OutputStream St} `{ThriftSerializer}.

(** A virtual call on [*contents_]. *)
Definition dispatch {A}
    (file : M (Heap St * FileSerializer.t) A)
    (zdb : M (Heap St * ZdbFileSerializer.t) A)
    : M (Heap St * Contents) A :=
  fun '(h, c) =>
    match c with
    | FileSerializer_ f =>
        let '(r, (h', f')) := file (h, f) in (r, (h', FileSerializer_ f'))
    | ZdbFileSerializer_ z =>
        let '(r, (h', z')) := zdb (h, z) in (r, (h', ZdbFileSerializer_ z'))
    end.

(** [contents_->m] *)
Definition on_contents {A} (m : M (Heap St * Contents) A) : M (Heap St * t) A :=
  fun '(h, w) =>
    match contents_ w with
    | None => (Undefined, (h, w))
    | Some c => let '(r, (h', c')) := m (h, c) in (r, (h', mk (Some c')))
    end.

(** [contents_.reset()]: the object is destroyed, the pointer is null. *)
Definition reset_contents : M (Heap St * t) unit :=
  fun '(h, w) =>
    match contents_ w with
    | None => (Ok tt, (h, w))
    | Some c =>
        let '(r, (h', _)) :=
          dispatch FileSerializer.destructor ZdbFileSerializer.destructor (h, c) in
        (r, (h', mk None))
    end.

(** Lines 379-388. *)
Definition Open (sink : St) (schema : Z)
    (key_value_metadata : option (list (string * string)))
    : Outcome unit * (Heap St * t) :=
  let '(r, (h, f)) := FileSerializer.Open sink schema key_value_metadata in
  (r, (h, mk (Some (FileSerializer_ f)))).

(** Lines 366-377. *)
Definition OpenAppend (sink : St) (schema : Z)
    (old_file_meta : option FileMetaData.t)
    (key_value_metadata : option (list (string * string)))
    : Outcome unit * (Heap St * t) :=
  let '(r, (h, z)) :=
    ZdbFileSerializer.Open sink schema key_value_metadata old_file_meta in
  (r, (h, mk (Some (ZdbFileSerializer_ z)))).

(** Lines 411-416. *)
Definition Close : M (Heap St * t) unit :=
  fun '(h, w) =>
    match contents_ w with
    | None => (Ok tt, (h, w))
    | Some _ =>
        (on_contents (dispatch FileSerializer.Close ZdbFileSerializer.Close) ;;
         reset_contents) (h, w)
    end.

(** Lines 351-356: the body, then the member [contents_] is destroyed. *)
Definition destructor : M (Heap St * t) unit :=
  try_catch_all Close ;;
  reset_contents.

(** Lines 418-420. *)
Definition AppendRowGroup : M (Heap St * t) unit :=
  on_contents (dispatch FileSerializer.AppendRowGroup ZdbFileSerializer.AppendRowGroup).

(** Lines 422-424: the overload [AppendRowGroup(int64_t num_rows)]. *)
Definition AppendRowGroup_int64 (num_rows : Z) : M (Heap St * t) unit :=
  AppendRowGroup.

Definition num_columns : M (Heap St * t) Z :=
  on_contents (dispatch FileSerializer.num_columns
                        (ZdbFileSerializer.on_base FileSerializer.num_columns)).

Definition num_rows : M (Heap St * t) Z :=
  on_contents (dispatch FileSerializer.num_rows
                        (ZdbFileSerializer.on_base FileSerializer.num_rows)).

Definition num_row_groups : M (Heap St * t) Z :=
  on_contents (dispatch FileSerializer.num_row_groups
                        (ZdbFileSerializer.on_base FileSerializer.num_row_groups)).

(** The calls on the writer of the open row group, through the pointer
    [AppendRowGroup] returned. *)
Definition on_row_group_writer {A} (m : M (Heap St * RowGroupWriter.t) A)
    : M (Heap St * t) A :=
  on_contents (dispatch (FileSerializer.on_row_group_writer m)
                        (ZdbFileSerializer.on_base (FileSerializer.on_row_group_writer m))).

End Methods.
End ParquetFileWriter.

(** Methods are unfolded by name in the proofs, never by [simpl]. *)
Arguments ColumnWriter.Close : simpl never.
Arguments FileMetaData.WriteTo : simpl never.
Arguments FileMetaDataBuilder.AppendRowGroup : simpl never.
Arguments FileMetaDataBuilder.Finish : simpl never.
Arguments RowGroupSerializer.CheckRowsWritten : simpl never.
Arguments RowGroupSerializer.num_rows : simpl never.
Arguments RowGroupSerializer.close_current_column : simpl never.
Arguments RowGroupSerializer.NextColumn : simpl never.
Arguments RowGroupSerializer.Close : simpl never.
Arguments RowGroupSerializer.column_WriteBatch : simpl never.
Arguments RowGroupWriter.Close : simpl never.
Arguments RowGroupWriter.NextColumn : simpl never.
Arguments RowGroupWriter.num_rows : simpl never.
Arguments RowGroupWriter.column_WriteBatch : simpl never.
Arguments FileSerializer.StartFile : simpl never.
Arguments FileSerializer.new : simpl never.
Arguments FileSerializer.WriteMetaData : simpl never.
Arguments FileSerializer.Close_ : simpl never.
Arguments FileSerializer.Close : simpl never.
Arguments FileSerializer.AppendRowGroup : simpl never.
Arguments FileSerializer.destructor : simpl never.
Arguments ZdbFileSerializer.merge : simpl never.
Arguments ZdbFileSerializer.WriteMetaData : simpl never.
Arguments ZdbFileSerializer.Close : simpl never.
Arguments ZdbFileSerializer.AppendRowGroup : simpl never.
Arguments ZdbFileSerializer.destructor : simpl never.
Arguments ParquetFileWriter.Close : simpl never.
Arguments ParquetFileWriter.AppendRowGroup : simpl never.
Arguments ParquetFileWriter.destructor : simpl never.
Arguments ParquetFileWriter.reset_contents : simpl never.

(** * The caller's side *)

(** ** The calls on a file *)

(** The calls a program makes on the objects it got from [Open],
    [AppendRowGroup] and [NextColumn]. *)
Inductive Call : Type :=
  | CallAppendRowGroup
  | CallAppendRowGroup_int64 (num_rows : Z)
  | CallNextColumn (meta : list (string * string))
  | CallWriteBatch (num_rows : Z) (encoded : list byte)
  | CallRowGroupNumRows
  | CallRowGroupClose
  | CallNumRows
  | CallClose.

Section Calls.
Context {St : Type} `{OutputStream St} `{ThriftSerializer}.

Definition call (c : Call) : M (Heap St * ParquetFileWriter.t) unit :=
  match c with
  | CallAppendRowGroup => ParquetFileWriter.AppendRowGroup
  | CallAppendRowGroup_int64 n => ParquetFileWriter.AppendRowGroup_int64 n
  | CallNextColumn meta =>
      ParquetFileWriter.on_row_group_writer (RowGroupWriter.NextColumn meta)
  | CallWriteBatch n encoded =>
      ParquetFileWriter.on_row_group_writer (RowGroupWriter.column_WriteBatch n encoded)
  | CallRowGroupNumRows =>
      ParquetFileWriter.on_row_group_writer RowGroupWriter.num_rows ;; ret tt
  | CallRowGroupClose =>
      ParquetFileWriter.on_row_group_writer RowGroupWriter.Close
  | CallNumRows => ParquetFileWriter.num_rows ;; ret tt
  | CallClose => ParquetFileWriter.Close
  end.

Fixpoint calls (cs : list Call) : M (Heap St * ParquetFileWriter.t) unit :=
  match cs with
  | [] => ret tt
  | c :: cs' => call c ;; calls cs'
  end.

End Calls.

(** ** The calls on a row group *)

(** What a caller does on a row group writer between its creation and its
    [Close]. *)
Inductive ColumnCall : Type :=
  | ColNextColumn (meta : list (string * string))
  | ColWriteBatch (num_rows : Z) (encoded : list byte)
  | ColNumRows.

(** The number of columns opened so far: one more than the schema index of
    the column that is open. *)
Fixpoint opened (cs : list ColumnCall) : Z :=
  match cs with
  | [] => 0
  | ColNextColumn _ :: cs' => 1 + opened cs'
  | _ :: cs' => opened cs'
  end.

Section ColumnCalls_def.
Context {St : Type} `{OutputStream St}.

Definition column_call (c : ColumnCall) : M (Heap St * RowGroupSerializer.t) unit :=
  match c with
  | ColNextColumn meta => RowGroupSerializer.NextColumn meta
  | ColWriteBatch n encoded => RowGroupSerializer.column_WriteBatch n encoded
  | ColNumRows => RowGroupSerializer.num_rows ;; ret tt
  end.

Fixpoint column_calls (cs : list ColumnCall) : M (Heap St * RowGroupSerializer.t) unit :=
  match cs with
  | [] => ret tt
  | c :: cs' => column_call c ;; column_calls cs'
  end.

End ColumnCalls_def.

(** * Notions the properties are stated with *)

Section RowCount_def.
Context {St : Type}.

(** [metadata_->set_num_rows(n)] on the heap. *)
Definition record_num_rows (n : Z) (p : nat) (h : Heap St) : Heap St :=
  match row_group_builders h !! p with
  | Some b =>
      set_row_group_builders
        (<[p := (RowGroupMetaDataBuilder.set_num_rows n b).2]> (row_group_builders h)) h
  | None => h
  end.

(** The row group's row count is [n], in the serializer and in the
    row-group metadata. *)
Definition recorded (n : Z) (s : Heap St * RowGroupSerializer.t) : Prop :=
  RowGroupSerializer.num_rows_ s.2 = n
  /\ exists b,
       row_group_builders s.1 !! RowGroupSerializer.metadata_ s.2 = Some b
       /\ RowGroupMetaDataBuilder.num_rows_ b = n.

End RowCount_def.

(** ** Close, and the footer *)

Section Close_def.
Context {St : Type} `{OutputStream St}.

(** The part of [Close] before the footer: the open row group is closed and
    its writer released. *)
Definition close_open_row_group : M (Heap St * FileSerializer.t) unit :=
  has <- FileSerializer.this FileSerializer.has_row_group_writer ;;
  when has (
    n <- FileSerializer.on_row_group_writer RowGroupWriter.num_rows ;;
    total <- FileSerializer.this FileSerializer.num_rows_ ;;
    total' <- int64_add total n ;;
    FileSerializer.assign (FileSerializer.set_num_rows_ total') ;;
    FileSerializer.on_row_group_writer RowGroupWriter.Close) ;;
  FileSerializer.assign (FileSerializer.set_row_group_writer_ None).

End Close_def.

(** The file is still open: it has its serializer, which [Close] has not
    closed. *)
Definition still_open (w : ParquetFileWriter.t) : Prop :=
  match ParquetFileWriter.contents_ w with
  | Some (ParquetFileWriter.FileSerializer_ f) => FileSerializer.is_open_ f = true
  | Some (ParquetFileWriter.ZdbFileSerializer_ z) =>
      FileSerializer.is_open_ (ZdbFileSerializer.base z) = true
  | None => False
  end.

(** What a position difference is once it went through [uint32_t]. *)
Definition footer_length_field (footer_bytes : list byte) : list byte :=
  uint32_object_bytes (to_uint32 (Z.of_nat (length footer_bytes))).

(** ** Key-value entries as a mapping *)

(** The value of [k] in a list of entries read as a mapping: that of the
    first entry with this key. *)
Fixpoint lookup_key (k : string) (kvs : list format.KeyValue.t) : option string :=
  match kvs with
  | [] => None
  | kv :: kvs' =>
      if decide (format.KeyValue.key kv = k)
      then Some (format.KeyValue.value kv)
      else lookup_key k kvs'
  end.

(** The union as section 4.4 of the specification words it: on a collision
    "the mapping built during this run's write wins over the old file's
    value". *)
Definition union_new_wins (old_kvs new_kvs : list format.KeyValue.t) (k : string)
    : option string :=
  match lookup_key k new_kvs with
  | Some v => Some v
  | None => lookup_key k old_kvs
  end.

(** The union in which the old file's value stays. *)
Definition union_old_wins (old_kvs new_kvs : list format.KeyValue.t) (k : string)
    : option string :=
  match lookup_key k old_kvs with
  | Some v => Some v
  | None => lookup_key k new_kvs
  end.

(** ** The serializer behind the writer *)

(** The [FileSerializer] part of the object [contents_] points to. *)
Definition file_of (w : ParquetFileWriter.t) : option FileSerializer.t :=
  match ParquetFileWriter.contents_ w with
  | Some (ParquetFileWriter.FileSerializer_ f) => Some f
  | Some (ParquetFileWriter.ZdbFileSerializer_ z) => Some (ZdbFileSerializer.base z)
  | None => None
  end.

(** [old_file_meta_] of the serializer behind the writer, if it is the
    append variant. *)
Definition old_file_meta_of (w : ParquetFileWriter.t) : option (option FileMetaData.t) :=
  match ParquetFileWriter.contents_ w with
  | Some (ParquetFileWriter.ZdbFileSerializer_ z) =>
      Some (ZdbFileSerializer.old_file_meta_ z)
  | _ => None
  end.

Section FileRows_def.
Context {St : Type} `{OutputStream St}.

(** What [Close] has added to [num_rows_]: what [num_rows()] of the row
    group open at that point returned, nothing if there is none. *)
Definition adds_the_open_rows (h : Heap St) (f f' : FileSerializer.t) : Prop :=
  match FileSerializer.row_group_writer_ f with
  | None => FileSerializer.num_rows_ f' = FileSerializer.num_rows_ f
  | Some w =>
      exists n s1,
        RowGroupWriter.num_rows (h, w) = (Ok n, s1)
        /\ FileSerializer.num_rows_ f' = FileSerializer.num_rows_ f + n
  end.

End FileRows_def.

(** ** What a run of calls asked for *)

(** The number of [AppendRowGroup] calls, of either overload. *)
Fixpoint appended (cs : list Call) : Z :=
  match cs with
  | [] => 0
  | (CallAppendRowGroup | CallAppendRowGroup_int64 _) :: cs' => 1 + appended cs'
  | _ :: cs' => appended cs'
  end.

Section CallsCaught_def.
Context {St : Type} `{OutputStream St} `{ThriftSerializer}.

(** A program that catches what a call throws and goes on with the next
    call. *)
Fixpoint calls_caught (cs : list Call) : M (Heap St * ParquetFileWriter.t) unit :=
  match cs with
  | [] => ret tt
  | c :: cs' => try_catch_all (call c) ;; calls_caught cs'
  end.

(** The number of [AppendRowGroup] calls of that program, of either
    overload, that returned. *)
Fixpoint appended_and_returned (cs : list Call)
    (s : Heap St * ParquetFileWriter.t) : Z :=
  match cs with
  | [] => 0
  | c :: cs' =>
      match call c s with
      | (Ok _, s1) => appended [c] + appended_and_returned cs' s1
      | (Throw _, s1) => appended_and_returned cs' s1
      | (Undefined, _) => 0
      end
  end.

End CallsCaught_def.

(** The rows written to each column [cs] opens, in the order the columns
    are opened, after [cur] for the column that is open at the start. *)
Fixpoint rows_per_column_from (cur : option Z) (cs : list ColumnCall) : list Z :=
  match cs with
  | [] => match cur with Some n => [n] | None => [] end
  | ColNextColumn _ :: cs' =>
      match cur with
      | Some n => n :: rows_per_column_from (Some 0) cs'
      | None => rows_per_column_from (Some 0) cs'
      end
  | ColWriteBatch n _ :: cs' =>
      rows_per_column_from (match cur with Some k => Some (k + n) | None => None end) cs'
  | ColNumRows :: cs' => rows_per_column_from cur cs'
  end.

Definition rows_per_column (cs : list ColumnCall) : list Z :=
  rows_per_column_from None cs.

(** No batch has a negative number of rows. *)
Definition batch_nonneg (c : ColumnCall) : Prop :=
  match c with
  | ColWriteBatch n _ => 0 <= n
  | _ => True
  end.

(** * Concrete inputs *)

(** A stand-in for the Thrift encoding: the total row count, the number of
    row groups and of key-value entries, then each entry's key length. *)
Definition toy_thrift : ThriftSerializer :=
  fun m =>
    byte_of_Z (format.FileMetaData.num_rows m)
    :: byte_of_Z (Z.of_nat (length (format.FileMetaData.row_groups m)))
    :: byte_of_Z (Z.of_nat (length (format.FileMetaData.key_value_metadata m)))
    :: ((fun kv => byte_of_Z (Z.of_nat (String.length (format.KeyValue.key kv))))
          <$> format.FileMetaData.key_value_metadata m).

(** The footer of the example of section 8: one row group of 80 rows, the
    entry a = 1. *)
Definition old_footer_a1 : format.FileMetaData.t :=
  format.FileMetaData.mk 1 80 [format.RowGroup.mk [[]] 640 80]
    [format.KeyValue.mk "a" "1" true] true.

(** What this run's [Finish] gives in that example: one row group of 20
    rows, the entries a = 2 and b = 3. *)
Definition new_footer_a2_b3 : format.FileMetaData.t :=
  format.FileMetaData.mk 1 20 [format.RowGroup.mk [[]] 160 20]
    [format.KeyValue.mk "a" "2" true; format.KeyValue.mk "b" "3" true] true.

(** An old footer with nine key-value entries. *)
Definition old_footer_of_nine_keys : format.FileMetaData.t :=
  format.FileMetaData.mk 1 80 [format.RowGroup.mk [[]] 640 80]
    ((fun k => format.KeyValue.mk k "1" true)
       <$> ["a"; "b"; "c"; "d"; "e"; "f"; "g"; "h"; "i"])
    true.

(** Two row groups of one column each, of 100 and of 50 rows. *)
Definition two_row_groups_100_50 : list Call :=
  [ CallAppendRowGroup; CallNextColumn []; CallWriteBatch 100 [Byte.x01];
    CallAppendRowGroup; CallNextColumn []; CallWriteBatch 50 [Byte.x02] ].

(** A row group on a schema of two columns, just appended. *)
Definition fresh_row_group_of_two_columns
    : Heap InMemoryOutputStream.t * RowGroupSerializer.t :=
  (mkHeap InMemoryOutputStream.empty [RowGroupMetaDataBuilder.Make 2],
   RowGroupSerializer.new 0).

(** Column 0 with 100 rows, then column 1 with 99 rows. *)
Definition columns_100_then_99 : list ColumnCall :=
  [ ColNextColumn []; ColWriteBatch 100 [Byte.x01];
    ColNextColumn []; ColWriteBatch 99 [Byte.x02] ].

Section Inputs.
#[local] Existing Instance toy_thrift.

(** [contents_->Close()], the [Close] of the serializer itself. *)
Definition contents_Close
    : M (Heap InMemoryOutputStream.t * ParquetFileWriter.t) unit :=
  ParquetFileWriter.on_contents
    (ParquetFileWriter.dispatch FileSerializer.Close ZdbFileSerializer.Close).

(** The example of section 8 on the serializer: a file opened for append on
    [old_footer_a1], with the entries a = 2 and b = 3 and one row group of 20
    rows, at the point where [Close] calls [WriteMetaData]. *)
Definition append_run_before_footer
    : Heap InMemoryOutputStream.t * FileSerializer.t :=
  let opened :=
    (ZdbFileSerializer.Open InMemoryOutputStream.empty 1
       (Some [("a", "2"); ("b", "3")]) (Some old_footer_a1)).2 in
  let s :=
    ((FileSerializer.AppendRowGroup ;;
      FileSerializer.on_row_group_writer (RowGroupWriter.NextColumn []) ;;
      FileSerializer.on_row_group_writer
        (RowGroupWriter.column_WriteBatch 20 [Byte.x07; Byte.x08]) ;;
      FileSerializer.on_row_group_writer RowGroupWriter.Close ;;
      FileSerializer.assign (FileSerializer.set_row_group_writer_ None))
       (opened.1, ZdbFileSerializer.base opened.2)).2 in
  s.

Definition append_run_after_footer
    : Heap InMemoryOutputStream.t * FileSerializer.t :=
  (ZdbFileSerializer.WriteMetaData (Some old_footer_a1) append_run_before_footer).2.

(** A file of one row group of 10 rows on a device of 7 bytes: the magic
    marker and the column's byte fit, the footer does not. *)
Definition file_on_full_device
    : Heap BoundedOutputStream.t * ParquetFileWriter.t :=
  (calls [CallAppendRowGroup; CallNextColumn []; CallWriteBatch 10 [Byte.x01]]
     (ParquetFileWriter.Open (BoundedOutputStream.mk [] 7 0) 1 None).2).2.

(** A file of one row group on a schema of two columns, the first column
    written with 10 rows and the second not opened. *)
Definition file_with_a_missing_column
    : Heap InMemoryOutputStream.t * FileSerializer.t :=
  ((FileSerializer.AppendRowGroup ;;
    FileSerializer.on_row_group_writer (RowGroupWriter.NextColumn []) ;;
    FileSerializer.on_row_group_writer
      (RowGroupWriter.column_WriteBatch 10 [Byte.x01]))
     (FileSerializer.Open InMemoryOutputStream.empty 2 None).2).2.

(** A file opened for append on [old_footer_of_nine_keys], with one row
    group of 10 rows, on a device of 16 bytes: the footer of this run fits,
    the merged footer does not. *)
Definition append_file_on_small_device
    : Heap BoundedOutputStream.t * ParquetFileWriter.t :=
  (calls [CallAppendRowGroup; CallNextColumn []; CallWriteBatch 10 [Byte.x01]]
     (ParquetFileWriter.OpenAppend (BoundedOutputStream.mk [] 16 0) 1
        (Some old_footer_of_nine_keys) None).2).2.

End Inputs.

(** * Properties *)

(** ** The monad *)

Lemma bind_Ok {S A B} (m : M S A) (k : A -> M S B) s a s1 :
  m s = (Ok a, s1) -> bind m k s = k a s1.
Proof. unfold bind. by intros ->. Qed.

Lemma bind_Throw {S A B} (m : M S A) (k : A -> M S B) s e s1 :
  m s = (Throw e, s1) -> bind m k s = (Throw e, s1).
Proof. unfold bind. by intros ->. Qed.

Lemma bind_Ok_inv {S A B} (m : M S A) (k : A -> M S B) s b s' :
  bind m k s = (Ok b, s') ->
  exists a s1, m s = (Ok a, s1) /\ k a s1 = (Ok b, s').
Proof.
  unfold bind. destruct (m s) as [[a|e|] s1]; [eauto | discriminate..].
Qed.

Lemma bind_Throw_inv {S A B} (m : M S A) (k : A -> M S B) s e s' :
  bind m k s = (Throw e, s') ->
  m s = (Throw e, s') \/ exists a s1, m s = (Ok a, s1) /\ k a s1 = (Throw e, s').
Proof.
  unfold bind. destruct (m s) as [[a|e1|] s1]; [by right; exists a, s1 | | done].
  intros [= -> ->]. by left.
Qed.

Lemma bind_assoc {S A B C} (m : M S A) (k1 : A -> M S B) (k2 : B -> M S C) s :
  bind (bind m k1) k2 s = bind m (fun a => bind (k1 a) k2) s.
Proof. unfold bind. by destruct (m s) as [[a|e|] s1]. Qed.

Lemma try_catch_all_never_throws {S} (m : M S unit) s e :
  (try_catch_all m s).1 <> Throw e.
Proof. unfold try_catch_all. by destruct (m s) as [[[]|e'|] s1]. Qed.

Lemma try_catch_all_Throw {S} (m : M S unit) s e s1 :
  m s = (Throw e, s1) -> try_catch_all m s = (Ok tt, s1).
Proof. unfold try_catch_all. by intros ->. Qed.

(** Splits a successful sequence into its steps. *)
Ltac bind_inv H :=
  let a := fresh "a" in
  let s := fresh "s" in
  let H1 := fresh H in
  apply bind_Ok_inv in H as (a & s & H1 & H).

(** ** AppendRowGroup(int64_t) *)

Section AppendRowGroup_int64.
Context {St : Type} `{OutputStream St} `{ThriftSerializer}.

(** C8: for every [num_rows], [AppendRowGroup(num_rows)] is
    [AppendRowGroup()]: the same outcome and the same state from every
    state, hence the same behaviour of whatever the caller runs next; the
    argument does not reach the row group, whose row count comes from what
    is written to its columns. *)
Theorem AppendRowGroup_int64_ignores_its_argument (num_rows : Z) :
  (forall s : Heap St * ParquetFileWriter.t,
     ParquetFileWriter.AppendRowGroup_int64 num_rows s
     = ParquetFileWriter.AppendRowGroup s)
  /\ (forall (rest : list Call) (s : Heap St * ParquetFileWriter.t),
        calls (CallAppendRowGroup_int64 num_rows :: rest) s
        = calls (CallAppendRowGroup :: rest) s)
  /\ (forall (s : Heap St * ParquetFileWriter.t) r h w f g c,
        ParquetFileWriter.AppendRowGroup_int64 num_rows s = (r, (h, w)) ->
        ParquetFileWriter.contents_ w = Some (ParquetFileWriter.FileSerializer_ f) ->
        FileSerializer.row_group_writer_ f = Some g ->
        RowGroupWriter.contents_ g = Some c ->
        r = Ok tt ->
        exists p, c = RowGroupSerializer.new p).
Proof.
  split; [done | split; [done |]].
  intros [h0 [[[f0|z0]|]]] r h w f g c; unfold ParquetFileWriter.AppendRowGroup_int64,
    ParquetFileWriter.AppendRowGroup, ParquetFileWriter.on_contents,
    ParquetFileWriter.dispatch; simpl; [| |by intros [= <- _ _]].
  - destruct (FileSerializer.AppendRowGroup (h0, f0)) as [r1 [h1 f1]] eqn:E.
    intros [= <- <- <-] [= <-] Hg Hc ->.
    unfold FileSerializer.AppendRowGroup in E.
    bind_inv E. bind_inv E. bind_inv E. bind_inv E. bind_inv E. bind_inv E.
    unfold FileSerializer.assign, modify in E. simplify_eq/=. eauto.
  - unfold ZdbFileSerializer.AppendRowGroup, ZdbFileSerializer.on_base.
    intros; repeat case_match; simplify_eq/=.
Qed.

End AppendRowGroup_int64.

Section AppendRowGroup_int64_run.
#[local] Existing Instance toy_thrift.

(** The two overloads on a file just opened over an empty stream, followed by
    a column of three rows and [Close]: the same bytes, whatever the
    argument. *)
Lemma AppendRowGroup_int64_ignores_its_argument_witness :
  let s := (ParquetFileWriter.Open InMemoryOutputStream.empty 1 None).2 in
  let rest := [CallNextColumn []; CallWriteBatch 3 [Byte.x2a]; CallClose] in
  calls (CallAppendRowGroup_int64 7 :: rest) s = calls (CallAppendRowGroup :: rest) s.
Proof.
  intros s rest.
  apply (proj1 (proj2 (AppendRowGroup_int64_ignores_its_argument 7)) rest s).
Defined.

End AppendRowGroup_int64_run.

(** ** The magic marker at open *)

Section StartFile.
Context {St : Type} `{OutputStream St} `{ThriftSerializer}.

Lemma StartFile_Ok (h h' : Heap St) (f f' : FileSerializer.t) :
  FileSerializer.StartFile (h, f) = (Ok tt, (h', f')) ->
  written (sink h') = written (sink h) ++ PARQUET_MAGIC
  /\ closes (sink h') = closes (sink h)
  /\ row_group_builders h' = row_group_builders h /\ f' = f.
Proof.
  unfold FileSerializer.StartFile, on_sink.
  destruct (Write PARQUET_MAGIC (sink h)) as [r s'] eqn:E.
  intros [= -> <- <-]. by apply Write_Ok in E as [E1 E2].
Qed.

Lemma FileSerializer_new_Ok (sink0 : St) schema kv h f :
  FileSerializer.new sink0 schema kv = (Ok tt, (h, f)) ->
  written (sink h) = written sink0 ++ PARQUET_MAGIC
  /\ closes (sink h) = closes sink0
  /\ row_group_builders h = []
  /\ f = FileSerializer.mk schema kv true 0 0 (FileMetaDataBuilder.Make schema kv) None.
Proof.
  unfold FileSerializer.new. intros E.
  by apply StartFile_Ok in E as (-> & -> & -> & ->).
Qed.

(** A constructor of the append variant that returns: the base class's
    constructor returned, and so did the second [StartFile] if there is no
    old footer. *)
Lemma ZdbFileSerializer_new_Ok (sink0 : St) schema kv old h z :
  ZdbFileSerializer.new sink0 schema kv old = (Ok tt, (h, z)) ->
  exists h1 f1,
    FileSerializer.new sink0 schema kv = (Ok tt, (h1, f1))
    /\ match old with
       | None => FileSerializer.StartFile (h1, f1) = (Ok tt, (h, ZdbFileSerializer.base z))
       | Some _ => h = h1 /\ ZdbFileSerializer.base z = f1
       end
    /\ ZdbFileSerializer.old_file_meta_ z = old.
Proof.
  unfold ZdbFileSerializer.new.
  destruct (FileSerializer.new sink0 schema kv) as [[[]|e|] [h1 f1]] eqn:E1;
    [| intros; simplify_eq..].
  destruct old as [old|].
  - intros [= <- <-]. by exists h1, f1.
  - destruct (FileSerializer.StartFile (h1, f1)) as [[[]|e|] [h2 f2]] eqn:E2.
    + intros [= <- <-]. by exists h1, f1.
    + destruct (FileSerializer.destructor _) as [[[]|e'|] [h3 f3]]; intros; simplify_eq.
    + intros; simplify_eq.
Qed.

(** C9: [OpenAppend] with a null [old_file_meta] writes the magic marker
    twice while the object is constructed (the base class's constructor, then
    the derived class's), so a file over an empty stream begins with 8 magic
    bytes; with an old footer the marker is written once. *)
Theorem OpenAppend_null_old_footer_writes_magic_twice
    (sink0 : St) (schema : Z) (kv : option (list (string * string))) :
  (forall h w,
     ParquetFileWriter.OpenAppend sink0 schema None kv = (Ok tt, (h, w)) ->
     written (sink h) = written sink0 ++ PARQUET_MAGIC ++ PARQUET_MAGIC)
  /\ (forall old h w,
        ParquetFileWriter.OpenAppend sink0 schema (Some old) kv = (Ok tt, (h, w)) ->
        written (sink h) = written sink0 ++ PARQUET_MAGIC).
Proof.
  unfold ParquetFileWriter.OpenAppend, ZdbFileSerializer.Open.
  split.
  - intros h w.
    destruct (ZdbFileSerializer.new sink0 schema kv None) as [r [h2 z2]] eqn:E.
    intros [= -> <- <-].
    apply ZdbFileSerializer_new_Ok in E as (h1 & f1 & E1 & E2 & _).
    apply FileSerializer_new_Ok in E1 as (E1 & _).
    apply StartFile_Ok in E2 as (E2 & _).
    by rewrite E2, E1, <- app_assoc.
  - intros old h w.
    destruct (ZdbFileSerializer.new sink0 schema kv (Some old)) as [r [h2 z2]] eqn:E.
    intros [= -> <- <-].
    apply ZdbFileSerializer_new_Ok in E as (h1 & f1 & E1 & [-> _] & _).
    by apply FileSerializer_new_Ok in E1 as (E1 & _).
Qed.

End StartFile.

Section StartFile_run.
#[local] Existing Instance toy_thrift.

Lemma OpenAppend_null_old_footer_writes_magic_twice_witness :
  InMemoryOutputStream.buffer
    (sink (ParquetFileWriter.OpenAppend InMemoryOutputStream.empty 2 None None).2.1)
  = PARQUET_MAGIC ++ PARQUET_MAGIC.
Proof.
  set (x := ParquetFileWriter.OpenAppend InMemoryOutputStream.empty 2 None None).
  exact (proj1 (OpenAppend_null_old_footer_writes_magic_twice
                  InMemoryOutputStream.empty 2 None) x.2.1 x.2.2 eq_refl).
Defined.

(** Outside the theorem: a device with room for one magic marker and three
    bytes more.  The second [StartFile] throws in the constructor of the
    append variant; the base class part is constructed, so its destructor
    runs [Close], which writes the footer and throws at the length field;
    the exception of [StartFile] is the one that leaves [OpenAppend]. *)
Lemma OpenAppend_whose_StartFile_throws_runs_the_base_destructor :
  let r := ParquetFileWriter.OpenAppend (BoundedOutputStream.mk [] 7 0) 1 None None in
  r.1 = Throw (ParquetException "IOError: no space left on device")
  /\ written (sink r.2.1)
     = PARQUET_MAGIC ++ toy_thrift (format.FileMetaData.mk 1 0 [] [] false)
  /\ closes (sink r.2.1) = 0%nat.
Proof. vm_compute. done. Qed.

End StartFile_run.

(** ** The file's row count *)

Section File_totals_run.
#[local] Existing Instance toy_thrift.

(** C1, on the code: a file of two row groups of 100 and 50 rows.  After the
    serializer's [Close] its [num_rows()] is 50, the rows of the last group:
    [AppendRowGroup] closes the first group without adding its rows to
    [num_rows_], which only [Close] does, for the group open then.  The row
    groups' own metadata hold 100 and 50.  After the public
    [ParquetFileWriter::Close()], [contents_] is null and [num_rows()] has no
    defined result. *)
Theorem num_rows_after_Close_counts_the_last_row_group_only :
  let s0 := (ParquetFileWriter.Open InMemoryOutputStream.empty 1 None).2 in
  let r := (calls two_row_groups_100_50 ;; contents_Close ;;
            ParquetFileWriter.num_rows) s0 in
  r.1 = Ok 50
  /\ RowGroupMetaDataBuilder.num_rows_ <$> row_group_builders r.2.1 = [100; 50]
  /\ ((calls two_row_groups_100_50 ;; ParquetFileWriter.num_row_groups) s0).1 = Ok 2
  /\ ((calls two_row_groups_100_50 ;; ParquetFileWriter.Close ;;
       ParquetFileWriter.num_rows) s0).1 = Undefined.
Proof. vm_compute. done. Qed.

End File_totals_run.

(** ** The merged key-value metadata *)

Lemma find_insert (p : string * string) (m : StringMap.t string) (k : string) :
  StringMap.find k (ZdbFileSerializer.insert p m)
  = match StringMap.find k m with
    | Some v => Some v
    | None => if decide (p.1 = k) then Some p.2 else None
    end.
Proof.
  unfold ZdbFileSerializer.insert.
  rewrite StringMapFacts.mem_find_b.
  destruct (StringMap.find p.1 m) as [v1|] eqn:E1.
  - destruct (StringMap.find k m) eqn:E; [done |].
    case_decide; [congruence | done].
  - rewrite StringMapFacts.add_o.
    destruct (String_as_OT.eq_dec p.1 k) as [Heq|Hne].
    + rewrite <- Heq, E1. by rewrite decide_True.
    + rewrite decide_False by done. by destruct (StringMap.find k m).
Qed.

Lemma find_transform_into (kvs : list format.KeyValue.t) (m : StringMap.t string)
    (k : string) :
  StringMap.find k (ZdbFileSerializer.transform_into kvs m)
  = match StringMap.find k m with
    | Some v => Some v
    | None => lookup_key k kvs
    end.
Proof.
  unfold ZdbFileSerializer.transform_into.
  revert m. induction kvs as [|kv kvs IH]; intros m; simpl.
  - by destruct (StringMap.find k m).
  - rewrite IH, find_insert. simpl.
    destruct (StringMap.find k m); [done |]. by case_decide.
Qed.

Lemma lookup_key_elements (m : StringMap.t string) (k : string) :
  lookup_key k
    ((fun kv : string * string => format.KeyValue.mk kv.1 kv.2 true)
       <$> StringMap.elements m)
  = StringMap.find k m.
Proof.
  rewrite StringMapFacts.elements_o.
  induction (StringMap.elements m) as [|[k' v] l IH]; simpl; [done |].
  unfold StringMapFacts.eqb.
  destruct (String_as_OT.eq_dec k k') as [->|Hne].
  - by rewrite decide_True.
  - rewrite decide_False by congruence. done.
Qed.

(** Old entries win: the second [std::transform] inserts, and [insert] does
    not replace. *)
Lemma lookup_key_merged (old_kvs target_kvs : list format.KeyValue.t) (k : string) :
  lookup_key k (ZdbFileSerializer.merged_key_value_metadata old_kvs target_kvs)
  = union_old_wins old_kvs target_kvs k.
Proof.
  unfold ZdbFileSerializer.merged_key_value_metadata, union_old_wins.
  rewrite lookup_key_elements, !find_transform_into.
  rewrite StringMapFacts.empty_o.
  by destruct (lookup_key k old_kvs).
Qed.

(** One entry per key. *)
Lemma merged_keys_NoDup (old_kvs target_kvs : list format.KeyValue.t) :
  NoDup (format.KeyValue.key
           <$> ZdbFileSerializer.merged_key_value_metadata old_kvs target_kvs).
Proof.
  unfold ZdbFileSerializer.merged_key_value_metadata.
  set (m := ZdbFileSerializer.transform_into _ _).
  pose proof (StringMap.elements_3w m) as Hnd.
  induction Hnd as [|[k v] l Hnotin Hnd IH]; simpl; [constructor |].
  constructor; [| done].
  intros Hin. apply Hnotin.
  apply list_elem_of_fmap in Hin as (kv & Hk & Hin).
  apply list_elem_of_fmap in Hin as ([k' v'] & -> & Hin).
  simpl in Hk. subst k'.
  apply InA_alt. exists (k, v'). split; [done |]. by apply list_elem_of_In.
Qed.

Lemma merged_nil_iff (old_kvs target_kvs : list format.KeyValue.t) :
  ZdbFileSerializer.merged_key_value_metadata old_kvs target_kvs = []
  <-> old_kvs = [] /\ target_kvs = [].
Proof.
  split.
  - intros E.
    assert (Hk : forall k, union_old_wins old_kvs target_kvs k = None).
    { intros k. by rewrite <- lookup_key_merged, E. }
    unfold union_old_wins in Hk.
    destruct old_kvs as [|kv1 l1].
    + destruct target_kvs as [|kv2 l2]; [done |].
      specialize (Hk (format.KeyValue.key kv2)). simpl in Hk.
      by rewrite decide_True in Hk.
    + specialize (Hk (format.KeyValue.key kv1)). simpl in Hk.
      by rewrite decide_True in Hk.
  - by intros [-> ->].
Qed.

(** ** The footer and what follows it *)

Lemma uint32_sub_to_uint32 (a b : Z) :
  uint32_sub (to_uint32 a) (to_uint32 b) = to_uint32 (a - b).
Proof. unfold uint32_sub, to_uint32. by rewrite <- Zminus_mod. Qed.

Lemma byte_of_Z_to_N (z : Z) : Z.of_N (Byte.to_N (byte_of_Z z)) = Z.land z 255.
Proof.
  unfold byte_of_Z.
  assert (Hr : 0 <= Z.land z 255 < 256).
  { change 255 with (Z.ones 8). rewrite Z.land_ones by lia. apply Z.mod_pos_bound. lia. }
  destruct (Byte.of_N (Z.to_N (Z.land z 255))) as [b|] eqn:E.
  - apply Byte.to_of_N in E. rewrite E. lia.
  - apply Byte.of_N_None_iff in E. lia.
Qed.

(** The 4 bytes of a length read back give the length. *)
Lemma uint32_of_object_bytes (v : Z) :
  0 <= v < 2 ^ 32 -> uint32_of_bytes (uint32_object_bytes v) = v.
Proof.
  intros Hv. unfold uint32_of_bytes, uint32_object_bytes.
  rewrite !byte_of_Z_to_N.
  change 255 with (Z.ones 8).
  rewrite !Z.land_ones, !Z.shiftr_div_pow2, !Z.shiftl_mul_pow2 by lia.
  change (2 ^ 8) with 256. change (2 ^ 16) with 65536. change (2 ^ 24) with 16777216.
  change (2 ^ 32) with 4294967296 in Hv.
  pose proof (Z.div_mod v 256 ltac:(lia)).
  pose proof (Z.mod_pos_bound v 256 ltac:(lia)).
  pose proof (Z.div_mod (v / 256) 256 ltac:(lia)).
  pose proof (Z.mod_pos_bound (v / 256) 256 ltac:(lia)).
  pose proof (Z.div_mod (v / 256 / 256) 256 ltac:(lia)).
  pose proof (Z.mod_pos_bound (v / 256 / 256) 256 ltac:(lia)).
  assert (v / 65536 = v / 256 / 256) as -> by (rewrite Z.div_div by lia; done).
  assert (v / 16777216 = v / 256 / 256 / 256) as ->
    by (rewrite !Z.div_div by lia; done).
  assert (0 <= v / 256 / 256 / 256 < 256).
  { split; [repeat apply Z.div_pos; lia |].
    rewrite !Z.div_div by lia. apply Z.div_lt_upper_bound; lia. }
  rewrite (Z.mod_small (v / 256 / 256 / 256)) by lia.
  lia.
Qed.

Section Footer.
Context {St : Type} `{OutputStream St} `{ThriftSerializer}.

Lemma on_sink_Write_Ok {T} (bs : list byte) (h h' : Heap St) (x x' : T) :
  on_sink (Write bs) (h, x) = (Ok tt, (h', x')) ->
  written (sink h') = written (sink h) ++ bs
  /\ closes (sink h') = closes (sink h)
  /\ row_group_builders h' = row_group_builders h /\ x' = x.
Proof.
  unfold on_sink.
  destruct (Write bs (sink h)) as [r s'] eqn:E.
  intros [= -> <- <-]. by apply Write_Ok in E as [E1 E2].
Qed.

Lemma on_sink_Tell {T} (s : Heap St * T) :
  on_sink (gets Tell) s = (Ok (Tell (sink s.1)), s).
Proof. by destruct s as [[] ?]. Qed.

Lemma on_sink_Close_Ok {T} (h h' : Heap St) (x x' : T) :
  on_sink Close (h, x) = (Ok tt, (h', x')) ->
  written (sink h') = written (sink h)
  /\ closes (sink h') = S (closes (sink h))
  /\ row_group_builders h' = row_group_builders h /\ x' = x.
Proof.
  unfold on_sink.
  destruct (Close (sink h)) as [r s'] eqn:E.
  intros [= -> <- <-]. by apply Close_Ok in E as [E1 E2].
Qed.

(** [Finish] reads and changes nothing. *)
Lemma Finish_state (s : Heap St * FileMetaDataBuilder.t) :
  (FileMetaDataBuilder.Finish s).2 = s.
Proof.
  destruct s as [h b]. unfold FileMetaDataBuilder.Finish. by case_match.
Qed.

Lemma on_metadata_Finish_Ok (h h' : Heap St) (f f' : FileSerializer.t) footer :
  FileSerializer.on_metadata FileMetaDataBuilder.Finish (h, f) = (Ok footer, (h', f')) ->
  FileMetaDataBuilder.Finish (h, FileSerializer.metadata_ f)
  = (Ok footer, (h, FileSerializer.metadata_ f))
  /\ h' = h /\ f' = f.
Proof.
  unfold FileSerializer.on_metadata.
  pose proof (Finish_state (h, FileSerializer.metadata_ f)) as Hs.
  destruct (FileMetaDataBuilder.Finish (h, FileSerializer.metadata_ f))
    as [r [h1 b1]].
  simpl in Hs. injection Hs as -> ->. intros [= -> <- <-].
  by destruct f.
Qed.

Lemma length_field (before after : St) (bytes : list byte) :
  written after = written before ++ bytes ->
  uint32_object_bytes (uint32_sub (to_uint32 (Tell after)) (to_uint32 (Tell before)))
  = footer_length_field bytes.
Proof.
  intros E. unfold footer_length_field.
  rewrite uint32_sub_to_uint32, !Tell_written, E, length_app. f_equal. f_equal. lia.
Qed.

(** The plain footer: the bytes of [metadata_->Finish()], the length field,
    the magic marker. *)
Lemma WriteMetaData_Ok (h h' : Heap St) (f f' : FileSerializer.t) :
  FileSerializer.WriteMetaData (h, f) = (Ok tt, (h', f')) ->
  exists footer,
    FileMetaDataBuilder.Finish (h, FileSerializer.metadata_ f)
    = (Ok footer, (h, FileSerializer.metadata_ f))
    /\ written (sink h')
       = written (sink h) ++ SerializeThriftMsg footer
         ++ footer_length_field (SerializeThriftMsg footer) ++ PARQUET_MAGIC
    /\ closes (sink h') = closes (sink h)
    /\ row_group_builders h' = row_group_builders h /\ f' = f.
Proof.
  unfold FileSerializer.WriteMetaData. intros E.
  bind_inv E. rewrite on_sink_Tell in E0. injection E0 as <- <-.
  bind_inv E. destruct s as [h1 f1].
  apply on_metadata_Finish_Ok in E0 as (EF & -> & ->).
  bind_inv E. destruct a0, s as [h2 f2].
  apply on_sink_Write_Ok in E0 as (W1 & C1 & B1 & ->).
  bind_inv E. rewrite on_sink_Tell in E0. injection E0 as <- <-.
  bind_inv E. destruct a0, s as [h3 f3].
  apply on_sink_Write_Ok in E0 as (W2 & C2 & B2 & ->).
  apply on_sink_Write_Ok in E as (W3 & C3 & B3 & ->).
  exists a. simpl in *. split; [done |].
  rewrite (length_field _ _ _ W1) in W2.
  rewrite W3, W2, W1, <- !app_assoc. repeat split; congruence.
Qed.

End Footer.

(** ** The append-merge footer *)

Lemma merge_Ok {S} (target old : format.FileMetaData.t) (s s' : S) m :
  ZdbFileSerializer.merge target old s = (Ok m, s') ->
  s' = s
  /\ in_int64 (format.FileMetaData.num_rows target + format.FileMetaData.num_rows old) = true
  /\ m = format.FileMetaData.mk
           (format.FileMetaData.schema target)
           (format.FileMetaData.num_rows target + format.FileMetaData.num_rows old)
           (format.FileMetaData.row_groups old ++ format.FileMetaData.row_groups target)
           (ZdbFileSerializer.merged_key_value_metadata
              (format.FileMetaData.key_value_metadata old)
              (format.FileMetaData.key_value_metadata target))
           (match ZdbFileSerializer.merged_key_value_metadata
                    (format.FileMetaData.key_value_metadata old)
                    (format.FileMetaData.key_value_metadata target)
            with [] => false | _ :: _ => true end).
Proof.
  unfold ZdbFileSerializer.merge, int64_add, FileMetaData.Make. intros E.
  bind_inv E. destruct (in_int64 _) eqn:Hr; [| discriminate].
  injection E0 as <- <-. by injection E as <- <-.
Qed.

(** C2, as the specification states it, fails on its own example: the
    merged footer has a = 1, the old file's value, where the union in which
    this run's value wins has a = 2. *)
Lemma merged_footer_keeps_the_old_value_of_a :
  (ZdbFileSerializer.merge new_footer_a2_b3 old_footer_a1 tt).1
  = Ok (format.FileMetaData.mk 1 100
          [format.RowGroup.mk [[]] 640 80; format.RowGroup.mk [[]] 160 20]
          [format.KeyValue.mk "a" "1" true; format.KeyValue.mk "b" "3" true] true)
  /\ lookup_key "a"
       (ZdbFileSerializer.merged_key_value_metadata
          (format.FileMetaData.key_value_metadata old_footer_a1)
          (format.FileMetaData.key_value_metadata new_footer_a2_b3))
     = Some "1"
  /\ union_new_wins
       (format.FileMetaData.key_value_metadata old_footer_a1)
       (format.FileMetaData.key_value_metadata new_footer_a2_b3) "a"
     = Some "2".
Proof. vm_compute. done. Qed.

(** C2, amended: the merged footer's key-value metadata is the key-by-key
    union of the old footer's entries and this run's, with one entry per key;
    on a key of both the old file's value stays, a key of this run only has
    this run's value, and a key of the old file only is retained. *)
Theorem merged_key_value_metadata_is_union_old_wins {S}
    (target old : format.FileMetaData.t) (s s' : S) (m : FileMetaData.t) :
  ZdbFileSerializer.merge target old s = (Ok m, s') ->
  let old_kvs := format.FileMetaData.key_value_metadata old in
  let new_kvs := format.FileMetaData.key_value_metadata target in
  let merged := format.FileMetaData.key_value_metadata m in
  (forall k v, lookup_key k old_kvs = Some v -> lookup_key k merged = Some v)
  /\ (forall k, lookup_key k old_kvs = None ->
                lookup_key k merged = lookup_key k new_kvs)
  /\ NoDup (format.KeyValue.key <$> merged).
Proof.
  intros E. apply merge_Ok in E as (_ & _ & ->). simpl.
  split; [| split].
  - intros k v Hk. rewrite lookup_key_merged. unfold union_old_wins. by rewrite Hk.
  - intros k Hk. rewrite lookup_key_merged. unfold union_old_wins. by rewrite Hk.
  - apply merged_keys_NoDup.
Qed.

Lemma merged_key_value_metadata_is_union_old_wins_witness :
  lookup_key "a"
    (format.FileMetaData.key_value_metadata
       (format.FileMetaData.mk 1 100
          [format.RowGroup.mk [[]] 640 80; format.RowGroup.mk [[]] 160 20]
          [format.KeyValue.mk "a" "1" true; format.KeyValue.mk "b" "3" true] true))
  = Some "1".
Proof.
  exact (proj1 (merged_key_value_metadata_is_union_old_wins
                  new_footer_a2_b3 old_footer_a1 tt tt _ eq_refl) "a" "1" eq_refl).
Defined.

Section AppendMerge.
Context {St : Type} `{OutputStream St} `{ThriftSerializer}.

Lemma Zdb_WriteMetaData_Ok (old : FileMetaData.t) (h h' : Heap St)
    (f f' : FileSerializer.t) :
  ZdbFileSerializer.WriteMetaData (Some old) (h, f) = (Ok tt, (h', f')) ->
  exists target merged,
    FileMetaDataBuilder.Finish (h, FileSerializer.metadata_ f)
    = (Ok target, (h, FileSerializer.metadata_ f))
    /\ ZdbFileSerializer.merge target old (h, f) = (Ok merged, (h, f))
    /\ written (sink h')
       = written (sink h) ++ SerializeThriftMsg merged
         ++ footer_length_field (SerializeThriftMsg merged) ++ PARQUET_MAGIC
    /\ closes (sink h') = closes (sink h)
    /\ row_group_builders h' = row_group_builders h /\ f' = f.
Proof.
  unfold ZdbFileSerializer.WriteMetaData, FileMetaData.GetFormatFileMetaData.
  intros E.
  bind_inv E. rewrite on_sink_Tell in E0. injection E0 as <- <-.
  bind_inv E. destruct s as [h1 f1].
  apply on_metadata_Finish_Ok in E0 as (EF & -> & ->).
  bind_inv E. rename a0 into merged, E0 into EM.
  pose proof (merge_Ok _ _ _ _ _ EM) as (-> & _ & _).
  bind_inv E. destruct a0, s as [h2 f2].
  apply on_sink_Write_Ok in E0 as (W1 & C1 & B1 & ->).
  bind_inv E. rewrite on_sink_Tell in E0. injection E0 as <- <-.
  bind_inv E. destruct a0, s as [h3 f3].
  apply on_sink_Write_Ok in E0 as (W2 & C2 & B2 & ->).
  apply on_sink_Write_Ok in E as (W3 & C3 & B3 & ->).
  exists a, merged. simpl in *. split; [done |]. split; [done |].
  rewrite (length_field _ _ _ W1) in W2.
  rewrite W3, W2, W1, <- !app_assoc. repeat split; congruence.
Qed.

(** C5: the footer the append variant writes is this run's footer in which
    the row groups are the old footer's followed by this run's, the row count
    is this run's plus the old footer's, and the key-value metadata is marked
    present exactly when the union of the two footers' entries is not
    empty. *)
Theorem append_merge_footer (old : FileMetaData.t) (h h' : Heap St)
    (f f' : FileSerializer.t) :
  ZdbFileSerializer.WriteMetaData (Some old) (h, f) = (Ok tt, (h', f')) ->
  exists target merged : format.FileMetaData.t,
    FileMetaDataBuilder.Finish (h, FileSerializer.metadata_ f)
    = (Ok target, (h, FileSerializer.metadata_ f))
    /\ written (sink h')
       = written (sink h) ++ SerializeThriftMsg merged
         ++ footer_length_field (SerializeThriftMsg merged) ++ PARQUET_MAGIC
    /\ format.FileMetaData.row_groups merged
       = format.FileMetaData.row_groups old ++ format.FileMetaData.row_groups target
    /\ format.FileMetaData.num_rows merged
       = format.FileMetaData.num_rows target + format.FileMetaData.num_rows old
    /\ (format.FileMetaData.isset_key_value_metadata merged = true
        <-> format.FileMetaData.key_value_metadata merged <> [])
    /\ (format.FileMetaData.key_value_metadata merged <> []
        <-> format.FileMetaData.key_value_metadata old <> []
            \/ format.FileMetaData.key_value_metadata target <> [])
    /\ (forall k,
          is_Some (lookup_key k (format.FileMetaData.key_value_metadata merged))
          <-> is_Some (lookup_key k (format.FileMetaData.key_value_metadata old))
              \/ is_Some (lookup_key k (format.FileMetaData.key_value_metadata target))).
Proof.
  intros E. apply Zdb_WriteMetaData_Ok in E as (target & merged & EF & EM & W & _).
  exists target, merged. split; [done |]. split; [done |].
  apply merge_Ok in EM as (_ & _ & ->). simpl.
  split; [done |]. split; [done |].
  pose proof (merged_nil_iff (format.FileMetaData.key_value_metadata old)
                (format.FileMetaData.key_value_metadata target)) as Hnil.
  split; [| split].
  - destruct (ZdbFileSerializer.merged_key_value_metadata _ _); split; done.
  - split.
    + intros Hne.
      destruct (format.FileMetaData.key_value_metadata old); [| by left].
      destruct (format.FileMetaData.key_value_metadata target); [| by right].
      exfalso. apply Hne, Hnil. done.
    + intros Hor Hm. apply Hnil in Hm as [E1 E2]. by destruct Hor.
  - intros k. rewrite lookup_key_merged. unfold union_old_wins.
    destruct (lookup_key k (format.FileMetaData.key_value_metadata old)).
    + split; [by left | eauto].
    + split; [by right | intros [[? [=]] | ?]; done].
Qed.

End AppendMerge.

Section AppendMerge_run.
#[local] Existing Instance toy_thrift.

Lemma append_merge_footer_witness :
  exists merged : format.FileMetaData.t,
    written (sink append_run_after_footer.1)
    = written (sink append_run_before_footer.1) ++ SerializeThriftMsg merged
      ++ footer_length_field (SerializeThriftMsg merged) ++ PARQUET_MAGIC
    /\ format.FileMetaData.num_rows merged = 100
    /\ format.RowGroup.num_rows <$> format.FileMetaData.row_groups merged = [80; 20]
    /\ format.FileMetaData.isset_key_value_metadata merged = true.
Proof.
  assert (E : ZdbFileSerializer.WriteMetaData (Some old_footer_a1)
                (append_run_before_footer.1, append_run_before_footer.2)
              = (Ok tt, (append_run_after_footer.1, append_run_after_footer.2)))
    by (vm_compute; reflexivity).
  destruct (append_merge_footer old_footer_a1 _ _ _ _ E)
    as (target & merged & EF & W & RG & NR & IS & NE & _).
  exists merged. split; [exact W |].
  vm_compute in EF. injection EF as <-.
  rewrite NR, RG. split; [reflexivity |]. split; [reflexivity |].
  apply IS, NE. by left.
Defined.

End AppendMerge_run.

(** ** Row-count agreement in a row group *)

Section RowCount.
Context {St : Type} `{OutputStream St}.

Lemma set_current_column_writer_same (rg : RowGroupSerializer.t) w :
  RowGroupSerializer.current_column_writer_ rg = Some w ->
  RowGroupSerializer.set_current_column_writer_ (Some w) rg = rg.
Proof. destruct rg. simpl. by intros ->. Qed.

(** [CheckRowsWritten] case by case, for an open column [w]. *)
Lemma CheckRowsWritten_run (h : Heap St) (rg : RowGroupSerializer.t) w :
  RowGroupSerializer.current_column_writer_ rg = Some w ->
  let current_rows := ColumnWriter.rows_written w in
  let num_rows := RowGroupSerializer.num_rows_ rg in
  RowGroupSerializer.CheckRowsWritten (h, rg)
  = if num_rows <? 0 then
      (match row_group_builders h !! RowGroupSerializer.metadata_ rg with
       | Some _ => Ok tt
       | None => Undefined
       end,
       (record_num_rows current_rows (RowGroupSerializer.metadata_ rg) h,
        RowGroupSerializer.set_num_rows_ current_rows rg))
    else if negb (num_rows =? current_rows) then
      (Throw (ParquetException
                (RowGroupSerializer.mismatch_message
                   (RowGroupSerializer.current_column_index_ rg) current_rows num_rows)),
       (h, rg))
    else (Ok tt, (h, rg)).
Proof.
  intros Hw. simpl.
  unfold RowGroupSerializer.CheckRowsWritten, bind,
    RowGroupSerializer.on_current_column_writer, RowGroupSerializer.this, gets.
  rewrite Hw. simpl. rewrite (set_current_column_writer_same _ _ Hw).
  destruct h as [s bs]. unfold set_sink. simpl.
  destruct (RowGroupSerializer.num_rows_ rg <? 0) eqn:Hneg.
  - unfold RowGroupSerializer.assign, modify, RowGroupSerializer.on_metadata,
      record_num_rows. simpl.
    destruct rg; simpl in *. by destruct (bs !! _).
  - by destruct (negb _).
Qed.

Lemma CheckRowsWritten_mismatch (h : Heap St) (rg : RowGroupSerializer.t) w :
  RowGroupSerializer.current_column_writer_ rg = Some w ->
  0 <= RowGroupSerializer.num_rows_ rg ->
  RowGroupSerializer.num_rows_ rg <> ColumnWriter.rows_written w ->
  RowGroupSerializer.CheckRowsWritten (h, rg)
  = (Throw (ParquetException
              (RowGroupSerializer.mismatch_message
                 (RowGroupSerializer.current_column_index_ rg)
                 (ColumnWriter.rows_written w) (RowGroupSerializer.num_rows_ rg))),
     (h, rg)).
Proof.
  intros Hw Hpos Hne. rewrite (CheckRowsWritten_run _ _ _ Hw). simpl.
  destruct (Z.ltb_spec (RowGroupSerializer.num_rows_ rg) 0); [lia |].
  destruct (Z.eqb_spec (RowGroupSerializer.num_rows_ rg) (ColumnWriter.rows_written w));
    done.
Qed.

Lemma CheckRowsWritten_first (h : Heap St) (rg : RowGroupSerializer.t) w b :
  RowGroupSerializer.current_column_writer_ rg = Some w ->
  RowGroupSerializer.num_rows_ rg < 0 ->
  row_group_builders h !! RowGroupSerializer.metadata_ rg = Some b ->
  RowGroupSerializer.CheckRowsWritten (h, rg)
  = (Ok tt,
     (record_num_rows (ColumnWriter.rows_written w) (RowGroupSerializer.metadata_ rg) h,
      RowGroupSerializer.set_num_rows_ (ColumnWriter.rows_written w) rg)).
Proof.
  intros Hw Hneg Hb. rewrite (CheckRowsWritten_run _ _ _ Hw). simpl.
  destruct (Z.ltb_spec (RowGroupSerializer.num_rows_ rg) 0); [| lia].
  by rewrite Hb.
Qed.

Lemma record_num_rows_lookup (n : Z) (p : nat) (h : Heap St) b :
  row_group_builders h !! p = Some b ->
  row_group_builders (record_num_rows n p h) !! p
  = Some (RowGroupMetaDataBuilder.mk
            (RowGroupMetaDataBuilder.num_columns_ b)
            (RowGroupMetaDataBuilder.next_column_ b) n
            (RowGroupMetaDataBuilder.column_chunks b)
            (RowGroupMetaDataBuilder.total_byte_size b))
  /\ sink (record_num_rows n p h) = sink h.
Proof.
  intros Hb. unfold record_num_rows. rewrite Hb. simpl. split; [| done].
  apply list_lookup_insert_eq. by eapply lookup_lt_Some.
Qed.

(** The three calls that run the check on an open column, on a mismatch. *)
Lemma closing_calls_mismatch (h : Heap St) (rg : RowGroupSerializer.t) w :
  RowGroupSerializer.current_column_writer_ rg = Some w ->
  0 <= RowGroupSerializer.num_rows_ rg ->
  RowGroupSerializer.num_rows_ rg <> ColumnWriter.rows_written w ->
  let e := ParquetException
             (RowGroupSerializer.mismatch_message
                (RowGroupSerializer.current_column_index_ rg)
                (ColumnWriter.rows_written w) (RowGroupSerializer.num_rows_ rg)) in
  (forall meta, RowGroupSerializer.NextColumn meta (h, rg) = (Throw e, (h, rg)))
  /\ (RowGroupSerializer.closed_ rg = false ->
      RowGroupSerializer.Close (h, rg)
      = (Throw e, (h, RowGroupSerializer.set_closed_ true rg)))
  /\ RowGroupSerializer.num_rows (h, rg) = (Throw e, (h, rg)).
Proof.
  intros Hw Hpos Hne e.
  pose proof (CheckRowsWritten_mismatch h rg w Hw Hpos Hne) as Hc.
  assert (Hopen : RowGroupSerializer.has_column_writer rg = true).
  { unfold RowGroupSerializer.has_column_writer. by rewrite Hw. }
  split; [| split].
  - intros meta. unfold RowGroupSerializer.NextColumn.
    unfold bind at 1. unfold RowGroupSerializer.this at 1. unfold gets.
    simpl. rewrite Hopen. simpl.
    by rewrite (bind_Throw _ _ _ _ _ Hc).
  - intros Hclosed. unfold RowGroupSerializer.Close.
    unfold bind at 1. unfold RowGroupSerializer.this at 1. unfold gets.
    simpl. rewrite Hclosed. simpl.
    unfold bind at 1. unfold RowGroupSerializer.assign at 1. unfold modify.
    simpl.
    unfold bind at 1. unfold RowGroupSerializer.this at 1. unfold gets.
    simpl.
    assert (Hopen' : RowGroupSerializer.has_column_writer
                       (RowGroupSerializer.set_closed_ true rg) = true) by done.
    rewrite Hopen'. simpl.
    assert (Hc' : RowGroupSerializer.CheckRowsWritten
                    (h, RowGroupSerializer.set_closed_ true rg)
                  = (Throw e, (h, RowGroupSerializer.set_closed_ true rg))).
    { by apply (CheckRowsWritten_mismatch h (RowGroupSerializer.set_closed_ true rg) w). }
    rewrite (bind_Throw _ _ _ _ _ (bind_Throw _ _ _ _ _ Hc')). done.
  - unfold RowGroupSerializer.num_rows.
    unfold bind at 1. unfold RowGroupSerializer.this at 1. unfold gets.
    simpl. rewrite Hopen. simpl.
    by rewrite (bind_Throw _ _ _ _ _ Hc).
Qed.

End RowCount.

(** ** Relations every step of a call keeps *)

(** [m] relates the state it starts from to the state it leaves, whatever
    its outcome. *)
Definition preserved {S A} (R : relation S) (m : M S A) : Prop :=
  forall s r s', m s = (r, s') -> R s s'.

Create HintDb preserved discriminated.

Section Preserved.
Context {S : Type} (R : relation S) `{!PreOrder R}.

Lemma preserved_ret {A} (a : A) : preserved R (ret a).
Proof using Type*. intros s r s' [= _ <-]. reflexivity. Qed.

Lemma preserved_throw {A} e : preserved R (@throw S A e).
Proof using Type*. intros s r s' [= _ <-]. reflexivity. Qed.

Lemma preserved_undefined {A} : preserved R (@undefined S A).
Proof using Type*. intros s r s' [= _ <-]. reflexivity. Qed.

Lemma preserved_gets {A} (f : S -> A) : preserved R (gets f).
Proof using Type*. intros s r s' [= _ <-]. reflexivity. Qed.

Lemma preserved_modify (f : S -> S) : (forall s, R s (f s)) -> preserved R (modify f).
Proof. intros Hf s r s' [= _ <-]. apply Hf. Qed.

Lemma preserved_bind {A B} (m : M S A) (k : A -> M S B) :
  preserved R m -> (forall a, preserved R (k a)) -> preserved R (bind m k).
Proof using Type*.
  intros Hm Hk s r s'. unfold bind.
  destruct (m s) as [[a|e|] s1] eqn:E; specialize (Hm _ _ _ E).
  - intros E2. apply Hk in E2. by etrans.
  - by intros [= _ <-].
  - by intros [= _ <-].
Qed.

Lemma preserved_when (c : bool) (m : M S unit) :
  preserved R m -> preserved R (when c m).
Proof using Type*. destruct c; simpl; [done | intros _; apply preserved_ret]. Qed.

Lemma preserved_try_catch_all (m : M S unit) :
  preserved R m -> preserved R (try_catch_all m).
Proof.
  intros Hm s r s'. unfold try_catch_all.
  destruct (m s) as [[a|e|] s1] eqn:E; specialize (Hm _ _ _ E); by intros [= _ <-].
Qed.

Lemma preserved_int64_add (a b : Z) : preserved R (int64_add a b).
Proof using Type*.
  unfold int64_add. case_match; [apply preserved_ret | apply preserved_undefined].
Qed.

Lemma preserved_int_add (a b : Z) : preserved R (int_add a b).
Proof using Type*.
  unfold int_add. case_match; [apply preserved_ret | apply preserved_undefined].
Qed.

End Preserved.

#[global] Hint Resolve preserved_ret preserved_throw preserved_undefined
  preserved_gets preserved_when preserved_try_catch_all preserved_int64_add
  preserved_int_add : preserved.

(** Goes through a method's body: sequences, conditionals, then the hints. *)
Ltac preserved_steps :=
  repeat first
    [ apply preserved_bind; [typeclasses eauto | | intros ?]
    | apply preserved_when; [typeclasses eauto |]
    | match goal with
      | |- preserved _ (let _ := _ in _) => cbv zeta
      | |- preserved _ (if ?c then _ else _) => destruct c
      | |- preserved _ (match ?c with _ => _ end) => destruct c
      end
    | solve [eauto 12 with preserved typeclass_instances] ].

(** ** The sink only grows *)

Section SinkRelations.
Context {St : Type} `{OutputStream St}.

(** The stream holds what it held, then more. *)
Definition grows : relation St :=
  fun s s' => written s `prefix_of` written s'.

(** The same, and no [Close] of the stream completed in between. *)
Definition grows_open : relation St :=
  fun s s' => written s `prefix_of` written s' /\ closes s' = closes s.

#[global] Instance grows_preorder : PreOrder grows.
Proof.
  split; [intros s; by unfold grows |].
  intros s1 s2 s3. unfold grows. by etrans.
Qed.

#[global] Instance grows_open_preorder : PreOrder grows_open.
Proof.
  split; [intros s; by unfold grows_open |].
  intros s1 s2 s3 [P1 C1] [P2 C2]. split; [by etrans | congruence].
Qed.

(** A relation on streams that every [Write] keeps, whatever its outcome. *)
Class WriteStable (Rs : relation St) : Prop := {
  write_stable_preorder :: PreOrder Rs;
  write_stable : forall bs, preserved Rs (Write bs)
}.

(** A relation on streams that [Close] keeps too. *)
Class CloseStable (Rs : relation St) : Prop :=
  close_stable : preserved Rs Close.

Lemma Write_grows_open (bs : list byte) : preserved grows_open (Write bs).
Proof.
  intros s r s' E. destruct r as [[]|e|].
  - apply Write_Ok in E as [E1 E2]. split; [| done].
    rewrite E1. by apply prefix_app_r.
  - apply Write_Throw in E as [[n E1] E2]. split; [| done].
    rewrite E1. by apply prefix_app_r.
  - pose proof (Write_defined bs s) as Hd. by rewrite E in Hd.
Qed.

#[global] Instance grows_open_WriteStable : WriteStable grows_open.
Proof. split; [apply _ | apply Write_grows_open]. Qed.

#[global] Instance grows_WriteStable : WriteStable grows.
Proof.
  split; [apply _ |]. intros bs s r s' E. by apply Write_grows_open in E as [? _].
Qed.

#[global] Instance grows_CloseStable : CloseStable grows.
Proof.
  intros s r s' E. unfold grows. destruct r as [[]|e|].
  - apply Close_Ok in E as [E1 _]. by rewrite E1.
  - apply Close_Throw in E as [E1 _]. by rewrite E1.
  - pose proof (Close_defined s) as Hd. by rewrite E in Hd.
Qed.

(** A relation on streams, on the states of a method. *)
Definition on_heap_sink (Rs : relation St) {T} : relation (Heap St * T) :=
  fun s s' => Rs (sink s.1) (sink s'.1).

Definition on_fst (Rs : relation St) {T} : relation (St * T) :=
  fun s s' => Rs s.1 s'.1.

#[global] Instance on_heap_sink_preorder (Rs : relation St) `{!PreOrder Rs} {T} :
  PreOrder (@on_heap_sink Rs T).
Proof.
  split; [intros s; unfold on_heap_sink; reflexivity |].
  intros s1 s2 s3. unfold on_heap_sink. by etrans.
Qed.

#[global] Instance on_fst_preorder (Rs : relation St) `{!PreOrder Rs} {T} :
  PreOrder (@on_fst Rs T).
Proof.
  split; [intros s; unfold on_fst; reflexivity |].
  intros s1 s2 s3. unfold on_fst. by etrans.
Qed.

Section Lifts.
Context (Rs : relation St) `{!WriteStable Rs}.

Lemma preserved_on_sink {T A} (m : M St A) :
  preserved Rs m -> preserved (@on_heap_sink Rs T) (on_sink m).
Proof.
  intros Hm [h x] r [h' x']. unfold on_sink, on_heap_sink.
  destruct (m (sink h)) as [r1 s1] eqn:E. intros [= _ <- _]. simpl.
  by apply Hm in E.
Qed.

Lemma preserved_on_sink_Write {T} (bs : list byte) :
  preserved (@on_heap_sink Rs T) (on_sink (Write bs)).
Proof using Type*. apply preserved_on_sink, write_stable. Qed.

Lemma preserved_on_sink_gets {T A} (f : St -> A) :
  preserved (@on_heap_sink Rs T) (on_sink (gets f)).
Proof using Type*. apply preserved_on_sink, preserved_gets, _. Qed.

Lemma preserved_on_sink_Close {T} `{!CloseStable Rs} :
  preserved (@on_heap_sink Rs T) (on_sink Close).
Proof. apply preserved_on_sink, close_stable. Qed.

Lemma preserved_on_sink_WriteTo `{ThriftSerializer} {T} (m : FileMetaData.t) :
  preserved (@on_heap_sink Rs T) (on_sink (FileMetaData.WriteTo m)).
Proof using Type*. apply preserved_on_sink, write_stable. Qed.

Lemma preserved_ColumnWriter_Close :
  preserved (on_fst Rs) ColumnWriter.Close.
Proof using Type*.
  intros [s w] r [s' w']. unfold ColumnWriter.Close, on_fst. simpl.
  destruct (ColumnWriter.closed_ w); [intros [= _ <- _]; reflexivity |].
  destruct (Write (ColumnWriter.pending w) s) as [[[]|e|] s1] eqn:E;
    intros [= _ <- _]; by apply write_stable in E.
Qed.

(** The row-group serializer's accessors. *)

Lemma preserved_rg_this {A} (f : RowGroupSerializer.t -> A) :
  preserved (on_heap_sink Rs) (RowGroupSerializer.this (St:=St) f).
Proof using Type*. apply preserved_gets, _. Qed.

Lemma preserved_rg_assign (f : RowGroupSerializer.t -> RowGroupSerializer.t) :
  preserved (on_heap_sink Rs) (RowGroupSerializer.assign (St:=St) f).
Proof using Type*. apply preserved_modify. intros s. unfold on_heap_sink. reflexivity. Qed.

Lemma preserved_rg_on_metadata {A} (m : M RowGroupMetaDataBuilder.t A) :
  preserved (on_heap_sink Rs) (RowGroupSerializer.on_metadata (St:=St) m).
Proof using Type*.
  intros [h rg] r [h' rg']. unfold RowGroupSerializer.on_metadata, on_heap_sink.
  destruct (row_group_builders h !! _); [destruct (m _) |];
    intros [= _ <- _]; reflexivity.
Qed.

Lemma preserved_rg_on_current_column_writer {A} (m : M (St * ColumnWriter.t) A) :
  preserved (on_fst Rs) m ->
  preserved (on_heap_sink Rs) (RowGroupSerializer.on_current_column_writer m).
Proof using Type*.
  intros Hm [h rg] r [h' rg'].
  unfold RowGroupSerializer.on_current_column_writer, on_heap_sink.
  destruct (RowGroupSerializer.current_column_writer_ rg) as [w|];
    [| intros [= _ <- _]; reflexivity].
  destruct (m (sink h, w)) as [r1 [s1 w1]] eqn:E. intros [= _ <- _].
  by apply Hm in E.
Qed.

Lemma preserved_rgw_on_contents {A} (m : M (Heap St * RowGroupSerializer.t) A) :
  preserved (on_heap_sink Rs) m ->
  preserved (on_heap_sink Rs) (RowGroupWriter.on_contents m).
Proof using Type*.
  intros Hm [h w] r [h' w']. unfold RowGroupWriter.on_contents, on_heap_sink.
  destruct (RowGroupWriter.contents_ w) as [c|]; [| intros [= _ <- _]; reflexivity].
  destruct (m (h, c)) as [r1 [h1 c1]] eqn:E. intros [= _ <- _].
  by apply Hm in E.
Qed.

(** The file serializer's accessors. *)

Lemma preserved_file_this {A} (g : FileSerializer.t -> A) :
  preserved (on_heap_sink Rs) (FileSerializer.this (St:=St) g).
Proof using Type*. apply preserved_gets, _. Qed.

Lemma preserved_file_assign (g : FileSerializer.t -> FileSerializer.t) :
  preserved (on_heap_sink Rs) (FileSerializer.assign (St:=St) g).
Proof using Type*. apply preserved_modify. intros s. unfold on_heap_sink. reflexivity. Qed.

Lemma preserved_file_on_metadata {A} (m : M (Heap St * FileMetaDataBuilder.t) A) :
  preserved (on_heap_sink Rs) m ->
  preserved (on_heap_sink Rs) (FileSerializer.on_metadata m).
Proof using Type*.
  intros Hm [h f] r [h' f']. unfold FileSerializer.on_metadata, on_heap_sink.
  destruct (m (h, FileSerializer.metadata_ f)) as [r1 [h1 b1]] eqn:E.
  intros [= _ <- _]. by apply Hm in E.
Qed.

Lemma preserved_file_on_row_group_writer {A} (m : M (Heap St * RowGroupWriter.t) A) :
  preserved (on_heap_sink Rs) m ->
  preserved (on_heap_sink Rs) (FileSerializer.on_row_group_writer m).
Proof using Type*.
  intros Hm [h f] r [h' f']. unfold FileSerializer.on_row_group_writer, on_heap_sink.
  destruct (FileSerializer.row_group_writer_ f) as [w|];
    [| intros [= _ <- _]; reflexivity].
  destruct (m (h, w)) as [r1 [h1 w1]] eqn:E. intros [= _ <- _].
  by apply Hm in E.
Qed.

Lemma preserved_builder_AppendRowGroup :
  preserved (on_heap_sink Rs) (FileMetaDataBuilder.AppendRowGroup (St:=St)).
Proof using Type*.
  intros [h b] r [h' b']. unfold FileMetaDataBuilder.AppendRowGroup, on_heap_sink.
  intros [= _ <- _]. reflexivity.
Qed.

Lemma preserved_builder_Finish :
  preserved (on_heap_sink Rs) (FileMetaDataBuilder.Finish (St:=St)).
Proof using Type*.
  intros s r s' E. pose proof (Finish_state s) as Hs. rewrite E in Hs.
  simpl in Hs. subst s'. reflexivity.
Qed.

Lemma preserved_merge {S} (R : relation S) `{!PreOrder R} target old :
  preserved R (ZdbFileSerializer.merge target old).
Proof.
  unfold ZdbFileSerializer.merge. apply preserved_bind; [apply _ | |].
  - apply preserved_int64_add, _.
  - intros a. apply preserved_ret, _.
Qed.

Lemma preserved_zdb_on_base {A} (m : M (Heap St * FileSerializer.t) A) :
  preserved (on_heap_sink Rs) m ->
  preserved (on_heap_sink Rs) (ZdbFileSerializer.on_base m).
Proof using Type*.
  intros Hm [h z] r [h' z']. unfold ZdbFileSerializer.on_base, on_heap_sink.
  destruct (m (h, ZdbFileSerializer.base z)) as [r1 [h1 f1]] eqn:E.
  intros [= _ <- _]. by apply Hm in E.
Qed.

Lemma preserved_dispatch {A}
    (file : M (Heap St * FileSerializer.t) A)
    (zdb : M (Heap St * ZdbFileSerializer.t) A) :
  preserved (on_heap_sink Rs) file ->
  preserved (on_heap_sink Rs) zdb ->
  preserved (on_heap_sink Rs) (ParquetFileWriter.dispatch file zdb).
Proof using Type*.
  intros Hf Hz [h c] r [h' c']. unfold ParquetFileWriter.dispatch, on_heap_sink.
  destruct c as [f|z].
  - destruct (file (h, f)) as [r1 [h1 f1]] eqn:E. intros [= _ <- _]. by apply Hf in E.
  - destruct (zdb (h, z)) as [r1 [h1 z1]] eqn:E. intros [= _ <- _]. by apply Hz in E.
Qed.

Lemma preserved_pfw_on_contents {A} (m : M (Heap St * ParquetFileWriter.Contents) A) :
  preserved (on_heap_sink Rs) m ->
  preserved (on_heap_sink Rs) (ParquetFileWriter.on_contents m).
Proof using Type*.
  intros Hm [h w] r [h' w']. unfold ParquetFileWriter.on_contents, on_heap_sink.
  destruct (ParquetFileWriter.contents_ w) as [c|]; [| intros [= _ <- _]; reflexivity].
  destruct (m (h, c)) as [r1 [h1 c1]] eqn:E. intros [= _ <- _].
  by apply Hm in E.
Qed.

End Lifts.
End SinkRelations.

#[global] Hint Resolve preserved_on_sink_Write preserved_on_sink_gets
  preserved_on_sink_Close preserved_on_sink_WriteTo preserved_ColumnWriter_Close
  preserved_rg_this preserved_rg_assign preserved_rg_on_metadata
  preserved_rg_on_current_column_writer preserved_rgw_on_contents
  preserved_file_this preserved_file_assign preserved_file_on_metadata
  preserved_file_on_row_group_writer preserved_builder_AppendRowGroup
  preserved_builder_Finish preserved_merge preserved_zdb_on_base
  preserved_dispatch preserved_pfw_on_contents : preserved.

Section MethodsKeepTheSink.
Context {St : Type} `{OutputStream St} `{ThriftSerializer}.
Context (Rs : relation St) `{!WriteStable Rs}.

Lemma preserved_CheckRowsWritten :
  preserved (on_heap_sink Rs) RowGroupSerializer.CheckRowsWritten.
Proof using Type*.
  unfold RowGroupSerializer.CheckRowsWritten. preserved_steps.
Qed.
Hint Resolve preserved_CheckRowsWritten : preserved.

Lemma preserved_rg_num_rows :
  preserved (on_heap_sink Rs) RowGroupSerializer.num_rows.
Proof using Type*. unfold RowGroupSerializer.num_rows. preserved_steps. Qed.

Lemma preserved_close_current_column :
  preserved (on_heap_sink Rs) RowGroupSerializer.close_current_column.
Proof using Type*. unfold RowGroupSerializer.close_current_column. preserved_steps. Qed.
Hint Resolve preserved_rg_num_rows preserved_close_current_column : preserved.

Lemma preserved_rg_NextColumn meta :
  preserved (on_heap_sink Rs) (RowGroupSerializer.NextColumn meta).
Proof using Type*. unfold RowGroupSerializer.NextColumn. preserved_steps. Qed.

Lemma preserved_rg_Close :
  preserved (on_heap_sink Rs) RowGroupSerializer.Close.
Proof using Type*. unfold RowGroupSerializer.Close. preserved_steps. Qed.

Lemma preserved_rg_column_WriteBatch n encoded :
  preserved (on_heap_sink Rs) (RowGroupSerializer.column_WriteBatch n encoded).
Proof using Type*.
  unfold RowGroupSerializer.column_WriteBatch.
  apply preserved_rg_on_current_column_writer; [done |].
  apply preserved_modify. intros s. unfold on_fst. reflexivity.
Qed.
Hint Resolve preserved_rg_NextColumn preserved_rg_Close
  preserved_rg_column_WriteBatch : preserved.

Lemma preserved_rgw_Close :
  preserved (on_heap_sink Rs) RowGroupWriter.Close.
Proof using Type*.
  intros [h w] r s'. unfold RowGroupWriter.Close.
  destruct (RowGroupWriter.contents_ w) eqn:E; [| intros [= _ <-]; reflexivity].
  apply (preserved_rgw_on_contents Rs RowGroupSerializer.Close). preserved_steps.
Qed.

Lemma preserved_rgw_NextColumn meta :
  preserved (on_heap_sink Rs) (RowGroupWriter.NextColumn meta).
Proof using Type*. unfold RowGroupWriter.NextColumn. preserved_steps. Qed.

Lemma preserved_rgw_num_rows :
  preserved (on_heap_sink Rs) RowGroupWriter.num_rows.
Proof using Type*. unfold RowGroupWriter.num_rows. preserved_steps. Qed.

Lemma preserved_rgw_column_WriteBatch n encoded :
  preserved (on_heap_sink Rs) (RowGroupWriter.column_WriteBatch n encoded).
Proof using Type*. unfold RowGroupWriter.column_WriteBatch. preserved_steps. Qed.
Hint Resolve preserved_rgw_Close preserved_rgw_NextColumn preserved_rgw_num_rows
  preserved_rgw_column_WriteBatch : preserved.

Lemma preserved_StartFile :
  preserved (on_heap_sink Rs) FileSerializer.StartFile.
Proof using Type*. unfold FileSerializer.StartFile. preserved_steps. Qed.

Lemma preserved_WriteMetaData :
  preserved (on_heap_sink Rs) FileSerializer.WriteMetaData.
Proof using Type*. unfold FileSerializer.WriteMetaData. preserved_steps. Qed.

Lemma preserved_Zdb_WriteMetaData old :
  preserved (on_heap_sink Rs) (ZdbFileSerializer.WriteMetaData old).
Proof using Type*. unfold ZdbFileSerializer.WriteMetaData. preserved_steps. Qed.

Lemma preserved_file_AppendRowGroup :
  preserved (on_heap_sink Rs) FileSerializer.AppendRowGroup.
Proof using Type*. unfold FileSerializer.AppendRowGroup. preserved_steps. Qed.
Hint Resolve preserved_StartFile preserved_WriteMetaData preserved_Zdb_WriteMetaData
  preserved_file_AppendRowGroup : preserved.

Lemma preserved_close_open_row_group :
  preserved (on_heap_sink Rs) close_open_row_group.
Proof using Type*. unfold close_open_row_group. preserved_steps. Qed.

Section WithClose.
Context `{!CloseStable Rs}.

Lemma preserved_Close_ wmd :
  preserved (on_heap_sink Rs) wmd ->
  preserved (on_heap_sink Rs) (FileSerializer.Close_ wmd).
Proof using Type*. intros Hw. unfold FileSerializer.Close_. preserved_steps. Qed.
Hint Resolve preserved_Close_ : preserved.

Lemma preserved_file_Close :
  preserved (on_heap_sink Rs) FileSerializer.Close.
Proof using Type*. unfold FileSerializer.Close. preserved_steps. Qed.

Lemma preserved_file_destructor :
  preserved (on_heap_sink Rs) FileSerializer.destructor.
Proof using Type*. unfold FileSerializer.destructor. preserved_steps. Qed.

Lemma preserved_zdb_Close :
  preserved (on_heap_sink Rs) ZdbFileSerializer.Close.
Proof using Type*.
  intros [h z] r s'. unfold ZdbFileSerializer.Close.
  apply (preserved_zdb_on_base Rs
           (FileSerializer.Close_
              (ZdbFileSerializer.WriteMetaData (ZdbFileSerializer.old_file_meta_ z)))).
  preserved_steps.
Qed.
Hint Resolve preserved_file_Close preserved_file_destructor preserved_zdb_Close
  : preserved.

Lemma preserved_zdb_destructor :
  preserved (on_heap_sink Rs) ZdbFileSerializer.destructor.
Proof using Type*. unfold ZdbFileSerializer.destructor. preserved_steps. Qed.
Hint Resolve preserved_zdb_destructor : preserved.

Lemma preserved_reset_contents :
  preserved (on_heap_sink Rs) ParquetFileWriter.reset_contents.
Proof using Type*.
  intros [h w] r [h' w']. unfold ParquetFileWriter.reset_contents.
  destruct (ParquetFileWriter.contents_ w) as [c|]; [| intros [= _ <- <-]; reflexivity].
  destruct (ParquetFileWriter.dispatch _ _ (h, c)) as [r1 [h1 c1]] eqn:E.
  intros [= _ <- _].
  eapply (preserved_dispatch Rs) in E; [exact E | |]; preserved_steps.
Qed.
Hint Resolve preserved_reset_contents : preserved.

Lemma preserved_pfw_Close :
  preserved (on_heap_sink Rs) ParquetFileWriter.Close.
Proof using Type*.
  intros [h w] r s'. unfold ParquetFileWriter.Close.
  destruct (ParquetFileWriter.contents_ w) eqn:E; [| intros [= _ <-]; reflexivity].
  apply (preserved_bind (on_heap_sink Rs)
           (ParquetFileWriter.on_contents
              (ParquetFileWriter.dispatch FileSerializer.Close ZdbFileSerializer.Close))
           (fun _ => ParquetFileWriter.reset_contents));
    preserved_steps.
Qed.
Hint Resolve preserved_pfw_Close : preserved.

Lemma preserved_pfw_destructor :
  preserved (on_heap_sink Rs) ParquetFileWriter.destructor.
Proof using Type*. unfold ParquetFileWriter.destructor. preserved_steps. Qed.

Lemma preserved_call (c : Call) : preserved (on_heap_sink Rs) (call c).
Proof using Type*.
  destruct c; simpl;
    unfold ParquetFileWriter.AppendRowGroup_int64, ParquetFileWriter.AppendRowGroup,
      ParquetFileWriter.on_row_group_writer, ParquetFileWriter.num_rows,
      ZdbFileSerializer.AppendRowGroup, FileSerializer.num_rows;
    preserved_steps.
Qed.

Lemma preserved_calls (cs : list Call) : preserved (on_heap_sink Rs) (calls cs).
Proof using Type*.
  induction cs as [|c cs IH]; simpl; [apply preserved_ret, _ |].
  apply preserved_bind; [apply _ | apply preserved_call | done].
Qed.

End WithClose.
End MethodsKeepTheSink.

(** ** Close of the file, step by step *)

Section CloseSteps.
Context {St : Type} `{OutputStream St} `{ThriftSerializer}.

Lemma Close__closed wmd (s : Heap St * FileSerializer.t) :
  FileSerializer.is_open_ s.2 = false ->
  FileSerializer.Close_ wmd s = (Ok tt, s).
Proof.
  intros Hc. unfold FileSerializer.Close_, bind, FileSerializer.this, gets.
  by rewrite Hc.
Qed.

Lemma Close__Ok_inv wmd (s s' : Heap St * FileSerializer.t) :
  FileSerializer.is_open_ s.2 = true ->
  FileSerializer.Close_ wmd s = (Ok tt, s') ->
  exists s1 s2 s3,
    close_open_row_group s = (Ok tt, s1)
    /\ wmd s1 = (Ok tt, s2)
    /\ on_sink Close s2 = (Ok tt, s3)
    /\ s' = (s3.1, FileSerializer.set_is_open_ false s3.2).
Proof.
  intros Ho E. unfold FileSerializer.Close_ in E.
  bind_inv E. unfold FileSerializer.this, gets in E0. injection E0 as <- <-.
  rewrite Ho in E. simpl in E.
  bind_inv E. bind_inv E. bind_inv E. bind_inv E. bind_inv E.
  destruct a0, a1, a2, a3.
  exists s2, s3, s4. split; [| split; [done | split; [done |]]].
  - unfold close_open_row_group.
    rewrite (bind_Ok _ _ _ _ _ E0), (bind_Ok _ _ _ _ _ E1). exact E2.
  - unfold FileSerializer.assign, modify in E. by injection E as <-.
Qed.


(** A [Close] that returns leaves the serializer closed. *)
Lemma Close__Ok_closed wmd (s s' : Heap St * FileSerializer.t) :
  FileSerializer.Close_ wmd s = (Ok tt, s') ->
  FileSerializer.is_open_ s'.2 = false.
Proof.
  destruct (FileSerializer.is_open_ s.2) eqn:Ho.
  - intros E. apply Close__Ok_inv in E as (s1 & s2 & s3 & _ & _ & _ & ->); done.
  - rewrite Close__closed by done. by intros [= <-].
Qed.

End CloseSteps.

(** ** The layout of a plain file *)

Section PlainLayout.
Context {St : Type} `{OutputStream St} `{ThriftSerializer}.

(** [WriteMetaData] with the two positions it takes: [before] the footer is
    written and [after]. *)
Lemma WriteMetaData_positions (h h' : Heap St) (f f' : FileSerializer.t) :
  FileSerializer.WriteMetaData (h, f) = (Ok tt, (h', f')) ->
  exists footer (after : St),
    FileMetaDataBuilder.Finish (h, FileSerializer.metadata_ f)
    = (Ok footer, (h, FileSerializer.metadata_ f))
    /\ written after = written (sink h) ++ SerializeThriftMsg footer
    /\ written (sink h')
       = written after
         ++ uint32_object_bytes
              (uint32_sub (to_uint32 (Tell after)) (to_uint32 (Tell (sink h))))
         ++ PARQUET_MAGIC.
Proof.
  unfold FileSerializer.WriteMetaData. intros E.
  bind_inv E. rewrite on_sink_Tell in E0. injection E0 as <- <-.
  bind_inv E. destruct s as [h1 f1].
  apply on_metadata_Finish_Ok in E0 as (EF & -> & ->).
  bind_inv E. destruct a0, s as [h2 f2].
  apply on_sink_Write_Ok in E0 as (W1 & C1 & B1 & ->).
  bind_inv E. rewrite on_sink_Tell in E0. injection E0 as <- <-.
  bind_inv E. destruct a0, s as [h3 f3].
  apply on_sink_Write_Ok in E0 as (W2 & C2 & B2 & ->).
  apply on_sink_Write_Ok in E as (W3 & C3 & B3 & ->).
  exists a, (sink h2). simpl in *. split; [done |]. split; [done |].
  by rewrite W3, W2, <- !app_assoc.
Qed.

(** The destructor of a closed serializer does nothing. *)
Lemma reset_contents_closed (h : Heap St) (w : ParquetFileWriter.t) :
  match ParquetFileWriter.contents_ w with
  | Some (ParquetFileWriter.FileSerializer_ f) => FileSerializer.is_open_ f = false
  | Some (ParquetFileWriter.ZdbFileSerializer_ z) =>
      FileSerializer.is_open_ (ZdbFileSerializer.base z) = false
  | None => True
  end ->
  ParquetFileWriter.reset_contents (h, w) = (Ok tt, (h, ParquetFileWriter.mk None)).
Proof.
  unfold ParquetFileWriter.reset_contents, ParquetFileWriter.dispatch,
    ZdbFileSerializer.destructor, ZdbFileSerializer.on_base,
    FileSerializer.destructor, try_catch_all.
  destruct w as [[[f|z]|]]; simpl; intros Hc.
  - by rewrite (Close__closed _ (h, f)).
  - by rewrite (Close__closed _ (h, ZdbFileSerializer.base z)).
  - done.
Qed.

(** What a successful [Close] of either serializer appends to the stream:
    the bytes the open row group still had to flush, a footer, its length
    field, the magic marker; and the stream is closed once. *)
Lemma contents_Close_Ok (h h' : Heap St) (c c' : ParquetFileWriter.Contents) :
  still_open (ParquetFileWriter.mk (Some c)) ->
  ParquetFileWriter.dispatch FileSerializer.Close ZdbFileSerializer.Close (h, c)
  = (Ok tt, (h', c')) ->
  (exists payload footer_bytes,
     written (sink h')
     = written (sink h) ++ payload ++ footer_bytes
       ++ footer_length_field footer_bytes ++ PARQUET_MAGIC)
  /\ closes (sink h') = S (closes (sink h))
  /\ ~ still_open (ParquetFileWriter.mk (Some c')).
Proof.
  unfold still_open, ParquetFileWriter.dispatch. simpl.
  destruct c as [f|z]; intros Ho.
  - destruct (FileSerializer.Close (h, f)) as [r [h1 f1]] eqn:E.
    intros [= -> <- <-]. unfold FileSerializer.Close in E.
    pose proof (Close__Ok_closed _ _ _ E) as Hcl.
    apply Close__Ok_inv in E as ([h2 f2] & [h3 f3] & [h4 f4] & E1 & E2 & E3 & E4);
      [| done].
    pose proof (preserved_close_open_row_group grows_open _ _ _ E1) as [[p Hp] Hc].
    apply WriteMetaData_Ok in E2 as (footer & _ & W & C & _).
    apply on_sink_Close_Ok in E3 as (W' & C' & _).
    injection E4 as -> ->. cbn [fst snd] in *.
    split; [| split; [congruence | by rewrite Hcl]].
    exists p, (SerializeThriftMsg footer). rewrite W', W, Hp, <- !app_assoc. done.
  - destruct (ZdbFileSerializer.Close (h, z)) as [r [h1 z1]] eqn:E.
    intros [= -> <- <-]. unfold ZdbFileSerializer.Close, ZdbFileSerializer.on_base in E.
    destruct (FileSerializer.Close_ _ _) as [r [h5 f5]] eqn:E5.
    injection E as -> <- <-.
    pose proof (Close__Ok_closed _ _ _ E5) as Hcl.
    apply Close__Ok_inv in E5 as ([h2 f2] & [h3 f3] & [h4 f4] & E1 & E2 & E3 & E4);
      [| done].
    pose proof (preserved_close_open_row_group grows_open _ _ _ E1) as [[p Hp] Hc].
    destruct (ZdbFileSerializer.old_file_meta_ z) as [old|].
    + apply Zdb_WriteMetaData_Ok in E2 as (target & merged & _ & _ & W & C & _).
      apply on_sink_Close_Ok in E3 as (W' & C' & _).
      injection E4 as -> ->. cbn [fst snd] in *.
      split; [| split; [congruence | cbn; done]].
      exists p, (SerializeThriftMsg merged). rewrite W', W, Hp, <- !app_assoc. done.
    + unfold ZdbFileSerializer.WriteMetaData in E2.
      bind_inv E2. bind_inv E2. discriminate.
Qed.

End PlainLayout.

Section PlainLayoutTheorem.
Context {St : Type} `{OutputStream St} `{ThriftSerializer}.

Lemma ParquetFileWriter_Close_Ok (h : Heap St) (w : ParquetFileWriter.t) s' :
  still_open w ->
  ParquetFileWriter.Close (h, w) = (Ok tt, s') ->
  (exists payload footer_bytes,
     written (sink s'.1)
     = written (sink h) ++ payload ++ footer_bytes
       ++ footer_length_field footer_bytes ++ PARQUET_MAGIC)
  /\ closes (sink s'.1) = S (closes (sink h))
  /\ s'.2 = ParquetFileWriter.mk None.
Proof.
  intros Ho. unfold ParquetFileWriter.Close.
  destruct w as [[c|]]; [| done]. cbn [ParquetFileWriter.contents_].
  intros E. bind_inv E. destruct a, s as [h2 w2].
  unfold ParquetFileWriter.on_contents in E0. cbn [ParquetFileWriter.contents_] in E0.
  destruct (ParquetFileWriter.dispatch _ _ (h, c)) as [r [h3 c3]] eqn:Ed.
  injection E0 as -> <- <-.
  apply contents_Close_Ok in Ed as (W & C & Hcl); [| done].
  rewrite reset_contents_closed in E.
  - injection E as <-. done.
  - unfold still_open in Hcl. simpl in *. destruct c3 as [f|z].
    + by destruct (FileSerializer.is_open_ f).
    + by destruct (FileSerializer.is_open_ (ZdbFileSerializer.base z)).
Qed.

(** C4: a plain file.  At open the magic marker is written to the sink.  A
    [Close] that returns has written, after what the open row group still
    had to flush, exactly the serialized footer, then 4 bytes holding the
    position after the footer minus the position before it (as a
    [uint32_t]: exactly that difference below [2^32]), then the magic
    marker.  A file written over an empty stream and closed therefore
    begins with the magic marker and ends with footer, length, magic
    marker. *)
Theorem plain_file_layout :
  (forall (sink0 : St) schema kv h f,
     FileSerializer.Open sink0 schema kv = (Ok tt, (h, f)) ->
     written (sink h) = written sink0 ++ PARQUET_MAGIC)
  /\ (forall (s s' : Heap St * FileSerializer.t),
        FileSerializer.is_open_ s.2 = true ->
        FileSerializer.Close s = (Ok tt, s') ->
        exists s1 footer (after : St),
          close_open_row_group s = (Ok tt, s1)
          /\ FileMetaDataBuilder.Finish (s1.1, FileSerializer.metadata_ s1.2)
             = (Ok footer, (s1.1, FileSerializer.metadata_ s1.2))
          /\ written after = written (sink s1.1) ++ SerializeThriftMsg footer
          /\ let length_field :=
               uint32_object_bytes
                 (uint32_sub (to_uint32 (Tell after)) (to_uint32 (Tell (sink s1.1)))) in
             written (sink s'.1)
             = written (sink s1.1) ++ SerializeThriftMsg footer
               ++ length_field ++ PARQUET_MAGIC
             /\ length length_field = 4%nat
             /\ (Tell after - Tell (sink s1.1) < 2 ^ 32 ->
                 uint32_of_bytes length_field = Tell after - Tell (sink s1.1)))
  /\ (forall (sink0 : St) schema kv (cs : list Call) s0 s1 s',
        written sink0 = [] ->
        ParquetFileWriter.Open sink0 schema kv = (Ok tt, s0) ->
        calls cs s0 = (Ok tt, s1) ->
        still_open s1.2 ->
        ParquetFileWriter.Close s1 = (Ok tt, s') ->
        exists body footer_bytes,
          written (sink s'.1)
          = PARQUET_MAGIC ++ body ++ footer_bytes
            ++ footer_length_field footer_bytes ++ PARQUET_MAGIC).
Proof.
  split; [| split].
  - intros sink0 schema kv h f E. unfold FileSerializer.Open in E.
    by apply FileSerializer_new_Ok in E as (-> & _).
  - intros [h f] [h' f'] Ho E. unfold FileSerializer.Close in E.
    apply Close__Ok_inv in E as ([h1 f1] & [h2 f2] & [h3 f3] & E1 & E2 & E3 & E4);
      [| done].
    apply WriteMetaData_positions in E2 as (footer & after & EF & Wa & W).
    apply on_sink_Close_Ok in E3 as (W' & _).
    injection E4 as -> ->. cbn [fst snd] in *.
    exists (h1, f1), footer, after. cbn [fst snd].
    split; [done |]. split; [done |]. split; [done |].
    split; [| split; [done |]].
    + by rewrite W', W, Wa, <- !app_assoc.
    + intros Hlt. rewrite uint32_sub_to_uint32. unfold to_uint32.
      assert (0 <= Tell after - Tell (sink h1)).
      { rewrite !Tell_written, Wa, length_app. lia. }
      rewrite Z.mod_small by lia. apply uint32_of_object_bytes. lia.
  - intros sink0 schema kv cs [h0 w0] [h1 w1] s' Hempty E0 E1 Ho E2.
    unfold ParquetFileWriter.Open in E0.
    destruct (FileSerializer.Open sink0 schema kv) as [r [h f]] eqn:EO.
    injection E0 as -> <- <-. unfold FileSerializer.Open in EO.
    apply FileSerializer_new_Ok in EO as (W0 & _). rewrite Hempty in W0.
    pose proof (preserved_calls grows cs _ _ _ E1) as [body1 W1].
    apply ParquetFileWriter_Close_Ok in E2 as ((payload & fb & W2) & _); [| done].
    cbn [fst snd] in *.
    exists (body1 ++ payload), fb. rewrite W2, W1, W0, <- !app_assoc. done.
Qed.

End PlainLayoutTheorem.

Section PlainLayout_run.
#[local] Existing Instance toy_thrift.

(** The file of two row groups over an empty stream, closed. *)
Lemma plain_file_layout_witness :
  let s0 := (ParquetFileWriter.Open InMemoryOutputStream.empty 1 None).2 in
  let s1 := (calls two_row_groups_100_50 s0).2 in
  let s' := (ParquetFileWriter.Close s1).2 in
  exists body footer_bytes,
    written (sink s'.1)
    = PARQUET_MAGIC ++ body ++ footer_bytes
      ++ footer_length_field footer_bytes ++ PARQUET_MAGIC.
Proof.
  intros s0 s1 s'.
  apply (proj2 (proj2 plain_file_layout)
           InMemoryOutputStream.empty 1 None two_row_groups_100_50 s0 s1 s').
  - reflexivity.
  - vm_compute. reflexivity.
  - vm_compute. reflexivity.
  - vm_compute. reflexivity.
  - vm_compute. reflexivity.
Defined.

End PlainLayout_run.

(** ** What the steps on a column keep of the row-group serializer *)

Section RowGroupFrame.
Context {St : Type} `{OutputStream St}.

(** A reading [F] of the serializer that is the same before and after. *)
Definition rg_keeps {A} (F : RowGroupSerializer.t -> A)
    : relation (Heap St * RowGroupSerializer.t) :=
  fun s s' => F s'.2 = F s.2.

#[global] Instance rg_keeps_preorder {A} (F : RowGroupSerializer.t -> A) :
  PreOrder (rg_keeps F).
Proof.
  split; [by intros s |]. intros s1 s2 s3. unfold rg_keeps. congruence.
Qed.

(** Readings that the row count, the byte count and the column writer do
    not enter. *)
Class ColumnIndependent {A} (F : RowGroupSerializer.t -> A) : Prop := {
  independent_num_rows_ : forall v rg, F (RowGroupSerializer.set_num_rows_ v rg) = F rg;
  independent_total_bytes_written_ :
    forall v rg, F (RowGroupSerializer.set_total_bytes_written_ v rg) = F rg;
  independent_current_column_writer_ :
    forall v rg, F (RowGroupSerializer.set_current_column_writer_ v rg) = F rg
}.

#[global] Instance closed__independent : ColumnIndependent RowGroupSerializer.closed_.
Proof. by split. Qed.

Section Keeps.
Context {A} (F : RowGroupSerializer.t -> A) `{!ColumnIndependent F}.

Lemma keeps_this {B} (g : RowGroupSerializer.t -> B) :
  preserved (rg_keeps F) (RowGroupSerializer.this (St:=St) g).
Proof. apply preserved_gets, _. Qed.

Lemma keeps_on_metadata {B} (m : M RowGroupMetaDataBuilder.t B) :
  preserved (rg_keeps F) (RowGroupSerializer.on_metadata (St:=St) m).
Proof.
  intros [h rg] r [h' rg']. unfold RowGroupSerializer.on_metadata, rg_keeps.
  destruct (row_group_builders h !! _); [destruct (m _) |]; by intros [= _ _ <-].
Qed.

Lemma keeps_on_current_column_writer {B} (m : M (St * ColumnWriter.t) B) :
  preserved (rg_keeps F) (RowGroupSerializer.on_current_column_writer m).
Proof using Type*.
  intros [h rg] r [h' rg']. unfold RowGroupSerializer.on_current_column_writer, rg_keeps.
  destruct (RowGroupSerializer.current_column_writer_ rg) as [w|];
    [| by intros [= _ _ <-]].
  destruct (m (sink h, w)) as [r1 [s1 w1]]. intros [= _ _ <-].
  apply independent_current_column_writer_.
Qed.

Lemma keeps_assign_num_rows_ v :
  preserved (rg_keeps F)
    (RowGroupSerializer.assign (St:=St) (RowGroupSerializer.set_num_rows_ v)).
Proof using Type*. apply preserved_modify. intros s. apply independent_num_rows_. Qed.

Lemma keeps_assign_total_bytes_written_ v :
  preserved (rg_keeps F)
    (RowGroupSerializer.assign (St:=St) (RowGroupSerializer.set_total_bytes_written_ v)).
Proof using Type*.
  apply preserved_modify. intros s. apply independent_total_bytes_written_.
Qed.

Lemma keeps_assign_current_column_writer_ v :
  preserved (rg_keeps F)
    (RowGroupSerializer.assign (St:=St) (RowGroupSerializer.set_current_column_writer_ v)).
Proof using Type*.
  apply preserved_modify. intros s. apply independent_current_column_writer_.
Qed.

Hint Resolve keeps_this keeps_on_metadata keeps_on_current_column_writer
  keeps_assign_num_rows_ keeps_assign_total_bytes_written_
  keeps_assign_current_column_writer_ : preserved.

Lemma keeps_CheckRowsWritten :
  preserved (rg_keeps F) RowGroupSerializer.CheckRowsWritten.
Proof using Type*. unfold RowGroupSerializer.CheckRowsWritten. preserved_steps. Qed.

Lemma keeps_close_current_column :
  preserved (rg_keeps F) RowGroupSerializer.close_current_column.
Proof using Type*. unfold RowGroupSerializer.close_current_column. preserved_steps. Qed.

Lemma keeps_num_rows :
  preserved (rg_keeps F) RowGroupSerializer.num_rows.
Proof using Type*.
  pose proof keeps_CheckRowsWritten.
  unfold RowGroupSerializer.num_rows. preserved_steps.
Qed.

Lemma keeps_column_WriteBatch n encoded :
  preserved (rg_keeps F) (RowGroupSerializer.column_WriteBatch n encoded).
Proof using Type*. unfold RowGroupSerializer.column_WriteBatch. preserved_steps. Qed.

End Keeps.

Hint Resolve keeps_this keeps_on_metadata keeps_on_current_column_writer
  keeps_assign_num_rows_ keeps_assign_total_bytes_written_
  keeps_assign_current_column_writer_ keeps_CheckRowsWritten
  keeps_close_current_column keeps_num_rows keeps_column_WriteBatch : preserved.

(** Once [closed_] is set, [Close] is over: nothing that follows in it
    resets the flag, whatever the outcome. *)
Lemma RowGroupSerializer_Close_closed (s s' : Heap St * RowGroupSerializer.t) r :
  RowGroupSerializer.Close s = (r, s') ->
  RowGroupSerializer.closed_ s'.2 = true.
Proof.
  unfold RowGroupSerializer.Close.
  unfold bind at 1. unfold RowGroupSerializer.this at 1. unfold gets.
  destruct (RowGroupSerializer.closed_ s.2) eqn:Hc; simpl.
  - by intros [= _ <-].
  - unfold bind at 1. unfold RowGroupSerializer.assign at 1. unfold modify.
    intros E.
    assert (Hk : preserved (rg_keeps RowGroupSerializer.closed_)
              (open <- RowGroupSerializer.this RowGroupSerializer.has_column_writer ;;
               when open (
                 RowGroupSerializer.CheckRowsWritten ;;
                 RowGroupSerializer.close_current_column ;;
                 RowGroupSerializer.assign
                   (RowGroupSerializer.set_current_column_writer_ None)) ;;
               total <- RowGroupSerializer.this RowGroupSerializer.total_bytes_written_ ;;
               RowGroupSerializer.on_metadata (RowGroupMetaDataBuilder.Finish total))).
    { preserved_steps. }
    apply Hk in E. unfold rg_keeps in E. by rewrite E.
Qed.

Lemma RowGroupSerializer_Close_again (s : Heap St * RowGroupSerializer.t) :
  RowGroupSerializer.closed_ s.2 = true ->
  RowGroupSerializer.Close s = (Ok tt, s).
Proof.
  intros Hc. unfold RowGroupSerializer.Close, bind, RowGroupSerializer.this, gets.
  by rewrite Hc.
Qed.

End RowGroupFrame.

#[global] Hint Resolve keeps_this keeps_on_metadata keeps_on_current_column_writer
  keeps_assign_num_rows_ keeps_assign_total_bytes_written_
  keeps_assign_current_column_writer_ keeps_CheckRowsWritten
  keeps_close_current_column keeps_num_rows keeps_column_WriteBatch : preserved.

(** ** What AppendRowGroup leaves of the file's row count *)

Section AppendRowGroupFrame.
Context {St : Type} `{OutputStream St} `{ThriftSerializer}.

Definition keeps_num_rows_ : relation (Heap St * FileSerializer.t) :=
  fun s s' => FileSerializer.num_rows_ s'.2 = FileSerializer.num_rows_ s.2.

#[global] Instance keeps_num_rows__preorder : PreOrder keeps_num_rows_.
Proof.
  split; [by intros s |]. intros s1 s2 s3. unfold keeps_num_rows_. congruence.
Qed.

Lemma keeps_num_rows__this {A} (g : FileSerializer.t -> A) :
  preserved keeps_num_rows_ (FileSerializer.this g).
Proof. apply preserved_gets, _. Qed.

Lemma keeps_num_rows__on_row_group_writer {A} (m : M (Heap St * RowGroupWriter.t) A) :
  preserved keeps_num_rows_ (FileSerializer.on_row_group_writer m).
Proof.
  intros [h f] r [h' f']. unfold FileSerializer.on_row_group_writer, keeps_num_rows_.
  destruct (FileSerializer.row_group_writer_ f) as [w|]; [| by intros [= _ _ <-]].
  destruct (m (h, w)) as [r1 [h1 w1]]. by intros [= _ _ <-].
Qed.

Lemma keeps_num_rows__on_metadata {A} (m : M (Heap St * FileMetaDataBuilder.t) A) :
  preserved keeps_num_rows_ (FileSerializer.on_metadata m).
Proof.
  intros [h f] r [h' f']. unfold FileSerializer.on_metadata, keeps_num_rows_.
  destruct (m (h, FileSerializer.metadata_ f)) as [r1 [h1 b1]]. by intros [= _ _ <-].
Qed.

Lemma keeps_num_rows__set_num_row_groups_ v :
  preserved keeps_num_rows_
    (FileSerializer.assign (St:=St) (FileSerializer.set_num_row_groups_ v)).
Proof. by apply preserved_modify. Qed.

Lemma keeps_num_rows__set_row_group_writer_ v :
  preserved keeps_num_rows_
    (FileSerializer.assign (St:=St) (FileSerializer.set_row_group_writer_ v)).
Proof. by apply preserved_modify. Qed.

Hint Resolve keeps_num_rows__this keeps_num_rows__on_row_group_writer
  keeps_num_rows__on_metadata keeps_num_rows__set_num_row_groups_
  keeps_num_rows__set_row_group_writer_ : preserved.

(** [AppendRowGroup] never changes [num_rows_], whatever its outcome: the
    rows of the row group it closes are added nowhere. *)
Lemma AppendRowGroup_keeps_num_rows_ (s s' : Heap St * FileSerializer.t) r :
  FileSerializer.AppendRowGroup s = (r, s') ->
  FileSerializer.num_rows_ s'.2 = FileSerializer.num_rows_ s.2.
Proof.
  revert s r s'. change (preserved keeps_num_rows_ FileSerializer.AppendRowGroup).
  unfold FileSerializer.AppendRowGroup. preserved_steps.
Qed.

End AppendRowGroupFrame.

(** ** What the first Close does, and what a Close that throws leaves *)

Section FirstClose.
Context {St : Type} `{OutputStream St} `{ThriftSerializer}.

(** A [Close] of a row group that returns, from a row group not yet closed:
    the row group is marked closed; the open column went through the
    row-count check, was closed (its pages flushed to the sink, its bytes
    added to [total_bytes_written_]) and released; the metadata's [Finish]
    ran with the total. *)
Lemma RowGroupSerializer_Close_Ok (h h' : Heap St) (rg rg' : RowGroupSerializer.t) :
  RowGroupSerializer.closed_ rg = false ->
  RowGroupSerializer.Close (h, rg) = (Ok tt, (h', rg')) ->
  RowGroupSerializer.closed_ rg' = true
  /\ RowGroupSerializer.current_column_writer_ rg' = None
  /\ (exists b,
        row_group_builders h' !! RowGroupSerializer.metadata_ rg = Some b
        /\ RowGroupMetaDataBuilder.total_byte_size b
           = Some (RowGroupSerializer.total_bytes_written_ rg'))
  /\ match RowGroupSerializer.current_column_writer_ rg with
     | Some w =>
         RowGroupSerializer.num_rows_ rg' = ColumnWriter.rows_written w
         /\ RowGroupSerializer.total_bytes_written_ rg'
            = RowGroupSerializer.total_bytes_written_ rg
              + ColumnWriter.total_bytes_written_ w
         /\ written (sink h')
            = written (sink h)
              ++ (if ColumnWriter.closed_ w then [] else ColumnWriter.pending w)
     | None =>
         RowGroupSerializer.total_bytes_written_ rg'
         = RowGroupSerializer.total_bytes_written_ rg
         /\ written (sink h') = written (sink h)
     end.
Proof.
  intros Hcl E. unfold RowGroupSerializer.Close in E.
  bind_inv E. unfold RowGroupSerializer.this, gets in E0. injection E0 as <- <-.
  cbn [snd] in E. rewrite Hcl in E. cbn [negb when] in E.
  bind_inv E. unfold RowGroupSerializer.assign, modify in E0. cbn [fst snd] in E0.
  injection E0 as _ <-.
  bind_inv E. unfold RowGroupSerializer.this, gets in E0. cbn [fst snd] in E0.
  injection E0 as <- <-.
  bind_inv E. destruct s as [h2 rg2].
  bind_inv E. unfold RowGroupSerializer.this, gets in E1. cbn [fst snd] in E1.
  injection E1 as <- <-.
  assert (Hfin : rg' = rg2 /\ sink h' = sink h2
            /\ exists b, row_group_builders h' !! RowGroupSerializer.metadata_ rg2 = Some b
                 /\ RowGroupMetaDataBuilder.total_byte_size b
                    = Some (RowGroupSerializer.total_bytes_written_ rg2)).
  { revert E. unfold RowGroupSerializer.on_metadata, RowGroupMetaDataBuilder.Finish.
    destruct (row_group_builders h2 !! _) as [b|] eqn:Hb; [| done].
    destruct (_ <? _); [done |]. intros [= <- <-]. split; [done |]. split; [done |].
    eexists. split.
    - apply list_lookup_insert_eq. by eapply lookup_lt_Some.
    - reflexivity. }
  clear E. destruct Hfin as (-> & Hs & b & Hb & Ht).
  unfold RowGroupSerializer.has_column_writer in E0.
  cbn [RowGroupSerializer.current_column_writer_ RowGroupSerializer.set_closed_] in E0.
  destruct (RowGroupSerializer.current_column_writer_ rg) as [w|] eqn:Hw; cbn [when] in E0.
  - bind_inv E0. destruct s as [h3 rg3].
    assert (Hw1 : RowGroupSerializer.current_column_writer_
                    (RowGroupSerializer.set_closed_ true rg) = Some w) by done.
    rewrite (CheckRowsWritten_run _ _ _ Hw1) in E1. cbn zeta in E1.
    assert (Hcheck : sink h3 = sink h
                     /\ rg3 = RowGroupSerializer.set_num_rows_ (ColumnWriter.rows_written w)
                                (RowGroupSerializer.set_closed_ true rg)).
    { cbn [RowGroupSerializer.num_rows_ RowGroupSerializer.metadata_
           RowGroupSerializer.set_closed_] in E1.
      destruct (RowGroupSerializer.num_rows_ rg <? 0).
      - destruct (row_group_builders h !! _) as [b0|] eqn:Hb0; [| done].
        simplify_eq. split; [| done].
        by destruct (record_num_rows_lookup (ColumnWriter.rows_written w) _ h b0 Hb0).
      - destruct (Z.eqb_spec (RowGroupSerializer.num_rows_ rg) (ColumnWriter.rows_written w))
          as [He | Hne]; cbn [negb] in E1; [| done].
        simplify_eq. split; [done |].
        destruct rg. simpl in *. by rewrite He. }
    destruct Hcheck as [Hs3 ->].
    bind_inv E0. destruct s as [h4 rg4].
    unfold RowGroupSerializer.assign, modify in E0. cbn [fst snd] in E0.
    simplify_eq.
    unfold RowGroupSerializer.close_current_column in E2.
    bind_inv E2. destruct s as [h5 rg5].
    unfold RowGroupSerializer.on_current_column_writer in E0.
    cbn [RowGroupSerializer.current_column_writer_ RowGroupSerializer.set_num_rows_
         RowGroupSerializer.set_closed_] in E0.
    rewrite Hw in E0.
    destruct (ColumnWriter.Close (sink h3, w)) as [r4 [s4 w4]] eqn:Ecw.
    simplify_eq.
    bind_inv E2. unfold RowGroupSerializer.this, gets in E0. cbn [fst snd] in E0.
    simplify_eq.
    bind_inv E2. unfold int64_add in E0.
    destruct (in_int64 _) in E0; [| discriminate]. unfold ret in E0.
    simplify_eq.
    unfold RowGroupSerializer.assign, modify in E2. cbn [fst snd] in E2.
    simplify_eq.
    assert (Hcw : forall bytes,
              ColumnWriter.Close (sink h3, w) = (Ok bytes, (s4, w4)) ->
              bytes = ColumnWriter.total_bytes_written_ w
              /\ written s4
                 = written (sink h3)
                   ++ (if ColumnWriter.closed_ w then [] else ColumnWriter.pending w)).
    { intros bytes. unfold ColumnWriter.Close. destruct (ColumnWriter.closed_ w).
      - intros [= <- <- _]. by rewrite app_nil_r.
      - destruct (Write (ColumnWriter.pending w) (sink h3)) as [[[]|e|] s5] eqn:Ew;
          [| done..].
        intros [= <- <- _]. by apply Write_Ok in Ew as [-> _]. }
    apply Hcw in Ecw as [-> Hwr]. clear Hcw E1.
    split; [done |]. split; [done |]. split; [by exists b |].
    split; [done |]. split; [by destruct rg |].
    rewrite Hs. cbn [sink set_sink]. by rewrite Hwr, Hs3.
  - unfold ret in E0. simplify_eq.
    split; [done |]. split; [done |]. split; [by exists b |]. split; [done |].
    by rewrite Hs.
Qed.

(** [is_open_] and [num_row_groups_] are the same before and after. *)
Definition keeps_open_and_count : relation (Heap St * FileSerializer.t) :=
  fun s s' =>
    FileSerializer.is_open_ s'.2 = FileSerializer.is_open_ s.2
    /\ FileSerializer.num_row_groups_ s'.2 = FileSerializer.num_row_groups_ s.2.

#[local] Instance keeps_open_and_count_preorder : PreOrder keeps_open_and_count.
Proof.
  split; [by intros s |]. intros s1 s2 s3. unfold keeps_open_and_count.
  intros [? ?] [? ?]. split; congruence.
Qed.

Lemma keeps_open_and_count_this {A} (g : FileSerializer.t -> A) :
  preserved keeps_open_and_count (FileSerializer.this g).
Proof. apply preserved_gets, _. Qed.

Lemma keeps_open_and_count_on_sink {A} (m : M St A) :
  preserved keeps_open_and_count (on_sink m).
Proof.
  intros [h f] r [h' f']. unfold on_sink, keeps_open_and_count.
  destruct (m (sink h)) as [r1 s1]. by intros [= _ _ <-].
Qed.

Lemma keeps_open_and_count_on_row_group_writer {A} (m : M (Heap St * RowGroupWriter.t) A) :
  preserved keeps_open_and_count (FileSerializer.on_row_group_writer m).
Proof.
  intros [h f] r [h' f']. unfold FileSerializer.on_row_group_writer, keeps_open_and_count.
  destruct (FileSerializer.row_group_writer_ f) as [w|]; [| by intros [= _ _ <-]].
  destruct (m (h, w)) as [r1 [h1 w1]]. by intros [= _ _ <-].
Qed.

Lemma keeps_open_and_count_on_metadata {A} (m : M (Heap St * FileMetaDataBuilder.t) A) :
  preserved keeps_open_and_count (FileSerializer.on_metadata m).
Proof.
  intros [h f] r [h' f']. unfold FileSerializer.on_metadata, keeps_open_and_count.
  destruct (m (h, FileSerializer.metadata_ f)) as [r1 [h1 b1]]. by intros [= _ _ <-].
Qed.

Lemma keeps_open_and_count_assign (g : FileSerializer.t -> FileSerializer.t) :
  (forall f, FileSerializer.is_open_ (g f) = FileSerializer.is_open_ f) ->
  (forall f, FileSerializer.num_row_groups_ (g f) = FileSerializer.num_row_groups_ f) ->
  preserved keeps_open_and_count (FileSerializer.assign g).
Proof. intros Hg Hn. apply preserved_modify. intros s. split; [apply Hg | apply Hn]. Qed.

Ltac keeps_open_and_count_steps :=
  preserved_steps;
    first [ apply keeps_open_and_count_this | apply keeps_open_and_count_on_sink
          | apply keeps_open_and_count_on_row_group_writer | apply keeps_open_and_count_on_metadata
          | by apply keeps_open_and_count_assign ].

Lemma keeps_open_and_count_close_open_row_group :
  preserved keeps_open_and_count close_open_row_group.
Proof. unfold close_open_row_group. keeps_open_and_count_steps. Qed.

Lemma keeps_open_and_count_WriteMetaData :
  preserved keeps_open_and_count FileSerializer.WriteMetaData.
Proof. unfold FileSerializer.WriteMetaData. keeps_open_and_count_steps. Qed.

Lemma keeps_open_and_count_Zdb_WriteMetaData old :
  preserved keeps_open_and_count (ZdbFileSerializer.WriteMetaData old).
Proof. unfold ZdbFileSerializer.WriteMetaData. keeps_open_and_count_steps. Qed.

(** [is_open_] is cleared by the last statement of [Close]: a [Close] that
    throws was run on an open file and leaves it open, with the row groups
    it counted. *)
Lemma Close__Throw_keeps wmd (s s' : Heap St * FileSerializer.t) e :
  preserved keeps_open_and_count wmd ->
  FileSerializer.Close_ wmd s = (Throw e, s') ->
  FileSerializer.is_open_ s.2 = true /\ keeps_open_and_count s s'.
Proof.
  intros Hwmd E.
  destruct (FileSerializer.is_open_ s.2) eqn:Ho; [| by rewrite Close__closed in E].
  split; [done |].
  unfold FileSerializer.Close_ in E.
  apply bind_Throw_inv in E as [E | (a & s0 & E0 & E)]; [done |].
  unfold FileSerializer.this, gets in E0. injection E0 as <- <-.
  rewrite Ho in E. cbn [when] in E.
  apply bind_Throw_inv in E as [E | (has & s1 & E1 & E)]; [done |].
  unfold FileSerializer.this, gets in E1. injection E1 as <- <-.
  assert (Hrg : preserved keeps_open_and_count
            (when (FileSerializer.has_row_group_writer s.2)
               (n <- FileSerializer.on_row_group_writer RowGroupWriter.num_rows ;;
                total <- FileSerializer.this FileSerializer.num_rows_ ;;
                total' <- int64_add total n ;;
                FileSerializer.assign (FileSerializer.set_num_rows_ total') ;;
                FileSerializer.on_row_group_writer RowGroupWriter.Close)))
    by keeps_open_and_count_steps.
  apply bind_Throw_inv in E as [E | (a2 & s2 & E2 & E)]; [by apply Hrg in E |].
  apply Hrg in E2. etrans; [exact E2 |]. clear Hrg.
  apply bind_Throw_inv in E as [E | (a3 & s3 & E3 & E)]; [done |].
  unfold FileSerializer.assign, modify in E3. injection E3 as _ <-.
  apply bind_Throw_inv in E as [E | (a4 & s4 & E4 & E)]; [by apply Hwmd in E |].
  apply Hwmd in E4. etrans; [exact E4 |].
  apply bind_Throw_inv in E as [E | (a5 & s5 & E5 & E)];
    [by apply keeps_open_and_count_on_sink in E | done].
Qed.

Lemma Close__Throw_open wmd (s s' : Heap St * FileSerializer.t) e :
  preserved keeps_open_and_count wmd ->
  FileSerializer.Close_ wmd s = (Throw e, s') ->
  FileSerializer.is_open_ s.2 = true /\ FileSerializer.is_open_ s'.2 = true.
Proof.
  intros Hwmd E. apply (Close__Throw_keeps _ _ _ _ Hwmd) in E as (Ho & Hk & _).
  split; [done | congruence].
Qed.

(** The destructors catch what [Close] throws. *)
Lemma FileSerializer_destructor_never_throws (s : Heap St * FileSerializer.t) e :
  (FileSerializer.destructor s).1 <> Throw e.
Proof. apply try_catch_all_never_throws. Qed.

Lemma ZdbFileSerializer_destructor_never_throws (s : Heap St * ZdbFileSerializer.t) e :
  (ZdbFileSerializer.destructor s).1 <> Throw e.
Proof.
  destruct s as [h z]. unfold ZdbFileSerializer.destructor, ZdbFileSerializer.on_base.
  pose proof (FileSerializer_destructor_never_throws (h, ZdbFileSerializer.base z) e).
  by destruct (FileSerializer.destructor _) as [r [h1 f1]].
Qed.

Lemma reset_contents_never_throws (s : Heap St * ParquetFileWriter.t) e :
  (ParquetFileWriter.reset_contents s).1 <> Throw e.
Proof.
  destruct s as [h [[[f|z]|]]];
    unfold ParquetFileWriter.reset_contents, ParquetFileWriter.dispatch;
    cbn [ParquetFileWriter.contents_]; [| | done].
  - pose proof (FileSerializer_destructor_never_throws (h, f) e).
    by destruct (FileSerializer.destructor _) as [r [h1 f1]].
  - pose proof (ZdbFileSerializer_destructor_never_throws (h, z) e).
    by destruct (ZdbFileSerializer.destructor _) as [r [h1 z1]].
Qed.

(** The same through the public [Close]: the serializer is kept, and is
    open. *)
Lemma ParquetFileWriter_Close_Throw_open (s s' : Heap St * ParquetFileWriter.t) e :
  ParquetFileWriter.Close s = (Throw e, s') ->
  still_open s.2 /\ still_open s'.2.
Proof.
  destruct s as [h [[c|]]]; unfold ParquetFileWriter.Close;
    cbn [ParquetFileWriter.contents_]; [| done].
  intros E. apply bind_Throw_inv in E as [E | (a & s1 & _ & E)];
    [| by pose proof (reset_contents_never_throws s1 e) as Hn; rewrite E in Hn].
  unfold ParquetFileWriter.on_contents, ParquetFileWriter.dispatch in E.
  cbn [ParquetFileWriter.contents_] in E. unfold still_open. destruct c as [f|z].
  - destruct (FileSerializer.Close (h, f)) as [r [h1 f1]] eqn:Ec.
    injection E as -> <-. cbn [snd ParquetFileWriter.contents_].
    by apply (Close__Throw_open _ _ _ _ keeps_open_and_count_WriteMetaData) in Ec.
  - destruct (ZdbFileSerializer.Close (h, z)) as [r [h1 z1]] eqn:Ec.
    injection E as -> <-. cbn [snd ParquetFileWriter.contents_].
    unfold ZdbFileSerializer.Close, ZdbFileSerializer.on_base in Ec.
    destruct (FileSerializer.Close_ _ _) as [r [h2 f2]] eqn:Ec2.
    injection Ec as -> <- <-. cbn [ZdbFileSerializer.base].
    by apply (Close__Throw_open _ _ _ _ (keeps_open_and_count_Zdb_WriteMetaData _)) in Ec2.
Qed.

(** The part of [Close] before the footer, when it returns: the open row
    group was asked its row count and closed, and its writer released; the
    footer's builder is the one the file had. *)
Lemma close_open_row_group_closes_it (h h1 : Heap St) (f f1 : FileSerializer.t) :
  close_open_row_group (h, f) = (Ok tt, (h1, f1)) ->
  FileSerializer.row_group_writer_ f1 = None
  /\ FileSerializer.metadata_ f1 = FileSerializer.metadata_ f
  /\ match FileSerializer.row_group_writer_ f with
     | Some w =>
         exists n s1 w2,
           RowGroupWriter.num_rows (h, w) = (Ok n, s1)
           /\ RowGroupWriter.Close s1 = (Ok tt, (h1, w2))
     | None => h1 = h
     end.
Proof.
  intros E1. unfold close_open_row_group in E1.
  bind_inv E1. unfold FileSerializer.this, gets in E0. injection E0 as <- <-.
  bind_inv E1. unfold FileSerializer.assign, modify in E1. injection E1 as <- <-.
  unfold FileSerializer.has_row_group_writer in E0. cbn [fst snd] in *.
  destruct (FileSerializer.row_group_writer_ f) as [w|] eqn:Ew; cbn [when] in E0.
  - destruct s as [h4 f4]. bind_inv E0. destruct s as [h5 f5].
    unfold FileSerializer.on_row_group_writer in E1. rewrite Ew in E1.
    destruct (RowGroupWriter.num_rows (h, w)) as [r6 [h6 w6]] eqn:En.
    injection E1 as -> <- <-.
    bind_inv E0. unfold FileSerializer.this, gets in E1. injection E1 as <- <-.
    bind_inv E0. unfold int64_add in E1.
    destruct (in_int64 _) in E1; [| discriminate]. unfold ret in E1.
    injection E1 as <- <-.
    bind_inv E0. unfold FileSerializer.assign, modify in E1. injection E1 as _ <-.
    unfold FileSerializer.on_row_group_writer in E0.
    cbn [fst snd FileSerializer.row_group_writer_ FileSerializer.set_num_rows_
         FileSerializer.set_row_group_writer_] in E0.
    destruct (RowGroupWriter.Close (h6, w6)) as [r7 [h7 w7]] eqn:Ec.
    injection E0 as -> <- <-. cbn.
    destruct a. split; [done |]. split; [done |]. by exists a0, (h6, w6), w7.
  - unfold ret in E0. by simplify_eq.
Qed.

(** A [Close] of an open file that returns: the open row group was asked
    its row count and closed, the footer is what [metadata_->Finish()]
    gave, the sink was closed once, and the file is closed. *)
Lemma FileSerializer_Close_Ok (h h' : Heap St) (f f' : FileSerializer.t) :
  FileSerializer.is_open_ f = true ->
  FileSerializer.Close (h, f) = (Ok tt, (h', f')) ->
  FileSerializer.is_open_ f' = false
  /\ FileSerializer.row_group_writer_ f' = None
  /\ closes (sink h') = S (closes (sink h))
  /\ exists h1 footer,
       match FileSerializer.row_group_writer_ f with
       | Some w =>
           exists n s1 w2,
             RowGroupWriter.num_rows (h, w) = (Ok n, s1)
             /\ RowGroupWriter.Close s1 = (Ok tt, (h1, w2))
       | None => h1 = h
       end
       /\ FileMetaDataBuilder.Finish (h1, FileSerializer.metadata_ f)
          = (Ok footer, (h1, FileSerializer.metadata_ f))
       /\ written (sink h')
          = written (sink h1) ++ SerializeThriftMsg footer
            ++ footer_length_field (SerializeThriftMsg footer) ++ PARQUET_MAGIC.
Proof.
  intros Ho E. unfold FileSerializer.Close in E.
  apply Close__Ok_inv in E as ([h1 f1] & [h2 f2] & [h3 f3] & E1 & E2 & E3 & E4);
    [| done].
  pose proof (preserved_close_open_row_group grows_open _ _ _ E1) as [_ C1].
  apply WriteMetaData_Ok in E2 as (footer & EF & W & C2 & _ & ->).
  apply on_sink_Close_Ok in E3 as (W3 & C3 & _ & ->).
  injection E4 as -> ->. cbn [fst snd] in *.
  apply close_open_row_group_closes_it in E1 as (Hn & Hm & Hg). rewrite Hm in EF.
  split; [done |]. split; [done |]. split; [congruence |].
  exists h1, footer. split; [done |]. split; [done |]. by rewrite W3.
Qed.

(** The same for the append variant with an old footer: the footer written
    is the merged one. *)
Lemma ZdbFileSerializer_Close_Ok (h h' : Heap St) (z z' : ZdbFileSerializer.t) old :
  FileSerializer.is_open_ (ZdbFileSerializer.base z) = true ->
  ZdbFileSerializer.old_file_meta_ z = Some old ->
  ZdbFileSerializer.Close (h, z) = (Ok tt, (h', z')) ->
  FileSerializer.is_open_ (ZdbFileSerializer.base z') = false
  /\ FileSerializer.row_group_writer_ (ZdbFileSerializer.base z') = None
  /\ closes (sink h') = S (closes (sink h))
  /\ exists h1 target merged,
       match FileSerializer.row_group_writer_ (ZdbFileSerializer.base z) with
       | Some w =>
           exists n s1 w2,
             RowGroupWriter.num_rows (h, w) = (Ok n, s1)
             /\ RowGroupWriter.Close s1 = (Ok tt, (h1, w2))
       | None => h1 = h
       end
       /\ FileMetaDataBuilder.Finish
            (h1, FileSerializer.metadata_ (ZdbFileSerializer.base z))
          = (Ok target, (h1, FileSerializer.metadata_ (ZdbFileSerializer.base z)))
       /\ ZdbFileSerializer.merge target old tt = (Ok merged, tt)
       /\ written (sink h')
          = written (sink h1) ++ SerializeThriftMsg merged
            ++ footer_length_field (SerializeThriftMsg merged) ++ PARQUET_MAGIC.
Proof.
  intros Ho Hold E. destruct z as [f o]. cbn [ZdbFileSerializer.base
    ZdbFileSerializer.old_file_meta_] in *. subst o.
  unfold ZdbFileSerializer.Close, ZdbFileSerializer.on_base in E.
  cbn [ZdbFileSerializer.base ZdbFileSerializer.old_file_meta_] in E.
  destruct (FileSerializer.Close_ _ _) as [r [h0 f0]] eqn:Ec.
  injection E as -> <- <-. cbn [ZdbFileSerializer.base].
  apply Close__Ok_inv in Ec as ([h1 f1] & [h2 f2] & [h3 f3] & E1 & E2 & E3 & E4);
    [| done].
  pose proof (preserved_close_open_row_group grows_open _ _ _ E1) as [_ C1].
  apply Zdb_WriteMetaData_Ok in E2 as (target & merged & EF & EM & W & C2 & _ & ->).
  apply on_sink_Close_Ok in E3 as (W3 & C3 & _ & ->).
  injection E4 as -> ->. cbn [fst snd] in *.
  apply close_open_row_group_closes_it in E1 as (Hn & Hm & Hg). rewrite Hm in EF.
  split; [done |]. split; [done |]. split; [congruence |].
  exists h1, target, merged. split; [done |]. split; [done |].
  split; [| by rewrite W3].
  apply merge_Ok in EM as (_ & Hr & ->).
  unfold ZdbFileSerializer.merge, int64_add, bind. rewrite Hr. done.
Qed.

End FirstClose.

(** ** Close twice *)

Section Idempotent.
Context {St : Type} `{OutputStream St} `{ThriftSerializer}.

Lemma RowGroupWriter_Close_twice (s s' : Heap St * RowGroupWriter.t) r :
  RowGroupWriter.Close s = (r, s') -> RowGroupWriter.Close s' = (Ok tt, s').
Proof.
  destruct s as [h [[c|]]]; unfold RowGroupWriter.Close at 1;
    cbn [RowGroupWriter.contents_]; [| by intros [= _ <-]].
  unfold RowGroupWriter.on_contents. cbn [RowGroupWriter.contents_].
  destruct (RowGroupSerializer.Close (h, c)) as [r1 [h1 c1]] eqn:E.
  intros [= _ <-]. apply RowGroupSerializer_Close_closed in E.
  unfold RowGroupWriter.Close, RowGroupWriter.on_contents.
  cbn [RowGroupWriter.contents_].
  by rewrite (RowGroupSerializer_Close_again (h1, c1)).
Qed.

Lemma ZdbFileSerializer_Close_twice (s s' : Heap St * ZdbFileSerializer.t) :
  ZdbFileSerializer.Close s = (Ok tt, s') -> ZdbFileSerializer.Close s' = (Ok tt, s').
Proof.
  destruct s as [h z]. unfold ZdbFileSerializer.Close at 1, ZdbFileSerializer.on_base.
  destruct (FileSerializer.Close_ _ _) as [r [h1 f1]] eqn:E.
  intros [= -> <-]. apply Close__Ok_closed in E.
  unfold ZdbFileSerializer.Close, ZdbFileSerializer.on_base.
  cbn [ZdbFileSerializer.base ZdbFileSerializer.old_file_meta_].
  by rewrite (Close__closed _ (h1, f1)).
Qed.

Lemma reset_contents_null (s s' : Heap St * ParquetFileWriter.t) r :
  ParquetFileWriter.reset_contents s = (r, s') ->
  ParquetFileWriter.contents_ s'.2 = None.
Proof.
  destruct s as [h [[c|]]]; unfold ParquetFileWriter.reset_contents;
    cbn [ParquetFileWriter.contents_]; [| by intros [= _ <-]].
  destruct (ParquetFileWriter.dispatch _ _ _) as [r1 [h1 c1]]. by intros [= _ <-].
Qed.

Lemma ParquetFileWriter_Close_null (s : Heap St * ParquetFileWriter.t) :
  ParquetFileWriter.contents_ s.2 = None ->
  ParquetFileWriter.Close s = (Ok tt, s).
Proof. destruct s as [h w]. unfold ParquetFileWriter.Close. simpl. by intros ->. Qed.

Lemma ParquetFileWriter_Close_twice (s s' : Heap St * ParquetFileWriter.t) :
  ParquetFileWriter.Close s = (Ok tt, s') -> ParquetFileWriter.Close s' = (Ok tt, s').
Proof.
  intros E. apply ParquetFileWriter_Close_null.
  destruct s as [h [[c|]]]; unfold ParquetFileWriter.Close in E;
    cbn [ParquetFileWriter.contents_] in E; [| by injection E as <-].
  bind_inv E. by apply reset_contents_null in E.
Qed.

(** C6: [Close] of a row group writer and of a file writer are idempotent.
    A second [Close] of a row group, whatever the first one's outcome, and a
    second [Close] of a file whose first [Close] returned, return without an
    error and leave every piece of state as it was, so the sink is closed
    once.  The first [Close] is the one that finalizes: of a row group, it
    marks the row group closed, checks and closes the open column (its pages
    reach the sink, its bytes are added to the total) and runs the metadata's
    [Finish] with the total; of a file, it closes the open row group, writes
    the footer that [Finish] gave (merged with the old footer in the append
    variant), closes the sink once and marks the file closed.  A [Close] of a
    file that throws leaves the file open and the writer with its
    serializer. *)
Theorem Close_is_idempotent :
  (forall (s s' : Heap St * RowGroupSerializer.t) r,
     RowGroupSerializer.Close s = (r, s') ->
     RowGroupSerializer.Close s' = (Ok tt, s'))
  /\ (forall (s s' : Heap St * RowGroupWriter.t) r,
        RowGroupWriter.Close s = (r, s') ->
        RowGroupWriter.Close s' = (Ok tt, s'))
  /\ (forall (s s' : Heap St * FileSerializer.t),
        FileSerializer.Close s = (Ok tt, s') ->
        FileSerializer.Close s' = (Ok tt, s'))
  /\ (forall (s s' : Heap St * ZdbFileSerializer.t),
        ZdbFileSerializer.Close s = (Ok tt, s') ->
        ZdbFileSerializer.Close s' = (Ok tt, s'))
  /\ (forall (s s' : Heap St * ParquetFileWriter.t),
        ParquetFileWriter.Close s = (Ok tt, s') ->
        ParquetFileWriter.Close s' = (Ok tt, s'))
  /\ (forall (s : Heap St * ParquetFileWriter.t),
        (ParquetFileWriter.Close ;; ParquetFileWriter.Close) s
        = ParquetFileWriter.Close s)
  /\ (forall (s s' : Heap St * ParquetFileWriter.t),
        still_open s.2 ->
        ParquetFileWriter.Close s = (Ok tt, s') ->
        (ParquetFileWriter.Close ;; ParquetFileWriter.Close) s = (Ok tt, s')
        /\ closes (sink s'.1) = S (closes (sink s.1))
        /\ exists payload footer_bytes,
             written (sink s'.1)
             = written (sink s.1) ++ payload ++ footer_bytes
               ++ footer_length_field footer_bytes ++ PARQUET_MAGIC)
  /\ (forall (h h' : Heap St) (rg rg' : RowGroupSerializer.t),
        RowGroupSerializer.closed_ rg = false ->
        RowGroupSerializer.Close (h, rg) = (Ok tt, (h', rg')) ->
        RowGroupSerializer.closed_ rg' = true
        /\ RowGroupSerializer.current_column_writer_ rg' = None
        /\ (exists b,
              row_group_builders h' !! RowGroupSerializer.metadata_ rg = Some b
              /\ RowGroupMetaDataBuilder.total_byte_size b
                 = Some (RowGroupSerializer.total_bytes_written_ rg'))
        /\ match RowGroupSerializer.current_column_writer_ rg with
           | Some w =>
               RowGroupSerializer.num_rows_ rg' = ColumnWriter.rows_written w
               /\ RowGroupSerializer.total_bytes_written_ rg'
                  = RowGroupSerializer.total_bytes_written_ rg
                    + ColumnWriter.total_bytes_written_ w
               /\ written (sink h')
                  = written (sink h)
                    ++ (if ColumnWriter.closed_ w then [] else ColumnWriter.pending w)
           | None =>
               RowGroupSerializer.total_bytes_written_ rg'
               = RowGroupSerializer.total_bytes_written_ rg
               /\ written (sink h') = written (sink h)
           end)
  /\ (forall (h h' : Heap St) (f f' : FileSerializer.t),
        FileSerializer.is_open_ f = true ->
        FileSerializer.Close (h, f) = (Ok tt, (h', f')) ->
        FileSerializer.is_open_ f' = false
        /\ FileSerializer.row_group_writer_ f' = None
        /\ closes (sink h') = S (closes (sink h))
        /\ exists h1 footer,
             match FileSerializer.row_group_writer_ f with
             | Some w =>
                 exists n s1 w2,
                   RowGroupWriter.num_rows (h, w) = (Ok n, s1)
                   /\ RowGroupWriter.Close s1 = (Ok tt, (h1, w2))
             | None => h1 = h
             end
             /\ FileMetaDataBuilder.Finish (h1, FileSerializer.metadata_ f)
                = (Ok footer, (h1, FileSerializer.metadata_ f))
             /\ written (sink h')
                = written (sink h1) ++ SerializeThriftMsg footer
                  ++ footer_length_field (SerializeThriftMsg footer)
                  ++ PARQUET_MAGIC)
  /\ (forall (h h' : Heap St) (z z' : ZdbFileSerializer.t) old,
        FileSerializer.is_open_ (ZdbFileSerializer.base z) = true ->
        ZdbFileSerializer.old_file_meta_ z = Some old ->
        ZdbFileSerializer.Close (h, z) = (Ok tt, (h', z')) ->
        FileSerializer.is_open_ (ZdbFileSerializer.base z') = false
        /\ FileSerializer.row_group_writer_ (ZdbFileSerializer.base z') = None
        /\ closes (sink h') = S (closes (sink h))
        /\ exists h1 target merged,
             match FileSerializer.row_group_writer_ (ZdbFileSerializer.base z) with
             | Some w =>
                 exists n s1 w2,
                   RowGroupWriter.num_rows (h, w) = (Ok n, s1)
                   /\ RowGroupWriter.Close s1 = (Ok tt, (h1, w2))
             | None => h1 = h
             end
             /\ FileMetaDataBuilder.Finish
                  (h1, FileSerializer.metadata_ (ZdbFileSerializer.base z))
                = (Ok target,
                   (h1, FileSerializer.metadata_ (ZdbFileSerializer.base z)))
             /\ ZdbFileSerializer.merge target old tt = (Ok merged, tt)
             /\ written (sink h')
                = written (sink h1) ++ SerializeThriftMsg merged
                  ++ footer_length_field (SerializeThriftMsg merged)
                  ++ PARQUET_MAGIC)
  /\ (forall (s s' : Heap St * FileSerializer.t) e,
        FileSerializer.Close s = (Throw e, s') ->
        FileSerializer.is_open_ s.2 = true /\ FileSerializer.is_open_ s'.2 = true)
  /\ (forall (s s' : Heap St * ZdbFileSerializer.t) e,
        ZdbFileSerializer.Close s = (Throw e, s') ->
        FileSerializer.is_open_ (ZdbFileSerializer.base s.2) = true
        /\ FileSerializer.is_open_ (ZdbFileSerializer.base s'.2) = true)
  /\ (forall (s s' : Heap St * ParquetFileWriter.t) e,
        ParquetFileWriter.Close s = (Throw e, s') ->
        still_open s.2 /\ still_open s'.2).
Proof.
  repeat apply conj.
  - intros s s' r E. apply RowGroupSerializer_Close_again.
    by eapply RowGroupSerializer_Close_closed.
  - apply RowGroupWriter_Close_twice.
  - intros s s' E. unfold FileSerializer.Close in *.
    apply Close__closed. by eapply Close__Ok_closed.
  - apply ZdbFileSerializer_Close_twice.
  - apply ParquetFileWriter_Close_twice.
  - intros s. unfold bind.
    destruct (ParquetFileWriter.Close s) as [[[]|e|] s1] eqn:E; [| done..].
    by apply ParquetFileWriter_Close_twice in E.
  - intros [h w] s' Ho E. cbn [fst snd] in *.
    split; [| by apply ParquetFileWriter_Close_Ok in E as (? & ? & _)].
    rewrite (bind_Ok _ _ _ _ _ E). by apply ParquetFileWriter_Close_twice in E.
  - apply RowGroupSerializer_Close_Ok.
  - apply FileSerializer_Close_Ok.
  - apply ZdbFileSerializer_Close_Ok.
  - intros s s' e. apply Close__Throw_open, keeps_open_and_count_WriteMetaData.
  - intros [h z] [h' z'] e E.
    unfold ZdbFileSerializer.Close, ZdbFileSerializer.on_base in E.
    destruct (FileSerializer.Close_ _ _) as [r [h2 f2]] eqn:Ec.
    injection E as -> <- <-. cbn [fst snd ZdbFileSerializer.base].
    by apply (Close__Throw_open _ _ _ _ (keeps_open_and_count_Zdb_WriteMetaData _)) in Ec.
  - apply ParquetFileWriter_Close_Throw_open.
Qed.

End Idempotent.

Section Idempotent_run.
#[local] Existing Instance toy_thrift.

(** Outside the theorem: a first [Close] that throws.  A row group with one
    of its two columns written makes [Close] throw when the row group is
    closed; [is_open_] is still set, and the next [Close] ends the file. *)
Lemma Close_after_a_Close_that_threw_ends_the_file :
  let s := (calls [CallAppendRowGroup; CallNextColumn []; CallWriteBatch 10 [Byte.x01]]
              (ParquetFileWriter.Open InMemoryOutputStream.empty 2 None).2).2 in
  let s1 := (ParquetFileWriter.Close s).2 in
  (ParquetFileWriter.Close s).1
  = Throw (ParquetException "IncompleteRowGroupError: not every column was written")
  /\ closes (sink s1.1) = 0%nat
  /\ (ParquetFileWriter.Close s1).1 = Ok tt
  /\ closes (sink (ParquetFileWriter.Close s1).2.1) = 1%nat
  /\ (ParquetFileWriter.Close s1).2 <> s1.
Proof. vm_compute. repeat split; discriminate. Qed.

(** The file of two row groups, closed twice: one [Close] of the sink.  A
    row group of one column of 100 rows: its [Close] marks it closed and
    flushes the column's byte.  The file with a missing column: the [Close]
    that throws leaves it open. *)
Lemma Close_is_idempotent_witness :
  (let s := (calls two_row_groups_100_50
               (ParquetFileWriter.Open InMemoryOutputStream.empty 1 None).2).2 in
   let s' := (ParquetFileWriter.Close s).2 in
   (ParquetFileWriter.Close ;; ParquetFileWriter.Close) s = (Ok tt, s')
   /\ closes (sink s'.1) = 1%nat)
  /\ (let rg := (column_calls [ColNextColumn []; ColWriteBatch 100 [Byte.x01]]
                   (mkHeap InMemoryOutputStream.empty [RowGroupMetaDataBuilder.Make 1],
                    RowGroupSerializer.new 0)).2 in
      let rg' := (RowGroupSerializer.Close rg).2 in
      RowGroupSerializer.closed_ rg'.2 = true
      /\ RowGroupSerializer.current_column_writer_ rg'.2 = None
      /\ written (sink rg'.1) = [Byte.x01])
  /\ (let t := (calls [CallAppendRowGroup; CallNextColumn [];
                       CallWriteBatch 10 [Byte.x01]]
                  (ParquetFileWriter.Open InMemoryOutputStream.empty 2 None).2).2 in
      still_open (ParquetFileWriter.Close t).2.2).
Proof.
  pose proof (Close_is_idempotent (St:=InMemoryOutputStream.t))
    as (_ & _ & _ & _ & _ & _ & T7 & T8 & _ & _ & _ & _ & T13).
  split; [| split].
  - intros s s'. destruct (T7 s s') as (E & C & _).
    + vm_compute. reflexivity.
    + vm_compute. reflexivity.
    + split; [exact E | exact C].
  - intros rg rg'. destruct (T8 rg.1 rg'.1 rg.2 rg'.2) as (Hc & Hw & _ & Hs).
    + vm_compute. reflexivity.
    + vm_compute. reflexivity.
    + split; [exact Hc |]. split; [exact Hw |].
      destruct Hs as (_ & _ & Hs). exact Hs.
  - intros t.
    apply (T13 t (ParquetFileWriter.Close t).2
             (ParquetException "IncompleteRowGroupError: not every column was written")).
    vm_compute. reflexivity.
Defined.

End Idempotent_run.

(** ** Errors of the footer write: explicit Close and the destructors *)

Section CloseErrors.
Context {St : Type} `{OutputStream St} `{ThriftSerializer}.



End CloseErrors.

Section CloseErrors_run.
#[local] Existing Instance toy_thrift.


End CloseErrors_run.

(** ** The columns of a row group, call by call *)

Section ColumnCalls.
Context {St : Type} `{OutputStream St}.

(** The members no step on a column touches except [NextColumn]'s
    increment. *)
Definition place (rg : RowGroupSerializer.t) : Z * bool * nat :=
  (RowGroupSerializer.current_column_index_ rg,
   RowGroupSerializer.closed_ rg,
   RowGroupSerializer.metadata_ rg).

#[global] Instance place_independent : ColumnIndependent place.
Proof. by split. Qed.

Lemma NextColumn_Ok meta (s s' : Heap St * RowGroupSerializer.t) :
  RowGroupSerializer.NextColumn meta s = (Ok tt, s') ->
  RowGroupSerializer.current_column_index_ s'.2
  = RowGroupSerializer.current_column_index_ s.2 + 1
  /\ RowGroupSerializer.closed_ s'.2 = RowGroupSerializer.closed_ s.2
  /\ RowGroupSerializer.metadata_ s'.2 = RowGroupSerializer.metadata_ s.2
  /\ RowGroupSerializer.current_column_writer_ s'.2 = Some ColumnWriter.Make.
Proof.
  unfold RowGroupSerializer.NextColumn. intros E.
  bind_inv E. unfold RowGroupSerializer.this, gets in E0. injection E0 as <- <-.
  bind_inv E.
  assert (K1 : rg_keeps place s s0).
  { revert E0. apply preserved_when; [apply _ | apply keeps_CheckRowsWritten, _]. }
  bind_inv E. apply (keeps_on_metadata place) in E1 as K2.
  bind_inv E. unfold RowGroupSerializer.this, gets in E2. injection E2 as <- <-.
  bind_inv E.
  assert (K3 : rg_keeps place s1 s2).
  { revert E2. apply preserved_when; [apply _ | apply keeps_close_current_column, _]. }
  bind_inv E. unfold RowGroupSerializer.this, gets in E3. injection E3 as <- <-.
  bind_inv E. unfold int_add in E3. case_match; [| discriminate].
  injection E3 as <- <-.
  bind_inv E. unfold RowGroupSerializer.assign, modify in E3, E.
  injection E3 as <- <-. injection E as <-.
  unfold rg_keeps, place in K1, K2, K3. simpl.
  destruct s as [h rg], s0 as [h0 rg0], s1 as [h1 rg1], s2 as [h2 rg2].
  cbn [fst snd] in *.
  injection K1 as ? ? ?. injection K2 as ? ? ?. injection K3 as ? ? ?.
  repeat split; congruence.
Qed.

Lemma column_call_place (c : ColumnCall) (s s' : Heap St * RowGroupSerializer.t) :
  column_call c s = (Ok tt, s') ->
  RowGroupSerializer.current_column_index_ s'.2
  = RowGroupSerializer.current_column_index_ s.2 + opened [c]
  /\ RowGroupSerializer.closed_ s'.2 = RowGroupSerializer.closed_ s.2
  /\ RowGroupSerializer.metadata_ s'.2 = RowGroupSerializer.metadata_ s.2.
Proof.
  destruct c as [meta|n encoded|]; simpl; intros E.
  - apply NextColumn_Ok in E as (-> & -> & -> & _). done.
  - apply (keeps_column_WriteBatch place) in E. unfold rg_keeps, place in E.
    injection E as -> -> ->. split; [lia | done].
  - bind_inv E. injection E as <-.
    apply (keeps_num_rows place) in E0. unfold rg_keeps, place in E0.
    injection E0 as -> -> ->. split; [lia | done].
Qed.

(** In a row group on which [cs] ran, [current_column_index_] is the number
    of columns opened. *)
Lemma column_calls_place (cs : list ColumnCall) (s s' : Heap St * RowGroupSerializer.t) :
  column_calls cs s = (Ok tt, s') ->
  RowGroupSerializer.current_column_index_ s'.2
  = RowGroupSerializer.current_column_index_ s.2 + opened cs
  /\ RowGroupSerializer.closed_ s'.2 = RowGroupSerializer.closed_ s.2
  /\ RowGroupSerializer.metadata_ s'.2 = RowGroupSerializer.metadata_ s.2.
Proof.
  revert s. induction cs as [|c cs IH]; intros s; simpl.
  - intros [= <-]. split; [lia | done].
  - intros E. bind_inv E. destruct a.
    apply column_call_place in E0 as (I1 & C1 & M1).
    apply IH in E as (I2 & C2 & M2).
    rewrite I2, I1, C2, C1, M2, M1. split; [| done].
    destruct c; simpl; lia.
Qed.

End ColumnCalls.

(** ** The recorded row count stays *)

Section Recorded.
Context {St : Type} `{OutputStream St}.

Definition stays_recorded (n : Z) : relation (Heap St * RowGroupSerializer.t) :=
  fun s s' => recorded n s -> recorded n s'.

#[global] Instance stays_recorded_preorder n : PreOrder (stays_recorded n).
Proof.
  split; unfold stays_recorded.
  - intros s Hs. exact Hs.
  - intros s1 s2 s3 H1 H2 Hs. apply H2, H1, Hs.
Qed.

Lemma stays_recorded_this n {A} (f : RowGroupSerializer.t -> A) :
  preserved (stays_recorded n) (RowGroupSerializer.this (St:=St) f).
Proof. apply preserved_gets, _. Qed.

Lemma stays_recorded_assign n (f : RowGroupSerializer.t -> RowGroupSerializer.t) :
  (forall rg, RowGroupSerializer.num_rows_ (f rg) = RowGroupSerializer.num_rows_ rg) ->
  (forall rg, RowGroupSerializer.metadata_ (f rg) = RowGroupSerializer.metadata_ rg) ->
  preserved (stays_recorded n) (RowGroupSerializer.assign (St:=St) f).
Proof.
  intros Hn Hm. apply preserved_modify. intros [h rg] [Hr Hb].
  split; simpl in *; [by rewrite Hn | by rewrite Hm].
Qed.

Lemma stays_recorded_on_metadata n {A} (m : M RowGroupMetaDataBuilder.t A) :
  (forall b, RowGroupMetaDataBuilder.num_rows_ (m b).2 = RowGroupMetaDataBuilder.num_rows_ b) ->
  preserved (stays_recorded n) (RowGroupSerializer.on_metadata (St:=St) m).
Proof.
  intros Hm [h rg] r [h' rg']. unfold RowGroupSerializer.on_metadata.
  destruct (row_group_builders h !! RowGroupSerializer.metadata_ rg) as [b|] eqn:Eb;
    [| intros [= _ <- <-]; reflexivity].
  specialize (Hm b). destruct (m b) as [r1 b1]. intros [= _ <- <-].
  intros [Hr (b0 & Hb0 & Hn)]. simpl in *. split; [done |].
  exists b1. split.
  - apply list_lookup_insert_eq. by eapply lookup_lt_Some.
  - congruence.
Qed.

Lemma stays_recorded_on_current_column_writer n {A} (m : M (St * ColumnWriter.t) A) :
  preserved (stays_recorded n) (RowGroupSerializer.on_current_column_writer m).
Proof.
  intros [h rg] r [h' rg']. unfold RowGroupSerializer.on_current_column_writer.
  destruct (RowGroupSerializer.current_column_writer_ rg) as [w|];
    [| intros [= _ <- <-]; reflexivity].
  destruct (m (sink h, w)) as [r1 [s1 w1]]. intros [= _ <- <-].
  unfold stays_recorded, recorded. by destruct rg.
Qed.

Lemma NextColumnChunk_num_rows_ meta b :
  RowGroupMetaDataBuilder.num_rows_ (RowGroupMetaDataBuilder.NextColumnChunk meta b).2
  = RowGroupMetaDataBuilder.num_rows_ b.
Proof. unfold RowGroupMetaDataBuilder.NextColumnChunk. by case_match. Qed.

Lemma Finish_num_rows_ total b :
  RowGroupMetaDataBuilder.num_rows_ (RowGroupMetaDataBuilder.Finish total b).2
  = RowGroupMetaDataBuilder.num_rows_ b.
Proof. unfold RowGroupMetaDataBuilder.Finish. by case_match. Qed.

Lemma stays_recorded_NextColumnChunk n meta :
  preserved (stays_recorded n)
    (RowGroupSerializer.on_metadata (St:=St) (RowGroupMetaDataBuilder.NextColumnChunk meta)).
Proof. apply stays_recorded_on_metadata, NextColumnChunk_num_rows_. Qed.

Lemma stays_recorded_Finish n total :
  preserved (stays_recorded n)
    (RowGroupSerializer.on_metadata (St:=St) (RowGroupMetaDataBuilder.Finish total)).
Proof. apply stays_recorded_on_metadata, Finish_num_rows_. Qed.

Lemma stays_recorded_set_total_bytes_written_ n v :
  preserved (stays_recorded n)
    (RowGroupSerializer.assign (St:=St) (RowGroupSerializer.set_total_bytes_written_ v)).
Proof. by apply stays_recorded_assign. Qed.

Lemma stays_recorded_set_current_column_index_ n v :
  preserved (stays_recorded n)
    (RowGroupSerializer.assign (St:=St) (RowGroupSerializer.set_current_column_index_ v)).
Proof. by apply stays_recorded_assign. Qed.

Lemma stays_recorded_set_current_column_writer_ n v :
  preserved (stays_recorded n)
    (RowGroupSerializer.assign (St:=St) (RowGroupSerializer.set_current_column_writer_ v)).
Proof. by apply stays_recorded_assign. Qed.

Hint Resolve stays_recorded_this stays_recorded_on_current_column_writer
  stays_recorded_NextColumnChunk stays_recorded_Finish
  stays_recorded_set_total_bytes_written_ stays_recorded_set_current_column_index_
  stays_recorded_set_current_column_writer_ : preserved.

Lemma stays_recorded_close_current_column n :
  preserved (stays_recorded n) RowGroupSerializer.close_current_column.
Proof. unfold RowGroupSerializer.close_current_column. preserved_steps. Qed.

Hint Resolve stays_recorded_close_current_column : preserved.

(** The check on the first column to close records its row count. *)
Lemma CheckRowsWritten_records (h : Heap St) (rg : RowGroupSerializer.t) w b :
  RowGroupSerializer.current_column_writer_ rg = Some w ->
  RowGroupSerializer.num_rows_ rg < 0 ->
  row_group_builders h !! RowGroupSerializer.metadata_ rg = Some b ->
  exists s1,
    RowGroupSerializer.CheckRowsWritten (h, rg) = (Ok tt, s1)
    /\ recorded (ColumnWriter.rows_written w) s1
    /\ s1.2 = RowGroupSerializer.set_num_rows_ (ColumnWriter.rows_written w) rg.
Proof.
  intros Hw Hneg Hb. eexists. split; [by eapply CheckRowsWritten_first |].
  split; [| done]. split; [done |]. simpl.
  destruct (record_num_rows_lookup (ColumnWriter.rows_written w) _ h b Hb) as [Hl _].
  destruct rg; simpl in *. eauto.
Qed.

(** ... and so do the two calls that close it, when they return. *)
Lemma first_column_to_close_records (h : Heap St) (rg : RowGroupSerializer.t) w b :
  RowGroupSerializer.current_column_writer_ rg = Some w ->
  RowGroupSerializer.num_rows_ rg < 0 ->
  row_group_builders h !! RowGroupSerializer.metadata_ rg = Some b ->
  (forall meta r s',
     RowGroupSerializer.NextColumn meta (h, rg) = (r, s') ->
     recorded (ColumnWriter.rows_written w) s')
  /\ (forall r s',
        RowGroupSerializer.closed_ rg = false ->
        RowGroupSerializer.Close (h, rg) = (r, s') ->
        recorded (ColumnWriter.rows_written w) s').
Proof.
  intros Hw Hneg Hb.
  assert (Hopen : RowGroupSerializer.has_column_writer rg = true).
  { unfold RowGroupSerializer.has_column_writer. by rewrite Hw. }
  split.
  - intros meta r s'.
    destruct (CheckRowsWritten_records h rg w b Hw Hneg Hb) as (s1 & Hc & Hrec & _).
    unfold RowGroupSerializer.NextColumn.
    unfold bind at 1. unfold RowGroupSerializer.this at 1. unfold gets.
    cbn [fst snd]. rewrite Hopen. cbn [when].
    rewrite (bind_Ok _ _ _ _ _ Hc).
    match goal with
    | |- ?m s1 = _ -> _ =>
        assert (Hk : preserved (stays_recorded (ColumnWriter.rows_written w)) m)
          by preserved_steps
    end.
    intros E. apply Hk in E. by apply E.
  - intros r s' Hcl.
    unfold RowGroupSerializer.Close.
    unfold bind at 1. unfold RowGroupSerializer.this at 1. unfold gets.
    cbn [fst snd]. rewrite Hcl. cbn [negb when].
    unfold bind at 1. unfold RowGroupSerializer.assign at 1. unfold modify.
    cbn [fst snd].
    unfold bind at 1. unfold RowGroupSerializer.this at 1. unfold gets.
    cbn [fst snd].
    assert (Hopen' : RowGroupSerializer.has_column_writer
                       (RowGroupSerializer.set_closed_ true rg) = true) by done.
    rewrite Hopen'. cbn [when].
    destruct (CheckRowsWritten_records h (RowGroupSerializer.set_closed_ true rg) w b)
      as (s1 & Hc & Hrec & _); [done.. |].
    rewrite bind_assoc, (bind_Ok _ _ _ _ _ Hc).
    match goal with
    | |- ?m s1 = _ -> _ =>
        assert (Hk : preserved (stays_recorded (ColumnWriter.rows_written w)) m)
          by preserved_steps
    end.
    intros E. apply Hk in E. by apply E.
Qed.

End Recorded.

(** ** Before the first column closes *)

Section FirstColumn.
Context {St : Type} `{OutputStream St}.

Lemma keeps_num_rows_on_current_column_writer {A} (m : M (St * ColumnWriter.t) A) :
  preserved (rg_keeps RowGroupSerializer.num_rows_)
    (RowGroupSerializer.on_current_column_writer m).
Proof.
  intros [h rg] r [h' rg']. unfold RowGroupSerializer.on_current_column_writer, rg_keeps.
  destruct (RowGroupSerializer.current_column_writer_ rg) as [w|];
    [| by intros [= _ _ <-]].
  destruct (m (sink h, w)) as [r1 [s1 w1]]. by intros [= _ _ <-].
Qed.

Lemma keeps_num_rows_assign (f : RowGroupSerializer.t -> RowGroupSerializer.t) :
  (forall rg, RowGroupSerializer.num_rows_ (f rg) = RowGroupSerializer.num_rows_ rg) ->
  preserved (rg_keeps RowGroupSerializer.num_rows_) (RowGroupSerializer.assign (St:=St) f).
Proof. intros Hf. apply preserved_modify. intros s. apply Hf. Qed.

(** Opening the first column checks nothing: no row count is recorded. *)
Lemma NextColumn_first (meta : list (string * string))
    (s s' : Heap St * RowGroupSerializer.t) r :
  RowGroupSerializer.current_column_writer_ s.2 = None ->
  RowGroupSerializer.NextColumn meta s = (r, s') ->
  RowGroupSerializer.num_rows_ s'.2 = RowGroupSerializer.num_rows_ s.2.
Proof.
  intros Hw. unfold RowGroupSerializer.NextColumn.
  unfold bind at 1. unfold RowGroupSerializer.this at 1. unfold gets.
  unfold RowGroupSerializer.has_column_writer at 1. rewrite Hw. cbn [when].
  unfold bind at 1. unfold ret at 1.
  match goal with
  | |- ?m s = _ -> _ =>
      assert (Hk : preserved (rg_keeps RowGroupSerializer.num_rows_) m)
  end.
  { unfold RowGroupSerializer.close_current_column.
    preserved_steps;
      first [apply keeps_num_rows_on_current_column_writer
            | apply keeps_num_rows_assign; done]. }
  intros E. by apply Hk in E.
Qed.

Lemma opened_nonneg (cs : list ColumnCall) : 0 <= opened cs.
Proof. induction cs as [|[] cs IH]; simpl; lia. Qed.

(** As long as one column at most was opened and [num_rows()] was not
    called, [num_rows_] is what it was. *)
Lemma first_column_not_recorded (cs : list ColumnCall)
    (s s' : Heap St * RowGroupSerializer.t) :
  Forall (fun c => c <> ColNumRows) cs ->
  opened cs <= 1 ->
  RowGroupSerializer.current_column_writer_ s.2 = None \/ opened cs = 0 ->
  column_calls cs s = (Ok tt, s') ->
  RowGroupSerializer.num_rows_ s'.2 = RowGroupSerializer.num_rows_ s.2.
Proof.
  revert s. induction cs as [|c cs IH]; intros s Hno Hle Hor; simpl.
  - by intros [= <-].
  - intros E. bind_inv E. destruct a.
    apply Forall_cons in Hno as [Hc Hno].
    pose proof (opened_nonneg cs) as Hnn.
    destruct c as [meta|n encoded|]; simpl in *; [| | done].
    + destruct Hor as [Hw | ?]; [| lia].
      apply (NextColumn_first _ _ _ _ Hw) in E0. rewrite <- E0.
      apply IH; [done | lia | right; lia | done].
    + destruct Hor as [Hw | H0].
      * unfold RowGroupSerializer.column_WriteBatch,
          RowGroupSerializer.on_current_column_writer in E0.
        destruct s as [h rg]. simpl in Hw. rewrite Hw in E0. discriminate.
      * apply keeps_num_rows_on_current_column_writer in E0 as K.
        unfold rg_keeps in K. rewrite <- K.
        apply IH; [done | lia | by right | done].
Qed.

End FirstColumn.

(** ** The row count that [num_rows()] fixes *)

Section RowCountTheorems.
Context {St : Type} `{OutputStream St}.


End RowCountTheorems.

(** C3, as the specification states it, fails on its own example: closing
    column 1 with 99 rows after column 0 with 100 throws, and the text names
    column 2, not column index 1. *)
Lemma mismatch_names_column_2 :
  let s := (column_calls columns_100_then_99 fresh_row_group_of_two_columns).2 in
  (RowGroupSerializer.Close s).1
  = Throw (ParquetException "Column 2 had 99 while previous column had 100")
  /\ (RowGroupSerializer.Close s).1
     <> Throw (ParquetException (RowGroupSerializer.mismatch_message 1 99 100))
  /\ RowGroupSerializer.mismatch_message 1 99 100
     = "Column 1 had 99 while previous column had 100"%string.
Proof. vm_compute. done. Qed.


(** * Further properties of the writer *)

(** ** The counters of the file *)

Section Inherited.
Context {St : Type} `{OutputStream St} `{ThriftSerializer}.

(** A method that [ZdbFileSerializer] inherits, called through [contents_]:
    it runs on the [FileSerializer] part, or [contents_] is null. *)
Lemma inherited_call {A} (m : M (Heap St * FileSerializer.t) A)
    (s s' : Heap St * ParquetFileWriter.t) r :
  ParquetFileWriter.on_contents
    (ParquetFileWriter.dispatch m (ZdbFileSerializer.on_base m)) s = (r, s') ->
  match file_of s.2 with
  | Some f => exists f', file_of s'.2 = Some f' /\ m (s.1, f) = (r, (s'.1, f'))
  | None => r = Undefined /\ s' = s
  end.
Proof.
  destruct s as [h [[[f|z]|]]], s' as [h' w'];
    unfold ParquetFileWriter.on_contents, ParquetFileWriter.dispatch,
      ZdbFileSerializer.on_base, file_of; cbn [ParquetFileWriter.contents_ fst snd].
  - destruct (m (h, f)) as [r1 [h1 f1]]. intros [= <- <- <-]. by exists f1.
  - destruct (m (h, ZdbFileSerializer.base z)) as [r1 [h1 f1]].
    intros [= <- <- <-]. by exists f1.
  - by intros [= <- <- <-].
Qed.

Lemma on_row_group_writer_Ok {A} (m : M (Heap St * RowGroupWriter.t) A)
    (h h' : Heap St) (f f' : FileSerializer.t) a :
  FileSerializer.on_row_group_writer m (h, f) = (Ok a, (h', f')) ->
  exists w w',
    FileSerializer.row_group_writer_ f = Some w
    /\ m (h, w) = (Ok a, (h', w'))
    /\ f' = FileSerializer.set_row_group_writer_ (Some w') f.
Proof.
  unfold FileSerializer.on_row_group_writer.
  destruct (FileSerializer.row_group_writer_ f) as [w|]; [| done].
  destruct (m (h, w)) as [r1 [h1 w1]] eqn:E. intros [= -> <- <-]. by exists w, w1.
Qed.

(** What a successful [AppendRowGroup] did: the open row group is closed,
    the counter is one more, and the new writer is on a fresh slot of the
    footer, which comes last. *)
Lemma AppendRowGroup_Ok (h h' : Heap St) (f f' : FileSerializer.t) :
  FileSerializer.AppendRowGroup (h, f) = (Ok tt, (h', f')) ->
  exists h1 : Heap St,
    match FileSerializer.row_group_writer_ f with
    | Some w => exists w', RowGroupWriter.Close (h, w) = (Ok tt, (h1, w'))
    | None => h1 = h
    end
    /\ sink h' = sink h1
    /\ row_group_builders h'
       = row_group_builders h1
         ++ [RowGroupMetaDataBuilder.Make
               (FileMetaDataBuilder.schema_ (FileSerializer.metadata_ f))]
    /\ FileSerializer.row_group_writer_ f'
       = Some (RowGroupWriter.mk
                 (Some (RowGroupSerializer.new (length (row_group_builders h1)))))
    /\ FileSerializer.num_row_groups_ f' = FileSerializer.num_row_groups_ f + 1
    /\ FileSerializer.num_rows_ f' = FileSerializer.num_rows_ f
    /\ FileSerializer.is_open_ f' = FileSerializer.is_open_ f
    /\ FileMetaDataBuilder.row_groups_ (FileSerializer.metadata_ f')
       = FileMetaDataBuilder.row_groups_ (FileSerializer.metadata_ f)
         ++ [length (row_group_builders h1)].
Proof.
  unfold FileSerializer.AppendRowGroup. intros E.
  bind_inv E. unfold FileSerializer.this, gets in E0. injection E0 as <- <-.
  bind_inv E. destruct a, s as [h1 f1]. exists h1.
  assert (K : match FileSerializer.row_group_writer_ f with
              | Some w => exists w', RowGroupWriter.Close (h, w) = (Ok tt, (h1, w'))
                                     /\ f1 = FileSerializer.set_row_group_writer_ (Some w') f
              | None => h1 = h /\ f1 = f
              end).
  { unfold FileSerializer.has_row_group_writer in E0. cbn [snd] in E0.
    destruct (FileSerializer.row_group_writer_ f) as [w|] eqn:Ew; cbn [when] in E0.
    - apply on_row_group_writer_Ok in E0 as (w0 & w' & Ew0 & Ec & ->).
      rewrite Ew in Ew0. injection Ew0 as <-. by exists w'.
    - by injection E0 as <- <-. }
  bind_inv E. unfold FileSerializer.this, gets in E1. injection E1 as <- <-.
  bind_inv E. unfold int_add in E1.
  destruct (in_int _) in E1; [| discriminate]. injection E1 as <- <-.
  bind_inv E. unfold FileSerializer.assign, modify in E1. simplify_eq.
  bind_inv E. unfold FileSerializer.on_metadata, FileMetaDataBuilder.AppendRowGroup in E1.
  cbn [fst snd] in E1. simplify_eq.
  unfold FileSerializer.assign, modify in E. simplify_eq.
  cbn [fst snd].
  split.
  { destruct (FileSerializer.row_group_writer_ f); [| tauto].
    destruct K as (w' & ? & _). by exists w'. }
  assert (Hf1 : FileSerializer.num_row_groups_ f1 = FileSerializer.num_row_groups_ f
                /\ FileSerializer.num_rows_ f1 = FileSerializer.num_rows_ f
                /\ FileSerializer.is_open_ f1 = FileSerializer.is_open_ f
                /\ FileSerializer.metadata_ f1 = FileSerializer.metadata_ f).
  { destruct (FileSerializer.row_group_writer_ f).
    - destruct K as (w' & _ & ->). done.
    - destruct K as [_ ->]. done. }
  destruct Hf1 as (Hg & Hr & Ho & Hm). simpl. by rewrite Hg, Hr, Ho, Hm.
Qed.


Lemma Open_file_of (sink0 : St) schema kv old (s0 : Heap St * ParquetFileWriter.t) :
  ParquetFileWriter.Open sink0 schema kv = (Ok tt, s0)
  \/ ParquetFileWriter.OpenAppend sink0 schema old kv = (Ok tt, s0) ->
  file_of s0.2
  = Some (FileSerializer.mk schema kv true 0 0 (FileMetaDataBuilder.Make schema kv) None).
Proof.
  unfold ParquetFileWriter.Open, ParquetFileWriter.OpenAppend, FileSerializer.Open,
    ZdbFileSerializer.Open, file_of.
  intros [E0 | E0].
  - destruct (FileSerializer.new sink0 schema kv) as [r [h f]] eqn:E.
    injection E0 as -> <-. by apply FileSerializer_new_Ok in E as (_ & _ & _ & ->).
  - destruct (ZdbFileSerializer.new sink0 schema kv old) as [r [h z]] eqn:E.
    injection E0 as -> <-. cbn [snd ParquetFileWriter.contents_].
    apply ZdbFileSerializer_new_Ok in E as (h1 & f1 & E1 & E2 & _).
    apply FileSerializer_new_Ok in E1 as (_ & _ & _ & ->).
    destruct old as [old|].
    + destruct E2 as [_ ->]. done.
    + by apply StartFile_Ok in E2 as (_ & _ & _ & ->).
Qed.

(** With [contents_] null, a call leaves everything as it is. *)
Lemma call_null (c : Call) (s s' : Heap St * ParquetFileWriter.t) r :
  ParquetFileWriter.contents_ s.2 = None -> call c s = (r, s') -> s' = s.
Proof.
  destruct s as [h [c0]]. cbn [fst snd ParquetFileWriter.contents_]. intros ->.
  destruct c; simpl;
    unfold ParquetFileWriter.AppendRowGroup_int64, ParquetFileWriter.AppendRowGroup,
      ParquetFileWriter.on_row_group_writer, ParquetFileWriter.num_rows,
      ParquetFileWriter.Close, ParquetFileWriter.on_contents, bind;
    cbn [ParquetFileWriter.contents_]; by intros [= _ <-].
Qed.

Lemma calls_null (cs : list Call) (s s' : Heap St * ParquetFileWriter.t) r :
  ParquetFileWriter.contents_ s.2 = None -> calls cs s = (r, s') -> s' = s.
Proof.
  intros Hn. revert r s'. induction cs as [|c cs IH]; intros r s'; simpl.
  - by intros [= _ <-].
  - unfold bind. destruct (call c s) as [[[]|e|] s1] eqn:E;
      apply (call_null _ _ _ _ Hn) in E; subst s1; [apply IH | by intros [= _ <-]..].
Qed.

Lemma file_of_None (w : ParquetFileWriter.t) :
  file_of w = None <-> ParquetFileWriter.contents_ w = None.
Proof. unfold file_of. destruct w as [[[f|z]|]]; simpl; split; done. Qed.

(** A call that returns, seen on the serializer's two counters: [Close]
    leaves [contents_] null; any other call leaves [num_rows_] as it was and
    adds one to [num_row_groups_] if it is an [AppendRowGroup]. *)
Lemma call_Ok_counters (c : Call) (s s' : Heap St * ParquetFileWriter.t) f :
  file_of s.2 = Some f ->
  call c s = (Ok tt, s') ->
  match file_of s'.2 with
  | Some f' =>
      FileSerializer.num_row_groups_ f'
      = FileSerializer.num_row_groups_ f + appended [c]
      /\ FileSerializer.num_rows_ f' = FileSerializer.num_rows_ f
      /\ FileSerializer.is_open_ f' = FileSerializer.is_open_ f
  | None => c = CallClose
  end.
Proof.
  intros Hf.
  assert (Hrgw : forall A (m : M (Heap St * RowGroupWriter.t) A) a s1,
            ParquetFileWriter.on_row_group_writer m s = (Ok a, s1) ->
            exists f', file_of s1.2 = Some f'
              /\ FileSerializer.num_row_groups_ f' = FileSerializer.num_row_groups_ f
              /\ FileSerializer.num_rows_ f' = FileSerializer.num_rows_ f
              /\ FileSerializer.is_open_ f' = FileSerializer.is_open_ f).
  { intros A m a s1 E. apply inherited_call in E. rewrite Hf in E.
    destruct E as (f' & Hf' & E). exists f'. split; [done |].
    by apply on_row_group_writer_Ok in E as (w & w' & _ & _ & ->). }
  assert (Happ : ParquetFileWriter.AppendRowGroup s = (Ok tt, s') ->
            exists f', file_of s'.2 = Some f'
              /\ FileSerializer.num_row_groups_ f' = FileSerializer.num_row_groups_ f + 1
              /\ FileSerializer.num_rows_ f' = FileSerializer.num_rows_ f
              /\ FileSerializer.is_open_ f' = FileSerializer.is_open_ f).
  { intros E. apply (inherited_call FileSerializer.AppendRowGroup) in E.
    rewrite Hf in E. destruct E as (f' & Hf' & E). exists f'. split; [done |].
    by apply AppendRowGroup_Ok in E as (h1 & _ & _ & _ & _ & ? & ? & ? & _). }
  destruct c; simpl; intros E.
  - apply Happ in E as (f' & -> & ? & ? & ?). done.
  - apply Happ in E as (f' & -> & ? & ? & ?). done.
  - apply Hrgw in E as (f' & -> & ? & ? & ?). split; [lia | done].
  - apply Hrgw in E as (f' & -> & ? & ? & ?). split; [lia | done].
  - bind_inv E. apply Hrgw in E0 as (f' & Hf' & ? & ? & ?). injection E as <-.
    rewrite Hf'. split; [lia | done].
  - apply Hrgw in E as (f' & -> & ? & ? & ?). split; [lia | done].
  - bind_inv E. injection E as <-.
    apply (inherited_call FileSerializer.num_rows) in E0. rewrite Hf in E0.
    destruct E0 as (f' & -> & E0). unfold FileSerializer.num_rows, FileSerializer.this, gets in E0.
    injection E0 as _ _ <-. split; [lia | done].
  - destruct s as [h [[c|]]]; [| done].
    unfold ParquetFileWriter.Close in E. cbn [ParquetFileWriter.contents_] in E.
    bind_inv E. apply reset_contents_null in E.
    apply file_of_None in E. by rewrite E.
Qed.

Lemma calls_Ok_counters (cs : list Call) (s s' : Heap St * ParquetFileWriter.t) f :
  file_of s.2 = Some f ->
  calls cs s = (Ok tt, s') ->
  match file_of s'.2 with
  | Some f' =>
      FileSerializer.num_row_groups_ f'
      = FileSerializer.num_row_groups_ f + appended cs
      /\ FileSerializer.num_rows_ f' = FileSerializer.num_rows_ f
      /\ FileSerializer.is_open_ f' = FileSerializer.is_open_ f
  | None => In CallClose cs
  end.
Proof.
  revert s f. induction cs as [|c cs IH]; intros s f Hf; simpl.
  - intros [= <-]. rewrite Hf. split; [lia | done].
  - intros E. bind_inv E. destruct a.
    apply (call_Ok_counters _ _ _ _ Hf) in E0.
    destruct (file_of s0.2) as [f1|] eqn:Hf1.
    + destruct E0 as (G1 & R1 & O1). apply (IH _ _ Hf1) in E.
      destruct (file_of s'.2) as [f'|]; [| by right].
      destruct E as (G2 & R2 & O2). rewrite G2, G1, R2, R1, O2, O1. split; [| done].
      destruct c; simpl; lia.
    + apply file_of_None in Hf1 as Hn. apply (calls_null _ _ _ _ Hn) in E. subst s'.
      rewrite Hf1. by left.
Qed.

Lemma on_row_group_writer_Throw {A} (m : M (Heap St * RowGroupWriter.t) A)
    (h h' : Heap St) (f f' : FileSerializer.t) e :
  FileSerializer.on_row_group_writer m (h, f) = (Throw e, (h', f')) ->
  exists w w',
    FileSerializer.row_group_writer_ f = Some w
    /\ m (h, w) = (Throw e, (h', w'))
    /\ f' = FileSerializer.set_row_group_writer_ (Some w') f.
Proof.
  unfold FileSerializer.on_row_group_writer.
  destruct (FileSerializer.row_group_writer_ f) as [w|]; [| done].
  destruct (m (h, w)) as [r1 [h1 w1]] eqn:E. intros [= -> <- <-]. by exists w, w1.
Qed.

(** An [AppendRowGroup] that throws threw while it closed the open row
    group: the counter is as it was. *)
Lemma AppendRowGroup_Throw_num_row_groups_ (s s' : Heap St * FileSerializer.t) e :
  FileSerializer.AppendRowGroup s = (Throw e, s') ->
  FileSerializer.num_row_groups_ s'.2 = FileSerializer.num_row_groups_ s.2.
Proof.
  destruct s as [h f], s' as [h' f']. unfold FileSerializer.AppendRowGroup. intros E.
  apply bind_Throw_inv in E as [E | (a & s2 & E0 & E)]; [done |].
  unfold FileSerializer.this, gets in E0. injection E0 as <- <-.
  apply bind_Throw_inv in E as [E | (a & s2 & E0 & E)].
  - destruct (FileSerializer.has_row_group_writer _); cbn [when] in E; [| done].
    by apply on_row_group_writer_Throw in E as (w & w' & _ & _ & ->).
  - exfalso.
    apply bind_Throw_inv in E as [E | (a1 & s3 & E1 & E)]; [done |].
    unfold FileSerializer.this, gets in E1. injection E1 as <- <-.
    apply bind_Throw_inv in E as [E | (a1 & s3 & E1 & E)].
    { unfold int_add in E. by destruct (in_int _). }
    apply bind_Throw_inv in E as [E | (a4 & s4 & E4 & E)]; [done |].
    apply bind_Throw_inv in E as [E | (a5 & s5 & E5 & E)]; [| done].
    unfold FileSerializer.on_metadata, FileMetaDataBuilder.AppendRowGroup in E.
    destruct s4. done.
Qed.

(** A call that throws leaves the writer its serializer, with the row
    groups it counted. *)
Lemma call_Throw_counters (c : Call) (s s' : Heap St * ParquetFileWriter.t) f e :
  file_of s.2 = Some f ->
  call c s = (Throw e, s') ->
  exists f', file_of s'.2 = Some f'
             /\ FileSerializer.num_row_groups_ f' = FileSerializer.num_row_groups_ f.
Proof.
  intros Hf.
  assert (Hrgw : forall A (m : M (Heap St * RowGroupWriter.t) A) s1,
            ParquetFileWriter.on_row_group_writer m s = (Throw e, s1) ->
            exists f', file_of s1.2 = Some f'
              /\ FileSerializer.num_row_groups_ f' = FileSerializer.num_row_groups_ f).
  { intros A m s1 E. apply inherited_call in E. rewrite Hf in E.
    destruct E as (f' & Hf' & E). exists f'. split; [done |].
    by apply on_row_group_writer_Throw in E as (w & w' & _ & _ & ->). }
  assert (Happ : ParquetFileWriter.AppendRowGroup s = (Throw e, s') ->
            exists f', file_of s'.2 = Some f'
              /\ FileSerializer.num_row_groups_ f' = FileSerializer.num_row_groups_ f).
  { intros E. apply (inherited_call FileSerializer.AppendRowGroup) in E.
    rewrite Hf in E. destruct E as (f' & Hf' & E). exists f'. split; [done |].
    by apply AppendRowGroup_Throw_num_row_groups_ in E. }
  destruct c; simpl; intros E.
  - by apply Happ.
  - by apply Happ.
  - by apply Hrgw in E.
  - by apply Hrgw in E.
  - apply bind_Throw_inv in E as [E | (a & s1 & _ & E)]; [by apply Hrgw in E | done].
  - by apply Hrgw in E.
  - apply bind_Throw_inv in E as [E | (a & s1 & _ & E)]; [| done].
    apply (inherited_call FileSerializer.num_rows) in E. rewrite Hf in E.
    by destruct E as (f' & _ & E).
  - destruct s as [h [[c|]]]; [| done].
    unfold ParquetFileWriter.Close in E. cbn [ParquetFileWriter.contents_] in E.
    apply bind_Throw_inv in E as [E | (a & s1 & _ & E)];
      [| by pose proof (reset_contents_never_throws s1 e) as Hn; rewrite E in Hn].
    unfold ParquetFileWriter.on_contents, ParquetFileWriter.dispatch in E.
    cbn [ParquetFileWriter.contents_] in E. unfold file_of in *.
    cbn [snd ParquetFileWriter.contents_] in Hf. destruct c as [f0|z].
    + injection Hf as ->.
      destruct (FileSerializer.Close (h, f)) as [r [h1 f1]] eqn:Ec.
      injection E as -> <-. cbn [snd ParquetFileWriter.contents_].
      exists f1. split; [done |].
      by apply (Close__Throw_keeps _ _ _ _ keeps_open_and_count_WriteMetaData)
        in Ec as (_ & _ & ?).
    + injection Hf as <-.
      unfold ZdbFileSerializer.Close, ZdbFileSerializer.on_base in E.
      destruct (FileSerializer.Close_ _ _) as [r [h2 f2]] eqn:Ec.
      injection E as -> <-. cbn [snd ParquetFileWriter.contents_ ZdbFileSerializer.base].
      exists f2. split; [done |].
      by apply (Close__Throw_keeps _ _ _ _ (keeps_open_and_count_Zdb_WriteMetaData _))
        in Ec as (_ & _ & ?).
Qed.

Lemma calls_caught_null (cs : list Call) (s s' : Heap St * ParquetFileWriter.t) r :
  ParquetFileWriter.contents_ s.2 = None -> calls_caught cs s = (r, s') -> s' = s.
Proof.
  intros Hn. revert r s'. induction cs as [|c cs IH]; intros r s'; simpl.
  - by intros [= _ <-].
  - unfold bind, try_catch_all. destruct (call c s) as [[[]|e|] s1] eqn:E;
      apply (call_null _ _ _ _ Hn) in E; subst s1; [apply IH | apply IH | by intros [= _ <-]].
Qed.

(** The counter after a program that catches what is thrown. *)
Lemma calls_caught_counter (cs : list Call) (s s' : Heap St * ParquetFileWriter.t) f :
  file_of s.2 = Some f ->
  calls_caught cs s = (Ok tt, s') ->
  forall f', file_of s'.2 = Some f' ->
    FileSerializer.num_row_groups_ f'
    = FileSerializer.num_row_groups_ f + appended_and_returned cs s.
Proof.
  revert s f. induction cs as [|c cs IH]; intros s f Hf; simpl.
  - intros [= <-] f' Hf'. rewrite Hf in Hf'. injection Hf' as <-. lia.
  - intros E f' Hf'. bind_inv E. destruct a. unfold try_catch_all in E0.
    destruct (call c s) as [[[]|e|] s1] eqn:Ec; [| | done]; injection E0 as <-.
    + apply (call_Ok_counters _ _ _ _ Hf) in Ec.
      destruct (file_of s1.2) as [f1|] eqn:Hf1.
      * destruct Ec as (G1 & _). rewrite (IH _ _ Hf1 E _ Hf'), G1.
        destruct c; simpl; lia.
      * apply file_of_None in Hf1 as Hn. apply (calls_caught_null _ _ _ _ Hn) in E.
        subst s'. congruence.
    + apply (call_Throw_counters _ _ _ _ _ Hf) in Ec as (f1 & Hf1 & G1).
      rewrite (IH _ _ Hf1 E _ Hf'), G1. lia.
Qed.

(** X1: [num_row_groups()] is the number of [AppendRowGroup] calls, of
    either overload, that returned, whatever else was called in between.
    When it returns after the calls [cs] on a file just opened, by [Open] or
    by [OpenAppend], each of them returning, it returns the number of
    [AppendRowGroup] calls in [cs]; when the program catches what the calls
    throw and goes on, it returns the number of [AppendRowGroup] calls that
    returned: one that throws is not counted. *)
Theorem num_row_groups_counts_the_AppendRowGroup_calls
    (sink0 : St) schema kv old (s0 s' : Heap St * ParquetFileWriter.t)
    (cs : list Call) (n : Z) :
  ParquetFileWriter.Open sink0 schema kv = (Ok tt, s0)
  \/ ParquetFileWriter.OpenAppend sink0 schema old kv = (Ok tt, s0) ->
  ((calls cs ;; ParquetFileWriter.num_row_groups) s0 = (Ok n, s') ->
   n = appended cs)
  /\ ((calls_caught cs ;; ParquetFileWriter.num_row_groups) s0 = (Ok n, s') ->
      n = appended_and_returned cs s0).
Proof.
  intros Hopen. apply Open_file_of in Hopen. split; intros E.
  - bind_inv E.
    destruct a. apply (calls_Ok_counters _ _ _ _ Hopen) in E0.
    apply (inherited_call FileSerializer.num_row_groups) in E.
    destruct (file_of s.2) as [f1|]; [| by destruct E].
    destruct E as (f' & _ & E). destruct E0 as (G & _).
    unfold FileSerializer.num_row_groups, FileSerializer.this, gets in E.
    injection E as <- _ _. cbn [snd]. rewrite G. simpl. lia.
  - bind_inv E. destruct a.
    pose proof (calls_caught_counter _ _ _ _ Hopen E0) as G.
    apply (inherited_call FileSerializer.num_row_groups) in E.
    destruct (file_of s.2) as [f1|]; [| by destruct E].
    destruct E as (f' & _ & E). specialize (G _ eq_refl).
    unfold FileSerializer.num_row_groups, FileSerializer.this, gets in E.
    injection E as <- _ _. cbn [snd]. rewrite G. simpl. lia.
Qed.

(** X2: through the public interface, [num_rows()] of a file that is being
    written never returns anything but 0: [num_rows_] is assigned by [Close]
    only, and after a [Close] that returns [contents_] is null. *)
Theorem num_rows_is_0_while_the_file_is_written
    (sink0 : St) schema kv old (s0 s' : Heap St * ParquetFileWriter.t)
    (cs : list Call) (n : Z) :
  ParquetFileWriter.Open sink0 schema kv = (Ok tt, s0)
  \/ ParquetFileWriter.OpenAppend sink0 schema old kv = (Ok tt, s0) ->
  (calls cs ;; ParquetFileWriter.num_rows) s0 = (Ok n, s') ->
  n = 0.
Proof.
  intros Hopen E. apply Open_file_of in Hopen. bind_inv E.
  destruct a. apply (calls_Ok_counters _ _ _ _ Hopen) in E0.
  apply (inherited_call FileSerializer.num_rows) in E.
  destruct (file_of s.2) as [f1|]; [| by destruct E].
  destruct E as (f' & _ & E). destruct E0 as (_ & R & _).
  unfold FileSerializer.num_rows, FileSerializer.this, gets in E.
  injection E as <- _ _. cbn [snd]. by rewrite R.
Qed.

End Inherited.

(** ** What reaches the sink, and when it is closed *)

Section SinkOfARun.
Context {St : Type} `{OutputStream St} `{ThriftSerializer}.

(** Every call but [Close] keeps a relation on the sink that [Write] keeps. *)
Lemma preserved_call_but_Close (Rs : relation St) `{!WriteStable Rs} (c : Call) :
  c <> CallClose -> preserved (on_heap_sink Rs) (call c).
Proof.
  pose proof (preserved_rgw_Close Rs). pose proof (preserved_rgw_NextColumn Rs).
  pose proof (preserved_rgw_num_rows Rs).
  pose proof (preserved_rgw_column_WriteBatch Rs).
  pose proof (preserved_file_AppendRowGroup Rs).
  destruct c; simpl; [| | | | | | | done]; intros _;
    unfold ParquetFileWriter.AppendRowGroup_int64, ParquetFileWriter.AppendRowGroup,
      ParquetFileWriter.on_row_group_writer, ParquetFileWriter.num_rows,
      ZdbFileSerializer.AppendRowGroup, FileSerializer.num_rows;
    preserved_steps.
Qed.

Lemma preserved_calls_but_Close (Rs : relation St) `{!WriteStable Rs} (cs : list Call) :
  Forall (fun c => c <> CallClose) cs -> preserved (on_heap_sink Rs) (calls cs).
Proof.
  induction 1 as [|c cs Hc _ IH]; simpl; [apply preserved_ret, _ |].
  apply preserved_bind; [apply _ | by apply preserved_call_but_Close | done].
Qed.

Lemma still_open_file_of (w : ParquetFileWriter.t) :
  still_open w <-> exists f, file_of w = Some f /\ FileSerializer.is_open_ f = true.
Proof.
  unfold still_open, file_of. destruct w as [[[f|z]|]]; simpl.
  - split; [by exists f | by intros (? & [= <-] & ?)].
  - split; [by eexists | by intros (? & [= <-] & ?)].
  - split; [done | by intros (? & ? & _)].
Qed.

(** A run that returns closes the sink once if [Close] is among its calls,
    however many times. *)
Lemma calls_Ok_closes (cs : list Call) (s s' : Heap St * ParquetFileWriter.t) :
  still_open s.2 -> In CallClose cs -> calls cs s = (Ok tt, s') ->
  closes (sink s'.1) = S (closes (sink s.1)).
Proof.
  revert s. induction cs as [|c cs IH]; intros s Ho Hin; simpl; [done |].
  intros E. bind_inv E. destruct a.
  assert (c = CallClose \/ c <> CallClose) as [-> | Hc]
    by (destruct c; first [by left | by right]).
  - simpl in E0. destruct s as [h w].
    apply ParquetFileWriter_Close_Ok in E0 as (_ & C & Hn); [| done].
    assert (ParquetFileWriter.contents_ s0.2 = None) as Hnull by (by rewrite Hn).
    apply (calls_null _ _ _ _ Hnull) in E. by subst s'.
  - destruct Hin as [-> | Hin]; [done |].
    apply (preserved_call_but_Close grows_open _ Hc) in E0 as K. destruct K as [_ K].
    rewrite <- K. apply IH; [| done | done].
    apply still_open_file_of in Ho as (f & Hf & Hopen).
    apply (call_Ok_counters _ _ _ _ Hf) in E0.
    apply still_open_file_of. destruct (file_of s0.2) as [f1|]; [| done].
    exists f1. split; [done |]. destruct E0 as (_ & _ & ->). done.
Qed.

(** X3: the writer only appends to the sink.  Whatever calls are made on a
    file and whatever their outcome, an exception included, and when the
    writer is destroyed, what the sink held is still there, followed by what
    was written since. *)
Theorem the_sink_is_only_appended_to (s s' : Heap St * ParquetFileWriter.t) r :
  (exists cs, calls cs s = (r, s')) \/ ParquetFileWriter.destructor s = (r, s') ->
  exists bs, written (sink s'.1) = written (sink s.1) ++ bs.
Proof.
  intros [[cs E] | E].
  - by apply (preserved_calls grows) in E.
  - by apply (preserved_pfw_destructor grows) in E.
Qed.

(** X4: only [Close] closes the sink, and once.  A run without [Close]
    leaves the number of completed [Close] calls of the sink as it was,
    whatever its outcome; a run on an open file that returns and has [Close]
    among its calls, any number of times, closed the sink exactly once. *)
Theorem the_sink_is_closed_by_Close_only_and_once
    (cs : list Call) (s s' : Heap St * ParquetFileWriter.t) r :
  calls cs s = (r, s') ->
  (Forall (fun c => c <> CallClose) cs -> closes (sink s'.1) = closes (sink s.1))
  /\ (still_open s.2 -> In CallClose cs -> r = Ok tt ->
      closes (sink s'.1) = S (closes (sink s.1))).
Proof.
  intros E. split.
  - intros Hno. by apply (preserved_calls_but_Close grows_open _ Hno) in E as [_ ?].
  - intros Ho Hin ->. by apply calls_Ok_closes in E.
Qed.

End SinkOfARun.

(** ** Close of the file and the open row group *)

Section FileClose.
Context {St : Type} `{OutputStream St} `{ThriftSerializer}.

Lemma close_open_row_group_Ok (h h' : Heap St) (f f' : FileSerializer.t) :
  close_open_row_group (h, f) = (Ok tt, (h', f')) ->
  FileSerializer.row_group_writer_ f' = None /\ adds_the_open_rows h f f'.
Proof.
  unfold close_open_row_group, adds_the_open_rows. intros E.
  bind_inv E. unfold FileSerializer.this, gets in E0. simplify_eq.
  bind_inv E. unfold FileSerializer.assign, modify in E. simplify_eq.
  unfold FileSerializer.has_row_group_writer in E0. cbn [fst snd] in *.
  destruct (FileSerializer.row_group_writer_ f) as [w|] eqn:Ew; cbn [when] in E0.
  - destruct s as [h3 f3]. bind_inv E0. destruct s as [h1 f1].
    apply on_row_group_writer_Ok in E1 as (w0 & w' & Ew0 & En & ->).
    rewrite Ew in Ew0. injection Ew0 as <-.
    bind_inv E0. unfold FileSerializer.this, gets in E1. simplify_eq.
    bind_inv E0. unfold int64_add in E1.
    destruct (in_int64 _) in E1; [| discriminate]. unfold ret in E1. simplify_eq.
    bind_inv E0. unfold FileSerializer.assign, modify in E1. simplify_eq.
    apply on_row_group_writer_Ok in E0 as (w1 & w2 & _ & _ & ->).
    split; [done |]. exists a0, (h1, w'). done.
  - unfold ret in E0. simplify_eq. done.
Qed.

Lemma Close__adds_the_open_rows wmd (h h' : Heap St) (f f' : FileSerializer.t) :
  (forall s s1, wmd s = (Ok tt, s1) -> s1.2 = s.2) ->
  FileSerializer.is_open_ f = true ->
  FileSerializer.Close_ wmd (h, f) = (Ok tt, (h', f')) ->
  adds_the_open_rows h f f'.
Proof.
  intros Hwmd Ho E.
  apply Close__Ok_inv in E as ([h1 f1] & [h2 f2] & [h3 f3] & E1 & E2 & E3 & E4);
    [| done].
  apply close_open_row_group_Ok in E1 as [_ K].
  apply Hwmd in E2. apply on_sink_Close_Ok in E3 as (_ & _ & _ & ->).
  cbn [fst snd] in *. subst f2. injection E4 as -> ->.
  unfold adds_the_open_rows in *. by destruct (FileSerializer.row_group_writer_ f).
Qed.

(** X5: a [Close] of an open file that returns has added to [num_rows_]
    what [num_rows()] of the row group open at that point returned, and
    nothing if no row group was open; so for the plain footer and for the
    append variant. *)
Theorem Close_adds_the_rows_of_the_open_row_group :
  (forall (h h' : Heap St) f f',
     FileSerializer.is_open_ f = true ->
     FileSerializer.Close (h, f) = (Ok tt, (h', f')) ->
     adds_the_open_rows h f f')
  /\ (forall (h h' : Heap St) z z',
        FileSerializer.is_open_ (ZdbFileSerializer.base z) = true ->
        ZdbFileSerializer.Close (h, z) = (Ok tt, (h', z')) ->
        adds_the_open_rows h (ZdbFileSerializer.base z) (ZdbFileSerializer.base z')).
Proof.
  split.
  - intros h h' f f'. apply Close__adds_the_open_rows.
    intros [h1 f1] [h2 f2] E. by apply WriteMetaData_Ok in E as (? & _ & _ & _ & _ & ->).
  - intros h h' z z' Ho. unfold ZdbFileSerializer.Close, ZdbFileSerializer.on_base.
    destruct (FileSerializer.Close_ _ _) as [r [h1 f1]] eqn:E. intros [= -> <- <-].
    revert E. cbn [ZdbFileSerializer.base]. apply Close__adds_the_open_rows; [| done].
    intros [h2 f2] [h3 f3] E. destruct (ZdbFileSerializer.old_file_meta_ z) as [old|].
    + by apply Zdb_WriteMetaData_Ok in E as (? & ? & _ & _ & _ & _ & _ & ->).
    + unfold ZdbFileSerializer.WriteMetaData in E. bind_inv E. bind_inv E. discriminate.
Qed.

(** [Close] on a file whose open column disagrees with the recorded row
    count: the check throws before anything is assigned or written. *)
Lemma Close__mismatch wmd (h : Heap St) (f : FileSerializer.t) rg w :
  FileSerializer.is_open_ f = true ->
  FileSerializer.row_group_writer_ f = Some (RowGroupWriter.mk (Some rg)) ->
  RowGroupSerializer.current_column_writer_ rg = Some w ->
  0 <= RowGroupSerializer.num_rows_ rg ->
  RowGroupSerializer.num_rows_ rg <> ColumnWriter.rows_written w ->
  FileSerializer.Close_ wmd (h, f)
  = (Throw (ParquetException
              (RowGroupSerializer.mismatch_message
                 (RowGroupSerializer.current_column_index_ rg)
                 (ColumnWriter.rows_written w) (RowGroupSerializer.num_rows_ rg))),
     (h, f)).
Proof.
  intros Ho Hg Hw Hpos Hne.
  destruct (closing_calls_mismatch h rg w Hw Hpos Hne) as (_ & _ & Hn).
  unfold FileSerializer.Close_.
  unfold bind at 1. unfold FileSerializer.this at 1. unfold gets.
  cbn [fst snd]. rewrite Ho. cbn [when].
  unfold bind at 1. unfold FileSerializer.this at 1. unfold gets.
  unfold FileSerializer.has_row_group_writer. cbn [fst snd]. rewrite Hg. cbn [when].
  apply bind_Throw, bind_Throw.
  unfold FileSerializer.on_row_group_writer, RowGroupWriter.num_rows,
    RowGroupWriter.on_contents.
  rewrite Hg. cbn [RowGroupWriter.contents_]. rewrite Hn.
  destruct f. simpl in *. by rewrite Hg.
Qed.

(** X6: a file whose open column has written another number of rows than
    the row count recorded for its row group cannot be ended.  [Close]
    throws the mismatch before anything is assigned or written, so every
    later [Close] throws it again; the destructors catch it, and the writer
    goes without a footer written and without the sink closed. *)
Theorem a_row_count_mismatch_leaves_the_file_without_footer
    (h : Heap St) (f : FileSerializer.t) rg w :
  FileSerializer.is_open_ f = true ->
  FileSerializer.row_group_writer_ f = Some (RowGroupWriter.mk (Some rg)) ->
  RowGroupSerializer.current_column_writer_ rg = Some w ->
  0 <= RowGroupSerializer.num_rows_ rg ->
  RowGroupSerializer.num_rows_ rg <> ColumnWriter.rows_written w ->
  let e := ParquetException
             (RowGroupSerializer.mismatch_message
                (RowGroupSerializer.current_column_index_ rg)
                (ColumnWriter.rows_written w) (RowGroupSerializer.num_rows_ rg)) in
  let plain := ParquetFileWriter.mk (Some (ParquetFileWriter.FileSerializer_ f)) in
  let append old :=
    ParquetFileWriter.mk
      (Some (ParquetFileWriter.ZdbFileSerializer_ (ZdbFileSerializer.mk f old))) in
  ParquetFileWriter.Close (h, plain) = (Throw e, (h, plain))
  /\ (forall old, ParquetFileWriter.Close (h, append old) = (Throw e, (h, append old)))
  /\ ParquetFileWriter.destructor (h, plain) = (Ok tt, (h, ParquetFileWriter.mk None))
  /\ (forall old,
        ParquetFileWriter.destructor (h, append old)
        = (Ok tt, (h, ParquetFileWriter.mk None))).
Proof.
  intros Ho Hg Hw Hpos Hne e plain append.
  pose proof (fun wmd => Close__mismatch wmd h f rg w Ho Hg Hw Hpos Hne) as Hc.
  fold e in Hc.
  assert (Hp : ParquetFileWriter.Close (h, plain) = (Throw e, (h, plain))).
  { unfold ParquetFileWriter.Close, plain. cbn [ParquetFileWriter.contents_].
    apply bind_Throw.
    unfold ParquetFileWriter.on_contents, ParquetFileWriter.dispatch,
      FileSerializer.Close. cbn [ParquetFileWriter.contents_]. by rewrite Hc. }
  assert (Ha : forall old,
            ParquetFileWriter.Close (h, append old) = (Throw e, (h, append old))).
  { intros old. unfold ParquetFileWriter.Close, append.
    cbn [ParquetFileWriter.contents_]. apply bind_Throw.
    unfold ParquetFileWriter.on_contents, ParquetFileWriter.dispatch,
      ZdbFileSerializer.Close, ZdbFileSerializer.on_base.
    cbn [ParquetFileWriter.contents_ ZdbFileSerializer.base
         ZdbFileSerializer.old_file_meta_].
    by rewrite Hc. }
  split; [done |]. split; [done |]. split.
  - unfold ParquetFileWriter.destructor.
    rewrite (bind_Ok _ _ _ tt (h, plain)) by (by apply try_catch_all_Throw with (e := e)).
    unfold ParquetFileWriter.reset_contents, ParquetFileWriter.dispatch,
      FileSerializer.destructor, try_catch_all, plain.
    cbn [ParquetFileWriter.contents_]. by rewrite Hc.
  - intros old. unfold ParquetFileWriter.destructor.
    rewrite (bind_Ok _ _ _ tt (h, append old))
      by (by apply try_catch_all_Throw with (e := e)).
    unfold ParquetFileWriter.reset_contents, ParquetFileWriter.dispatch,
      ZdbFileSerializer.destructor, ZdbFileSerializer.on_base,
      FileSerializer.destructor, try_catch_all, append.
    cbn [ParquetFileWriter.contents_ ZdbFileSerializer.base]. by rewrite Hc.
Qed.

End FileClose.

(** ** A file opened for append without an old footer *)

Section NullOldFooter.
Context {St : Type} `{OutputStream St} `{ThriftSerializer}.

Lemma inherited_call_old_file_meta {A} (m : M (Heap St * FileSerializer.t) A)
    (s s' : Heap St * ParquetFileWriter.t) r :
  ParquetFileWriter.on_contents
    (ParquetFileWriter.dispatch m (ZdbFileSerializer.on_base m)) s = (r, s') ->
  old_file_meta_of s'.2 = old_file_meta_of s.2.
Proof.
  destruct s as [h [[[f|z]|]]], s' as [h' w'];
    unfold ParquetFileWriter.on_contents, ParquetFileWriter.dispatch,
      ZdbFileSerializer.on_base, old_file_meta_of;
    cbn [ParquetFileWriter.contents_ fst snd].
  - destruct (m (h, f)) as [r1 [h1 f1]]. by intros [= _ _ <-].
  - destruct (m (h, ZdbFileSerializer.base z)) as [r1 [h1 f1]]. by intros [= _ _ <-].
  - by intros [= _ _ <-].
Qed.

Lemma call_old_file_meta (c : Call) (s s' : Heap St * ParquetFileWriter.t) r :
  c <> CallClose -> call c s = (r, s') ->
  old_file_meta_of s'.2 = old_file_meta_of s.2.
Proof.
  assert (Hthen : forall A (m : M (Heap St * FileSerializer.t) A),
            (ParquetFileWriter.on_contents
               (ParquetFileWriter.dispatch m (ZdbFileSerializer.on_base m)) ;; ret tt) s
            = (r, s') ->
            old_file_meta_of s'.2 = old_file_meta_of s.2).
  { intros A m. unfold bind.
    destruct (ParquetFileWriter.on_contents _ s) as [[a|e|] s1] eqn:E;
      apply inherited_call_old_file_meta in E; by intros [= _ <-]. }
  destruct c; simpl; [| | | | | | | done]; intros _.
  - apply (inherited_call_old_file_meta FileSerializer.AppendRowGroup).
  - apply (inherited_call_old_file_meta FileSerializer.AppendRowGroup).
  - apply inherited_call_old_file_meta.
  - apply inherited_call_old_file_meta.
  - apply Hthen.
  - apply inherited_call_old_file_meta.
  - apply Hthen.
Qed.

(** With a null [old_file_meta_], [WriteMetaData] dereferences it once
    [metadata_->Finish()] has returned: the append variant's [Close] of an
    open file does not return. *)
Lemma ZdbFileSerializer_Close_null_old_file_meta (h : Heap St) z :
  ZdbFileSerializer.old_file_meta_ z = None ->
  FileSerializer.is_open_ (ZdbFileSerializer.base z) = true ->
  (ZdbFileSerializer.Close (h, z)).1 <> Ok tt.
Proof.
  intros Hold Ho. unfold ZdbFileSerializer.Close, ZdbFileSerializer.on_base.
  destruct (FileSerializer.Close_ _ _) as [r [h1 f1]] eqn:E. cbn [fst].
  intros ->. rewrite Hold in E.
  apply Close__Ok_inv in E as (s1 & s2 & s3 & _ & E2 & _); [| done].
  unfold ZdbFileSerializer.WriteMetaData in E2. bind_inv E2. bind_inv E2. discriminate.
Qed.

Lemma calls_null_old_file_meta (cs : list Call) (s : Heap St * ParquetFileWriter.t) :
  still_open s.2 -> old_file_meta_of s.2 = Some None ->
  In CallClose cs -> (calls cs s).1 <> Ok tt.
Proof.
  revert s. induction cs as [|c cs IH]; intros s Ho Hold Hin; simpl; [done |].
  unfold bind. destruct (call c s) as [[[]|e|] s1] eqn:E; [| done..].
  assert (c = CallClose \/ c <> CallClose) as [-> | Hc]
    by (destruct c; first [by left | by right]).
  - exfalso. simpl in E. destruct s as [h [[[f|z]|]]]; try done.
    unfold old_file_meta_of in Hold. unfold still_open in Ho. simpl in Hold, Ho.
    injection Hold as Hold.
    unfold ParquetFileWriter.Close in E. cbn [ParquetFileWriter.contents_] in E.
    bind_inv E. unfold ParquetFileWriter.on_contents, ParquetFileWriter.dispatch in E0.
    cbn [ParquetFileWriter.contents_] in E0.
    pose proof (ZdbFileSerializer_Close_null_old_file_meta h z Hold Ho) as Hn.
    destruct (ZdbFileSerializer.Close (h, z)) as [r [h1 z1]].
    injection E0 as -> _. by destruct a.
  - destruct Hin as [-> | Hin]; [done |]. apply IH; [| | done].
    + apply still_open_file_of in Ho as (f & Hf & Hopen).
      apply (call_Ok_counters _ _ _ _ Hf) in E. apply still_open_file_of.
      destruct (file_of s1.2) as [f1|]; [| done].
      exists f1. split; [done |]. destruct E as (_ & _ & ->). done.
    + apply call_old_file_meta in E; [| done]. by rewrite E.
Qed.

(** X7: a file opened by [OpenAppend] with a null [old_file_meta] cannot be
    ended.  [WriteMetaData] of the append variant dereferences the null
    pointer, which the constructor accepted: no run on such a file that
    calls [Close] returns; it ends in an exception or has no defined
    behaviour. *)
Theorem OpenAppend_with_a_null_old_footer_cannot_be_closed
    (sink0 : St) schema kv (s0 : Heap St * ParquetFileWriter.t) (cs : list Call) :
  ParquetFileWriter.OpenAppend sink0 schema None kv = (Ok tt, s0) ->
  In CallClose cs ->
  (calls cs s0).1 = Undefined \/ exists e, (calls cs s0).1 = Throw e.
Proof.
  intros Hopen Hin.
  assert (Hno : (calls cs s0).1 <> Ok tt).
  { apply calls_null_old_file_meta; [| | done].
    - apply still_open_file_of. eexists. split.
      + apply (Open_file_of sink0 schema kv None). by right.
      + done.
    - unfold ParquetFileWriter.OpenAppend in Hopen.
      destruct (ZdbFileSerializer.Open _ _ _ _) as [r [h z]] eqn:E.
      injection Hopen as -> <-. unfold old_file_meta_of. simpl.
      unfold ZdbFileSerializer.Open in E.
      apply ZdbFileSerializer_new_Ok in E as (_ & _ & _ & _ & ->). done. }
  destruct (calls cs s0).1 as [[]|e|]; [done | right; by exists e | by left].
Qed.

End NullOldFooter.

(** ** The writer after Close, and its destructor *)

Section AfterClose.
Context {St : Type} `{OutputStream St} `{ThriftSerializer}.

Lemma ParquetFileWriter_Close_Ok_null (s s' : Heap St * ParquetFileWriter.t) :
  ParquetFileWriter.Close s = (Ok tt, s') ->
  ParquetFileWriter.contents_ s'.2 = None.
Proof.
  destruct s as [h [[c|]]]; unfold ParquetFileWriter.Close;
    cbn [ParquetFileWriter.contents_]; [| by intros [= <-]].
  intros E. bind_inv E. by apply reset_contents_null in E.
Qed.

(** X8: after a [Close] that returned, the writer has no serializer any
    more ([contents_] is null).  Every other member function dereferences
    it: [AppendRowGroup], the three counters and any call on the row group
    writer have no defined behaviour, none of them throws; the destructor
    does nothing. *)
Theorem after_Close_every_call_dereferences_null
    (s s' : Heap St * ParquetFileWriter.t) :
  ParquetFileWriter.Close s = (Ok tt, s') ->
  ParquetFileWriter.AppendRowGroup s' = (Undefined, s')
  /\ (forall n, ParquetFileWriter.AppendRowGroup_int64 n s' = (Undefined, s'))
  /\ ParquetFileWriter.num_columns s' = (Undefined, s')
  /\ ParquetFileWriter.num_rows s' = (Undefined, s')
  /\ ParquetFileWriter.num_row_groups s' = (Undefined, s')
  /\ (forall A (m : M (Heap St * RowGroupWriter.t) A),
        ParquetFileWriter.on_row_group_writer m s' = (Undefined, s'))
  /\ ParquetFileWriter.destructor s' = (Ok tt, s').
Proof.
  intros E. apply ParquetFileWriter_Close_Ok_null in E.
  destruct s' as [h [c]]. simpl in E. subst c.
  repeat split.
Qed.

(** X9: letting the writer go.  If [Close] returns from a state, the
    destructor run from that state returns with the same sink and the same
    state.  If [Close] throws, the writer still has its serializer, open and
    of the same variant, and the destructor destroys it: the serializer's
    own destructor runs the [Close] of the base class once more, with the
    base class's [WriteMetaData] also for the append variant.  When that one
    returns, the sink was closed once and the file ends with the footer of
    this run alone, as [metadata_->Finish()] gave it, not merged with the
    old footer; when it throws, the exception is swallowed. *)
Theorem the_destructor_after_a_Close_that_threw_writes_the_plain_footer
    (s s1 : Heap St * ParquetFileWriter.t) :
  (ParquetFileWriter.Close s = (Ok tt, s1) ->
   ParquetFileWriter.destructor s = (Ok tt, s1))
  /\ (forall e,
        ParquetFileWriter.Close s = (Throw e, s1) ->
        exists f1,
          file_of s1.2 = Some f1
          /\ old_file_meta_of s1.2 = old_file_meta_of s.2
          /\ FileSerializer.is_open_ f1 = true
          /\ (forall h2 f2,
                FileSerializer.Close (s1.1, f1) = (Ok tt, (h2, f2)) ->
                ParquetFileWriter.destructor s
                = (Ok tt, (h2, ParquetFileWriter.mk None))
                /\ closes (sink h2) = S (closes (sink s1.1))
                /\ exists h1 footer,
                     match FileSerializer.row_group_writer_ f1 with
                     | Some w =>
                         exists n s' w2,
                           RowGroupWriter.num_rows (s1.1, w) = (Ok n, s')
                           /\ RowGroupWriter.Close s' = (Ok tt, (h1, w2))
                     | None => h1 = s1.1
                     end
                     /\ FileMetaDataBuilder.Finish (h1, FileSerializer.metadata_ f1)
                        = (Ok footer, (h1, FileSerializer.metadata_ f1))
                     /\ written (sink h2)
                        = written (sink h1) ++ SerializeThriftMsg footer
                          ++ footer_length_field (SerializeThriftMsg footer)
                          ++ PARQUET_MAGIC)
          /\ (forall e2 s2,
                FileSerializer.Close (s1.1, f1) = (Throw e2, s2) ->
                ParquetFileWriter.destructor s
                = (Ok tt, (s2.1, ParquetFileWriter.mk None)))).
Proof.
  split.
  - intros E. unfold ParquetFileWriter.destructor, bind, try_catch_all. rewrite E.
    apply ParquetFileWriter_Close_Ok_null in E.
    destruct s1 as [h [c]]. simpl in E. by subst c.
  - intros e E.
    assert (Hd : ParquetFileWriter.destructor s = ParquetFileWriter.reset_contents s1).
    { unfold ParquetFileWriter.destructor, bind, try_catch_all. by rewrite E. }
    pose proof (ParquetFileWriter_Close_Throw_open _ _ _ E) as [_ Ho].
    assert (Hold : old_file_meta_of s1.2 = old_file_meta_of s.2).
    { destruct s as [h [[c|]]]; unfold ParquetFileWriter.Close in E;
        cbn [ParquetFileWriter.contents_] in E; [| done].
      apply bind_Throw_inv in E as [E | (a & s0 & _ & E)];
        [| by pose proof (reset_contents_never_throws s0 e) as Hn; rewrite E in Hn].
      unfold ParquetFileWriter.on_contents, ParquetFileWriter.dispatch in E.
      cbn [ParquetFileWriter.contents_] in E. destruct c as [f|z].
      - destruct (FileSerializer.Close (h, f)) as [r [h1 f1]].
        by injection E as _ <-.
      - unfold ZdbFileSerializer.Close, ZdbFileSerializer.on_base in E.
        destruct (FileSerializer.Close_ _ _) as [r [h1 f1]].
        by injection E as _ <-. }
    destruct s1 as [h1 [[c1|]]]; [| done]. unfold still_open in Ho.
    cbn [fst snd ParquetFileWriter.contents_] in *.
    set (f1 := match c1 with
               | ParquetFileWriter.FileSerializer_ f => f
               | ParquetFileWriter.ZdbFileSerializer_ z => ZdbFileSerializer.base z
               end).
    assert (Hr : ParquetFileWriter.reset_contents (h1, ParquetFileWriter.mk (Some c1))
                 = ((FileSerializer.destructor (h1, f1)).1,
                    ((FileSerializer.destructor (h1, f1)).2.1, ParquetFileWriter.mk None))).
    { unfold ParquetFileWriter.reset_contents, ParquetFileWriter.dispatch.
      cbn [ParquetFileWriter.contents_]. subst f1. destruct c1 as [f|z].
      - by destruct (FileSerializer.destructor (h1, f)) as [r [h2 f2]].
      - unfold ZdbFileSerializer.destructor, ZdbFileSerializer.on_base.
        by destruct (FileSerializer.destructor _) as [r [h2 f2]]. }
    exists f1. split; [by destruct c1 |]. split; [done |].
    split; [by destruct c1 |]. split.
    + intros h2 f2 Ec. rewrite Hd, Hr.
      unfold FileSerializer.destructor, try_catch_all.
      change (FileSerializer.Close_ FileSerializer.WriteMetaData)
        with (FileSerializer.Close (St:=St)).
      rewrite Ec. split; [done |].
      apply FileSerializer_Close_Ok in Ec as (_ & _ & Hc & Hf); [| by destruct c1].
      split; [done |]. exact Hf.
    + intros e2 [h2 f2] Ec. rewrite Hd, Hr.
      unfold FileSerializer.destructor, try_catch_all.
      change (FileSerializer.Close_ FileSerializer.WriteMetaData)
        with (FileSerializer.Close (St:=St)).
      by rewrite Ec.
Qed.

End AfterClose.

(** ** The entries of the merged footer *)

Lemma lookup_key_Some (k : string) (kvs : list format.KeyValue.t) v :
  lookup_key k kvs = Some v ->
  exists kv, In kv kvs /\ format.KeyValue.key kv = k /\ format.KeyValue.value kv = v.
Proof.
  induction kvs as [|kv kvs IH]; simpl; [done |].
  case_decide as Hk.
  - intros [= <-]. exists kv. auto.
  - intros E. destruct (IH E) as (kv' & ? & ? & ?). exists kv'. auto.
Qed.

Lemma lookup_key_NoDup (kvs : list format.KeyValue.t) kv :
  NoDup (format.KeyValue.key <$> kvs) -> In kv kvs ->
  lookup_key (format.KeyValue.key kv) kvs = Some (format.KeyValue.value kv).
Proof.
  induction kvs as [|kv0 kvs IH]; simpl; [done |].
  intros Hnd [-> | Hin]; [by rewrite decide_True |].
  apply NoDup_cons in Hnd as [Hnotin Hnd].
  case_decide as Hk; [| by apply IH].
  exfalso. apply Hnotin. rewrite Hk.
  apply list_elem_of_fmap. exists kv. split; [done | by apply list_elem_of_In].
Qed.

Lemma merged_keys_Sorted (old_kvs target_kvs : list format.KeyValue.t) :
  Sorted.Sorted (fun k1 k2 => (k1 ?= k2)%string = Lt)
    (format.KeyValue.key
       <$> ZdbFileSerializer.merged_key_value_metadata old_kvs target_kvs).
Proof.
  unfold ZdbFileSerializer.merged_key_value_metadata.
  set (m := ZdbFileSerializer.transform_into _ _).
  pose proof (StringMap.elements_3 m) as Hs.
  induction Hs as [|[k v] l _ IH Hhd]; simpl; [constructor |].
  constructor; [done |].
  destruct Hhd as [|[k' v'] l Hlt]; simpl; constructor.
  by apply String_as_OT.cmp_lt.
Qed.

(** X10: the key-value entries of the merged footer come in strictly
    ascending order of their keys, the order of the [std::map] they are
    copied from; each has its value marked as set; and each has the key and
    the value of an entry of the old footer or of this run's. *)
Theorem merged_entries_are_sorted_set_and_from_the_two_footers
    (old_kvs target_kvs : list format.KeyValue.t) :
  let merged := ZdbFileSerializer.merged_key_value_metadata old_kvs target_kvs in
  Sorted.Sorted (fun k1 k2 => (k1 ?= k2)%string = Lt) (format.KeyValue.key <$> merged)
  /\ Forall (fun kv => format.KeyValue.isset_value kv = true) merged
  /\ Forall (fun kv =>
       exists kv0, In kv0 (old_kvs ++ target_kvs)
         /\ format.KeyValue.key kv0 = format.KeyValue.key kv
         /\ format.KeyValue.value kv0 = format.KeyValue.value kv) merged.
Proof.
  intros merged. split; [apply merged_keys_Sorted |]. split.
  - unfold merged, ZdbFileSerializer.merged_key_value_metadata.
    apply Forall_fmap, Forall_true. done.
  - apply Forall_forall. intros kv Hin. apply list_elem_of_In in Hin.
    apply (lookup_key_NoDup _ _ (merged_keys_NoDup old_kvs target_kvs)) in Hin.
    fold merged in Hin. unfold merged in Hin. rewrite lookup_key_merged in Hin.
    unfold union_old_wins in Hin.
    destruct (lookup_key (format.KeyValue.key kv) old_kvs) as [v|] eqn:Eo.
    + injection Hin as Hv. apply lookup_key_Some in Eo as (kv0 & ? & ? & ?).
      exists kv0. rewrite in_app_iff. split; [by left | split; congruence].
    + apply lookup_key_Some in Hin as (kv0 & ? & ? & ?).
      exists kv0. rewrite in_app_iff. split; [by right | done].
Qed.

(** ** A column beyond the schema *)

Section BeyondTheSchema.
Context {St : Type} `{OutputStream St}.

Lemma NextColumnChunk_full meta (h : Heap St) rg b :
  row_group_builders h !! RowGroupSerializer.metadata_ rg = Some b ->
  RowGroupMetaDataBuilder.num_columns_ b <= RowGroupMetaDataBuilder.next_column_ b ->
  exists e h',
    RowGroupSerializer.on_metadata (RowGroupMetaDataBuilder.NextColumnChunk meta) (h, rg)
    = (Throw e, (h', rg))
    /\ sink h' = sink h.
Proof.
  intros Hb Hfull.
  unfold RowGroupSerializer.on_metadata, RowGroupMetaDataBuilder.NextColumnChunk.
  rewrite Hb. destruct (Z.leb_spec (RowGroupMetaDataBuilder.num_columns_ b)
                          (RowGroupMetaDataBuilder.next_column_ b)); [| lia].
  by eexists _, _.
Qed.

(** X11: [NextColumn] on a row group whose metadata has all the schema's
    columns filled throws, and the column that is open stays open: it is not
    closed, its bytes are not flushed to the sink nor counted, and
    [current_column_index_] is not advanced.  The metadata is asked for the
    next column chunk before the open column is closed. *)
Theorem NextColumn_beyond_the_schema_leaves_the_open_column
    meta (h : Heap St) (rg : RowGroupSerializer.t) b :
  row_group_builders h !! RowGroupSerializer.metadata_ rg = Some b ->
  RowGroupMetaDataBuilder.num_columns_ b <= RowGroupMetaDataBuilder.next_column_ b ->
  exists e s',
    RowGroupSerializer.NextColumn meta (h, rg) = (Throw e, s')
    /\ RowGroupSerializer.current_column_writer_ s'.2
       = RowGroupSerializer.current_column_writer_ rg
    /\ RowGroupSerializer.current_column_index_ s'.2
       = RowGroupSerializer.current_column_index_ rg
    /\ RowGroupSerializer.total_bytes_written_ s'.2
       = RowGroupSerializer.total_bytes_written_ rg
    /\ sink s'.1 = sink h.
Proof.
  intros Hb Hfull. unfold RowGroupSerializer.NextColumn.
  unfold bind at 1. unfold RowGroupSerializer.this at 1. unfold gets.
  unfold RowGroupSerializer.has_column_writer at 1. cbn [fst snd].
  destruct (RowGroupSerializer.current_column_writer_ rg) as [w|] eqn:Hw; cbn [when].
  - unfold bind at 1. rewrite (CheckRowsWritten_run _ _ _ Hw). cbn zeta.
    destruct (RowGroupSerializer.num_rows_ rg <? 0) eqn:Hneg.
    + rewrite Hb.
      destruct (record_num_rows_lookup (ColumnWriter.rows_written w) _ h b Hb)
        as [Hb' Hs].
      set (rg' := RowGroupSerializer.set_num_rows_ _ rg).
      destruct (NextColumnChunk_full meta (record_num_rows (ColumnWriter.rows_written w)
                  (RowGroupSerializer.metadata_ rg) h) rg' _ Hb' Hfull)
        as (e & h' & E & Hs').
      exists e, (h', rg'). rewrite (bind_Throw _ _ _ _ _ E).
      repeat split; [done | simpl; congruence].
    + destruct (negb _).
      * eexists _, _. split; [done |]. done.
      * destruct (NextColumnChunk_full meta h rg b Hb Hfull) as (e & h' & E & Hs').
        exists e, (h', rg). rewrite (bind_Throw _ _ _ _ _ E). done.
  - unfold bind at 1. unfold ret at 1.
    destruct (NextColumnChunk_full meta h rg b Hb Hfull) as (e & h' & E & Hs').
    exists e, (h', rg). rewrite (bind_Throw _ _ _ _ _ E). done.
Qed.

End BeyondTheSchema.

(** ** The calls on a row group never look at closed_ *)

Section ClosedFlag.
Context {St : Type} `{OutputStream St}.

(** [m] runs on a row group whose [closed_] flag is [v] as it runs on the
    row group itself, and leaves the flag as it found it. *)
Definition ignores_closed_ {A} (m : M (Heap St * RowGroupSerializer.t) A) : Prop :=
  forall v h rg,
    m (h, RowGroupSerializer.set_closed_ v rg)
    = let '(r, (h', rg')) := m (h, rg) in
      (r, (h', RowGroupSerializer.set_closed_ v rg')).

Lemma ignores_ret {A} (a : A) : ignores_closed_ (ret a).
Proof. by intros v h rg. Qed.

Lemma ignores_throw {A} e : ignores_closed_ (@throw _ A e).
Proof. by intros v h rg. Qed.

Lemma ignores_bind {A B} (m : M (Heap St * RowGroupSerializer.t) A)
    (k : A -> M (Heap St * RowGroupSerializer.t) B) :
  ignores_closed_ m -> (forall a, ignores_closed_ (k a)) -> ignores_closed_ (bind m k).
Proof.
  intros Hm Hk v h rg. unfold bind. rewrite Hm.
  destruct (m (h, rg)) as [[a|e|] [h1 rg1]]; [apply Hk | done..].
Qed.

Lemma ignores_when (c : bool) (m : M (Heap St * RowGroupSerializer.t) unit) :
  ignores_closed_ m -> ignores_closed_ (when c m).
Proof. destruct c; [done | intros _; apply ignores_ret]. Qed.

Lemma ignores_this {A} (g : RowGroupSerializer.t -> A) :
  (forall v rg, g (RowGroupSerializer.set_closed_ v rg) = g rg) ->
  ignores_closed_ (RowGroupSerializer.this g).
Proof.
  intros Hg v h rg. unfold RowGroupSerializer.this, gets. simpl. by rewrite Hg.
Qed.

Lemma ignores_assign (g : RowGroupSerializer.t -> RowGroupSerializer.t) :
  (forall v rg, g (RowGroupSerializer.set_closed_ v rg)
                = RowGroupSerializer.set_closed_ v (g rg)) ->
  ignores_closed_ (RowGroupSerializer.assign g).
Proof.
  intros Hg v h rg. unfold RowGroupSerializer.assign, modify. simpl. by rewrite Hg.
Qed.

Lemma ignores_on_metadata {A} (m : M RowGroupMetaDataBuilder.t A) :
  ignores_closed_ (RowGroupSerializer.on_metadata m).
Proof.
  intros v h rg. unfold RowGroupSerializer.on_metadata. simpl.
  destruct (row_group_builders h !! _); [by destruct (m _) | done].
Qed.

Lemma ignores_on_current_column_writer {A} (m : M (St * ColumnWriter.t) A) :
  ignores_closed_ (RowGroupSerializer.on_current_column_writer m).
Proof.
  intros v h rg. unfold RowGroupSerializer.on_current_column_writer. simpl.
  destruct (RowGroupSerializer.current_column_writer_ rg) as [w|]; [| done].
  by destruct (m (sink h, w)) as [r [s1 w1]].
Qed.

Lemma ignores_int64_add (a b : Z) : ignores_closed_ (int64_add a b).
Proof. unfold int64_add. by destruct (in_int64 _). Qed.

Lemma ignores_int_add (a b : Z) : ignores_closed_ (int_add a b).
Proof. unfold int_add. by destruct (in_int _). Qed.

Ltac ignores_steps :=
  repeat first
    [ apply ignores_bind; [| intros ?]
    | apply ignores_when
    | apply ignores_ret | apply ignores_throw
    | apply ignores_on_metadata | apply ignores_on_current_column_writer
    | apply ignores_int64_add | apply ignores_int_add
    | apply ignores_this; done
    | apply ignores_assign; done
    | match goal with
      | |- ignores_closed_ (if ?c then _ else _) => destruct c
      end ].

Lemma ignores_CheckRowsWritten : ignores_closed_ RowGroupSerializer.CheckRowsWritten.
Proof. unfold RowGroupSerializer.CheckRowsWritten. ignores_steps. Qed.

Lemma ignores_close_current_column :
  ignores_closed_ RowGroupSerializer.close_current_column.
Proof. unfold RowGroupSerializer.close_current_column. ignores_steps. Qed.

(** X12: [NextColumn], a write to the open column and [num_rows()] never
    read [closed_], which only [Close] reads and sets: on a row group that
    was closed they run as on the same row group still open, with the same
    outcome, the same writes to the sink and the same changes to the
    members and to the metadata.  So a column can be opened and written
    after [Close]; a later [Close] does nothing, and such a column is never
    closed. *)
Theorem the_calls_on_columns_never_read_closed_ :
  (forall meta, ignores_closed_ (RowGroupSerializer.NextColumn meta))
  /\ (forall n encoded, ignores_closed_ (RowGroupSerializer.column_WriteBatch n encoded))
  /\ ignores_closed_ RowGroupSerializer.num_rows
  /\ (forall meta (h h' : Heap St) rg rg',
        RowGroupSerializer.NextColumn meta (h, rg) = (Ok tt, (h', rg')) ->
        exists rg2,
          RowGroupSerializer.NextColumn meta (h, RowGroupSerializer.set_closed_ true rg)
          = (Ok tt, (h', rg2))
          /\ RowGroupSerializer.current_column_writer_ rg2 = Some ColumnWriter.Make
          /\ RowGroupSerializer.Close (h', rg2) = (Ok tt, (h', rg2))).
Proof.
  pose proof ignores_CheckRowsWritten. pose proof ignores_close_current_column.
  assert (Hnext : forall meta, ignores_closed_ (RowGroupSerializer.NextColumn meta)).
  { intros meta. unfold RowGroupSerializer.NextColumn. ignores_steps; done. }
  split; [done |]. split; [| split].
  - intros n encoded. unfold RowGroupSerializer.column_WriteBatch. ignores_steps.
  - unfold RowGroupSerializer.num_rows. ignores_steps; done.
  - intros meta h h' rg rg' E. exists (RowGroupSerializer.set_closed_ true rg').
    rewrite Hnext, E. split; [done |].
    apply NextColumn_Ok in E as (_ & _ & _ & Hw). split; [done |].
    by apply RowGroupSerializer_Close_again.
Qed.

End ClosedFlag.

(** ** AppendRowGroup, step by step *)

Section AppendRowGroupSteps.
Context {St : Type} `{OutputStream St} `{ThriftSerializer}.

(** What [AppendRowGroup] does once the open row group is closed. *)
Definition count_and_append : M (Heap St * FileSerializer.t) unit :=
  n <- FileSerializer.this FileSerializer.num_row_groups_ ;;
  n' <- int_add n 1 ;;
  FileSerializer.assign (FileSerializer.set_num_row_groups_ n') ;;
  rg_metadata <- FileSerializer.on_metadata FileMetaDataBuilder.AppendRowGroup ;;
  FileSerializer.assign
    (FileSerializer.set_row_group_writer_
       (Some (RowGroupWriter.mk (Some (RowGroupSerializer.new rg_metadata))))).

Lemma count_and_append_run (s : Heap St * FileSerializer.t) :
  (forall e, (count_and_append s).1 <> Throw e)
  /\ (in_int (FileSerializer.num_row_groups_ s.2 + 1) = true ->
      (count_and_append s).1 = Ok tt).
Proof.
  destruct s as [h f].
  unfold count_and_append, bind, FileSerializer.this, gets, int_add. cbn [fst snd].
  destruct (in_int _); [| by split].
  unfold ret, FileSerializer.assign, modify, FileSerializer.on_metadata,
    FileMetaDataBuilder.AppendRowGroup. cbn [fst snd]. by split.
Qed.

(** X13: an [AppendRowGroup] that throws threw while it closed the open row
    group, before it counted a new one: [num_row_groups_] is as it was.
    That row group is marked closed by then, so the next [AppendRowGroup]
    does not close it again and does not throw: it appends a new row group
    after the one whose [Close] failed. *)
Theorem AppendRowGroup_that_threw_is_not_retried
    (s s1 : Heap St * FileSerializer.t) e :
  FileSerializer.AppendRowGroup s = (Throw e, s1) ->
  (exists w, FileSerializer.row_group_writer_ s.2 = Some w
             /\ (RowGroupWriter.Close (s.1, w)).1 = Throw e)
  /\ FileSerializer.num_row_groups_ s1.2 = FileSerializer.num_row_groups_ s.2
  /\ (forall e', (FileSerializer.AppendRowGroup s1).1 <> Throw e')
  /\ (in_int (FileSerializer.num_row_groups_ s.2 + 1) = true ->
      (FileSerializer.AppendRowGroup s1).1 = Ok tt).
Proof.
  destruct s as [h f]. unfold FileSerializer.AppendRowGroup at 1. intros E.
  apply bind_Throw_inv in E as [E | (a & s2 & E0 & E)]; [done |].
  unfold FileSerializer.this, gets in E0. injection E0 as <- <-.
  apply bind_Throw_inv in E as [E | (a & s2 & E0 & E)].
  - unfold FileSerializer.has_row_group_writer in E. cbn [fst snd] in *.
    destruct (FileSerializer.row_group_writer_ f) as [w|] eqn:Ew; [| done].
    cbn [when] in E. unfold FileSerializer.on_row_group_writer in E. rewrite Ew in E.
    destruct (RowGroupWriter.Close (h, w)) as [r [h1 w1]] eqn:Ec.
    injection E as -> <-.
    apply RowGroupWriter_Close_twice in Ec as Hagain.
    split; [exists w; by rewrite Ec |]. split; [done |].
    assert (Hrun : FileSerializer.AppendRowGroup
                     (h1, FileSerializer.set_row_group_writer_ (Some w1) f)
                   = count_and_append
                       (h1, FileSerializer.set_row_group_writer_ (Some w1) f)).
    { unfold FileSerializer.AppendRowGroup.
      unfold bind at 1. unfold FileSerializer.this at 1. unfold gets.
      cbn [fst snd when FileSerializer.has_row_group_writer
           FileSerializer.row_group_writer_ FileSerializer.set_row_group_writer_].
      unfold bind at 1. unfold FileSerializer.on_row_group_writer at 1.
      cbn [FileSerializer.row_group_writer_ FileSerializer.set_row_group_writer_].
      rewrite Hagain. by destruct f. }
    cbn [snd]. rewrite Hrun. apply count_and_append_run.
  - exfalso. apply (proj1 (count_and_append_run s2) e).
    change (count_and_append s2 = (Throw e, s1)) in E. by rewrite E.
Qed.

(** X14: [AppendRowGroup] that returns has closed the row group that was
    open and gives a writer on a fresh row group: one more row group is
    counted; the new row group's metadata is a new slot with the schema's
    number of columns, the last of the footer's row groups; the new writer
    has no column open and its [num_rows()] is 0. *)
Theorem AppendRowGroup_opens_a_fresh_row_group
    (h h' : Heap St) (f f' : FileSerializer.t) :
  FileSerializer.AppendRowGroup (h, f) = (Ok tt, (h', f')) ->
  let schema := FileMetaDataBuilder.schema_ (FileSerializer.metadata_ f) in
  match FileSerializer.row_group_writer_ f with
  | Some w => exists s1, RowGroupWriter.Close (h, w) = (Ok tt, s1)
  | None => True
  end
  /\ FileSerializer.num_row_groups_ f' = FileSerializer.num_row_groups_ f + 1
  /\ exists p,
       FileSerializer.row_group_writer_ f'
       = Some (RowGroupWriter.mk (Some (RowGroupSerializer.new p)))
       /\ row_group_builders h' !! p = Some (RowGroupMetaDataBuilder.Make schema)
       /\ last (FileMetaDataBuilder.row_groups_ (FileSerializer.metadata_ f')) = Some p
       /\ FileSerializer.on_row_group_writer RowGroupWriter.num_rows (h', f')
          = (Ok 0, (h', f'))
       /\ (FileSerializer.on_row_group_writer RowGroupWriter.num_columns (h', f')).1
          = Ok schema.
Proof.
  intros E schema.
  apply AppendRowGroup_Ok in E as (h1 & Hc & _ & Hb & Hw & Hn & _ & _ & Hg).
  split; [| split; [done |]].
  { destruct (FileSerializer.row_group_writer_ f); [| done].
    destruct Hc as [w' Hc]. by eexists. }
  exists (length (row_group_builders h1)).
  assert (Hp : row_group_builders h' !! length (row_group_builders h1)
               = Some (RowGroupMetaDataBuilder.Make schema)).
  { rewrite Hb. by apply list_lookup_middle. }
  split; [done |]. split; [done |]. split; [by rewrite Hg, last_snoc |].
  unfold FileSerializer.on_row_group_writer. rewrite Hw. split.
  - unfold RowGroupWriter.num_rows, RowGroupWriter.on_contents.
    cbn [RowGroupWriter.contents_].
    unfold RowGroupSerializer.num_rows, bind, RowGroupSerializer.this, gets, ret.
    simpl. destruct f'; simpl in *. by rewrite Hw.
  - unfold RowGroupWriter.num_columns, RowGroupWriter.on_contents,
      RowGroupSerializer.num_columns, RowGroupSerializer.on_metadata, gets.
    cbn [RowGroupWriter.contents_ RowGroupSerializer.metadata_ RowGroupSerializer.new].
    by rewrite Hp.
Qed.

End AppendRowGroupSteps.

(** ** num_rows() of a row group, called again *)

Section NumRowsAgain.
Context {St : Type} `{OutputStream St}.

Lemma record_num_rows_again (n : Z) (p : nat) (h : Heap St) :
  record_num_rows n p (record_num_rows n p h) = record_num_rows n p h.
Proof.
  unfold record_num_rows at 2 3.
  destruct (row_group_builders h !! p) as [b|] eqn:Hb;
    [| unfold record_num_rows; by rewrite Hb].
  unfold record_num_rows. cbn [row_group_builders set_row_group_builders].
  rewrite list_lookup_insert_eq by (by eapply lookup_lt_Some).
  unfold set_row_group_builders. cbn [sink row_group_builders].
  by rewrite list_insert_insert_eq.
Qed.

(** X15: [num_rows()] of a row group can be asked again.  When it returns,
    a second call right after it returns the same count and changes
    nothing, although the first one may have recorded the open column's
    row count. *)
Theorem num_rows_again_returns_the_same
    (s s1 : Heap St * RowGroupSerializer.t) (n : Z) :
  RowGroupSerializer.num_rows s = (Ok n, s1) ->
  RowGroupSerializer.num_rows s1 = (Ok n, s1).
Proof.
  destruct s as [h rg]. intros E.
  destruct (RowGroupSerializer.current_column_writer_ rg) as [w|] eqn:Hw.
  - pose proof E as E'. unfold RowGroupSerializer.num_rows in E'.
    unfold bind at 1 in E'. unfold RowGroupSerializer.this at 1 in E'.
    unfold gets in E'. unfold RowGroupSerializer.has_column_writer at 1 in E'.
    cbn [fst snd] in E'. rewrite Hw in E'. cbn [when] in E'.
    bind_inv E'. rewrite (CheckRowsWritten_run _ _ _ Hw) in E'0. cbn zeta in E'0.
    unfold bind, RowGroupSerializer.this, gets, ret in E'. injection E' as Hn <-.
    destruct (RowGroupSerializer.num_rows_ rg <? 0) eqn:Hneg.
    + destruct (row_group_builders h !! _) as [b|] eqn:Hb; [| done].
      injection E'0 as _ <-. cbn [fst snd] in *.
      set (rows := ColumnWriter.rows_written w) in *.
      set (rg1 := RowGroupSerializer.set_num_rows_ rows rg) in *.
      assert (Hw1 : RowGroupSerializer.current_column_writer_ rg1 = Some w) by done.
      destruct (record_num_rows_lookup rows _ h b Hb) as [Hb1 _].
      unfold RowGroupSerializer.num_rows.
      unfold bind at 1. unfold RowGroupSerializer.this at 1. unfold gets.
      unfold RowGroupSerializer.has_column_writer at 1. cbn [fst snd].
      rewrite Hw1. cbn [when].
      unfold bind at 1. rewrite (CheckRowsWritten_run _ _ _ Hw1). cbn zeta.
      change (RowGroupSerializer.num_rows_ rg1) with rows in *.
      change (RowGroupSerializer.metadata_ rg1) with (RowGroupSerializer.metadata_ rg).
      change (ColumnWriter.rows_written w) with rows.
      destruct (rows <? 0) eqn:Hrows.
      * rewrite Hb1, record_num_rows_again.
        unfold bind, RowGroupSerializer.this, gets, ret. cbn [fst snd].
        change (RowGroupSerializer.num_rows_ (RowGroupSerializer.set_num_rows_ rows rg1))
          with rows.
        rewrite Hrows in *. subst n. by destruct rg.
      * rewrite Z.eqb_refl. cbn [negb].
        unfold bind, RowGroupSerializer.this, gets, ret. cbn [fst snd].
        change (RowGroupSerializer.num_rows_ rg1) with rows.
        rewrite Hrows in *. by subst n.
    + destruct (negb _); [done |]. injection E'0 as _ <-. exact E.
  - pose proof E as E'. unfold RowGroupSerializer.num_rows in E'.
    unfold bind, RowGroupSerializer.this, gets, ret in E'.
    unfold RowGroupSerializer.has_column_writer in E'. cbn [fst snd] in E'.
    rewrite Hw in E'. cbn [when] in E'. unfold ret in E'.
    injection E' as _ <-. exact E.
Qed.

End NumRowsAgain.

(** ** The columns of a row group that was closed *)

Section ColumnsAgree.
Context {St : Type} `{OutputStream St}.

(** The row group between two calls: the open column has written [cur]
    rows; the columns closed so far have written the rows [closed], which
    all are the recorded row count, if one is recorded. *)
Definition columns_so_far (cur : option Z) (closed : list Z)
    (s : Heap St * RowGroupSerializer.t) : Prop :=
  match cur with
  | Some n =>
      exists w, RowGroupSerializer.current_column_writer_ s.2 = Some w
                /\ ColumnWriter.rows_written w = n /\ 0 <= n
  | None => RowGroupSerializer.current_column_writer_ s.2 = None
  end
  /\ (RowGroupSerializer.num_rows_ s.2 < 0 -> closed = [])
  /\ (0 <= RowGroupSerializer.num_rows_ s.2 ->
      Forall (fun r => r = RowGroupSerializer.num_rows_ s.2) closed
      /\ recorded (RowGroupSerializer.num_rows_ s.2) s).

(** A check that passes: the open column has the recorded row count, which
    is that of the columns closed so far. *)
Lemma CheckRowsWritten_Ok_agree (n : Z) (closed : list Z)
    (s s1 : Heap St * RowGroupSerializer.t) :
  columns_so_far (Some n) closed s ->
  RowGroupSerializer.CheckRowsWritten s = (Ok tt, s1) ->
  columns_so_far (Some n) closed s1
  /\ RowGroupSerializer.num_rows_ s1.2 = n
  /\ RowGroupSerializer.closed_ s1.2 = RowGroupSerializer.closed_ s.2.
Proof.
  destruct s as [h rg]. intros ((w & Hw & Hr & Hn) & Hneg & Hpos).
  cbn [fst snd] in *. rewrite (CheckRowsWritten_run _ _ _ Hw). cbn zeta.
  rewrite Hr.
  destruct (Z.ltb_spec (RowGroupSerializer.num_rows_ rg) 0) as [Hlt | Hge].
  - destruct (row_group_builders h !! _) as [b|] eqn:Hb; [| done].
    intros [= <-]. cbn [fst snd].
    change (RowGroupSerializer.num_rows_ (RowGroupSerializer.set_num_rows_ n rg)) with n.
    split; [| done]. split; [by exists w |]. cbn [fst snd].
    change (RowGroupSerializer.num_rows_ (RowGroupSerializer.set_num_rows_ n rg)) with n.
    split; [lia |]. intros _.
    rewrite (Hneg Hlt). split; [constructor |]. split; [done |].
    destruct (record_num_rows_lookup n _ h b Hb) as [Hl _]. cbn [fst snd]. eauto.
  - destruct (Z.eqb_spec (RowGroupSerializer.num_rows_ rg) n) as [He | Hne];
      cbn [negb]; [| done].
    intros [= <-]. cbn [fst snd]. split; [| done].
    split; [by exists w |]. done.
Qed.

(** The steps that follow the check keep the row count and what is
    recorded. *)
Definition keeps_the_count : relation (Heap St * RowGroupSerializer.t) :=
  fun s s' =>
    RowGroupSerializer.num_rows_ s'.2 = RowGroupSerializer.num_rows_ s.2
    /\ forall n, recorded n s -> recorded n s'.

#[local] Instance keeps_the_count_preorder : PreOrder keeps_the_count.
Proof.
  split.
  - by intros s.
  - intros s1 s2 s3 [E1 R1] [E2 R2]. split; [congruence | auto].
Qed.

Lemma keeps_the_count_this {A} (g : RowGroupSerializer.t -> A) :
  preserved keeps_the_count (RowGroupSerializer.this g).
Proof. apply preserved_gets, _. Qed.

Lemma keeps_the_count_assign (g : RowGroupSerializer.t -> RowGroupSerializer.t) :
  (forall rg, RowGroupSerializer.num_rows_ (g rg) = RowGroupSerializer.num_rows_ rg) ->
  (forall rg, RowGroupSerializer.metadata_ (g rg) = RowGroupSerializer.metadata_ rg) ->
  preserved keeps_the_count (RowGroupSerializer.assign g).
Proof.
  intros Hn Hm s r s' E. split.
  - revert E. unfold RowGroupSerializer.assign, modify. intros [= _ <-]. apply Hn.
  - intros n. by apply (stays_recorded_assign n g Hn Hm) in E.
Qed.

Lemma keeps_the_count_on_metadata {A} (m : M RowGroupMetaDataBuilder.t A) :
  (forall b, RowGroupMetaDataBuilder.num_rows_ (m b).2 = RowGroupMetaDataBuilder.num_rows_ b) ->
  preserved keeps_the_count (RowGroupSerializer.on_metadata m).
Proof.
  intros Hm s r s' E. split.
  - by apply (keeps_on_metadata RowGroupSerializer.num_rows_) in E.
  - intros n. by apply (stays_recorded_on_metadata n m Hm) in E.
Qed.

Lemma keeps_the_count_on_current_column_writer {A} (m : M (St * ColumnWriter.t) A) :
  preserved keeps_the_count (RowGroupSerializer.on_current_column_writer m).
Proof.
  intros s r s' E. split.
  - by apply keeps_num_rows_on_current_column_writer in E.
  - intros n. by apply (stays_recorded_on_current_column_writer n) in E.
Qed.

Lemma NextColumn_after_the_check meta :
  preserved keeps_the_count
    (RowGroupSerializer.on_metadata (RowGroupMetaDataBuilder.NextColumnChunk meta) ;;
     open <- RowGroupSerializer.this RowGroupSerializer.has_column_writer ;;
     when open RowGroupSerializer.close_current_column ;;
     index <- RowGroupSerializer.this RowGroupSerializer.current_column_index_ ;;
     index' <- int_add index 1 ;;
     RowGroupSerializer.assign (RowGroupSerializer.set_current_column_index_ index') ;;
     RowGroupSerializer.assign
       (RowGroupSerializer.set_current_column_writer_ (Some ColumnWriter.Make))).
Proof.
  preserved_steps;
    first [ apply keeps_the_count_this
          | apply keeps_the_count_on_current_column_writer
          | apply keeps_the_count_on_metadata, NextColumnChunk_num_rows_
          | by apply keeps_the_count_assign ].
Qed.

Lemma Close_after_the_check :
  preserved keeps_the_count
    ((RowGroupSerializer.close_current_column ;;
      RowGroupSerializer.assign (RowGroupSerializer.set_current_column_writer_ None)) ;;
     total <- RowGroupSerializer.this RowGroupSerializer.total_bytes_written_ ;;
     RowGroupSerializer.on_metadata (RowGroupMetaDataBuilder.Finish total)).
Proof.
  preserved_steps;
    first [ apply keeps_the_count_this
          | apply keeps_the_count_on_current_column_writer
          | apply keeps_the_count_on_metadata, Finish_num_rows_
          | by apply keeps_the_count_assign ].
Qed.

Lemma columns_so_far_keeps_the_count cur closed s s' :
  keeps_the_count s s' ->
  (0 <= RowGroupSerializer.num_rows_ s.2 ->
   Forall (fun r => r = RowGroupSerializer.num_rows_ s.2) closed
   /\ recorded (RowGroupSerializer.num_rows_ s.2) s) ->
  match cur with
  | Some n =>
      exists w, RowGroupSerializer.current_column_writer_ s'.2 = Some w
                /\ ColumnWriter.rows_written w = n /\ 0 <= n
  | None => RowGroupSerializer.current_column_writer_ s'.2 = None
  end ->
  (RowGroupSerializer.num_rows_ s.2 < 0 -> closed = []) ->
  columns_so_far cur closed s'.
Proof.
  intros [En Hrec] Hpos Hcur Hneg. split; [done |]. rewrite En.
  split; [done |]. intros Hge. destruct (Hpos Hge) as [HF HR]. auto.
Qed.

Lemma column_call_columns_so_far (c : ColumnCall) cur closed
    (s s' : Heap St * RowGroupSerializer.t) :
  columns_so_far cur closed s -> batch_nonneg c ->
  column_call c s = (Ok tt, s') ->
  exists cur' closed',
    columns_so_far cur' closed' s'
    /\ forall cs, closed ++ rows_per_column_from cur (c :: cs)
                  = closed' ++ rows_per_column_from cur' cs.
Proof.
  intros Hinv Hc. destruct c as [meta|n encoded|]; simpl.
  - (* NextColumn *)
    unfold RowGroupSerializer.NextColumn. intros E.
    bind_inv E. unfold RowGroupSerializer.this, gets in E0. injection E0 as <- <-.
    bind_inv E. destruct a. apply NextColumn_after_the_check in E as K.
    assert (Hmake : RowGroupSerializer.current_column_writer_ s'.2 = Some ColumnWriter.Make).
    { bind_inv E. bind_inv E. bind_inv E. bind_inv E. bind_inv E. bind_inv E.
      unfold RowGroupSerializer.assign, modify in E. by injection E as <-. }
    destruct cur as [k|].
    + destruct Hinv as ((w & Hw & Hr & Hk) & Hneg & Hpos).
      unfold RowGroupSerializer.has_column_writer in E0. rewrite Hw in E0.
      cbn [when] in E0.
      apply (CheckRowsWritten_Ok_agree k closed) in E0 as ((_ & _ & Hpos1) & Hn1 & _);
        [| split; [by exists w | done]].
      rewrite Hn1 in Hpos1. destruct (Hpos1 Hk) as [HF HR].
      exists (Some 0), (closed ++ [k]). split.
      * destruct K as [En Hrec]. split; [exists ColumnWriter.Make; by split |].
        rewrite En, Hn1. split; [lia |]. intros _. split; [| by apply Hrec].
        apply Forall_app. split; [done | by constructor].
      * intros cs. by rewrite <- app_assoc.
    + destruct Hinv as (Hw & Hneg & Hpos).
      unfold RowGroupSerializer.has_column_writer in E0. rewrite Hw in E0.
      cbn [when] in E0. injection E0 as <-.
      exists (Some 0), closed. split; [| done].
      apply (columns_so_far_keeps_the_count _ _ _ _ K); [done | | done].
      exists ColumnWriter.Make. by split.
  - (* a batch written to the open column *)
    unfold RowGroupSerializer.column_WriteBatch. intros E.
    apply keeps_the_count_on_current_column_writer in E as K.
    destruct s as [h rg]. unfold RowGroupSerializer.on_current_column_writer in E.
    destruct cur as [k|].
    + destruct Hinv as ((w & Hw & Hr & Hk) & Hneg & Hpos). cbn [fst snd] in *.
      rewrite Hw in E. unfold modify in E. injection E as <-.
      exists (Some (k + n)), closed. split; [| done].
      apply (columns_so_far_keeps_the_count _ _ _ _ K); [done | | done].
      exists (ColumnWriter.WriteBatch n encoded w). split; [done |].
      unfold ColumnWriter.rows_written in *. simpl in *. split; lia.
    + destruct Hinv as (Hw & _). cbn [fst snd] in *. by rewrite Hw in E.
  - (* num_rows() *)
    intros E. bind_inv E. injection E as <-.
    unfold RowGroupSerializer.num_rows in E0.
    bind_inv E0. unfold RowGroupSerializer.this, gets in E1. injection E1 as <- <-.
    bind_inv E0. destruct a0.
    unfold bind, RowGroupSerializer.this, gets, ret in E0. injection E0 as _ <-.
    rename E1 into E. exists cur, closed. split; [| done].
    destruct cur as [k|].
    + pose proof Hinv as ((w & Hw & _) & _).
      unfold RowGroupSerializer.has_column_writer in E. rewrite Hw in E.
      cbn [when] in E. by apply (CheckRowsWritten_Ok_agree k closed) in E as [? _].
    + pose proof Hinv as (Hw & _).
      unfold RowGroupSerializer.has_column_writer in E. rewrite Hw in E.
      cbn [when] in E. by injection E as <-.
Qed.

Lemma column_calls_columns_so_far (cs : list ColumnCall) cur closed
    (s s' : Heap St * RowGroupSerializer.t) :
  columns_so_far cur closed s -> Forall batch_nonneg cs ->
  column_calls cs s = (Ok tt, s') ->
  exists cur' closed',
    columns_so_far cur' closed' s'
    /\ closed ++ rows_per_column_from cur cs
       = closed' ++ match cur' with Some n => [n] | None => [] end.
Proof.
  revert cur closed s. induction cs as [|c cs IH]; intros cur closed s Hinv Hnn; simpl.
  - intros [= <-]. by exists cur, closed.
  - intros E. bind_inv E. destruct a. apply Forall_cons in Hnn as [Hc Hnn].
    destruct (column_call_columns_so_far c cur closed s s0 Hinv Hc E0)
      as (cur1 & closed1 & Hinv1 & Hl).
    destruct (IH cur1 closed1 s0 Hinv1 Hnn E) as (cur' & closed' & Hinv' & Hl').
    exists cur', closed'. split; [done |]. rewrite <- Hl'. apply (Hl cs).
Qed.

(** X16: row-count agreement over a whole row group.  If the calls [cs] on
    a row group just appended return, and [Close] after them returns, then
    all the columns opened have written the same number of rows, and this
    number is the row count of the serializer and of the row-group
    metadata; no batch having a negative number of rows. *)
Theorem the_columns_of_a_closed_row_group_have_the_same_rows
    (cs : list ColumnCall) (p : nat) (h0 : Heap St)
    (s s' : Heap St * RowGroupSerializer.t) :
  column_calls cs (h0, RowGroupSerializer.new p) = (Ok tt, s) ->
  Forall batch_nonneg cs ->
  RowGroupSerializer.Close s = (Ok tt, s') ->
  let n := RowGroupSerializer.num_rows_ s'.2 in
  Forall (fun rows => rows = n) (rows_per_column cs)
  /\ (rows_per_column cs <> [] -> 0 <= n /\ recorded n s').
Proof.
  intros E Hnn Ec n.
  apply column_calls_place in E as Hplace. destruct Hplace as (_ & Hcl & _).
  change (RowGroupSerializer.closed_ (h0, RowGroupSerializer.new p).2) with false in Hcl.
  apply (column_calls_columns_so_far cs None []) in E as (cur & closed & Hinv & Hl);
    [| by repeat split | done].
  rewrite app_nil_l in Hl. fold (rows_per_column cs) in Hl. rewrite Hl. clear Hl.
  unfold RowGroupSerializer.Close in Ec.
  bind_inv Ec. unfold RowGroupSerializer.this, gets in Ec0. injection Ec0 as <- <-.
  rewrite Hcl in Ec. cbn [negb when] in Ec.
  bind_inv Ec. unfold RowGroupSerializer.assign, modify in Ec0. injection Ec0 as _ <-.
  bind_inv Ec. unfold RowGroupSerializer.this, gets in Ec0. injection Ec0 as <- <-.
  set (s1 := (s.1, RowGroupSerializer.set_closed_ true s.2)) in *.
  assert (Hinv1 : columns_so_far cur closed s1).
  { destruct Hinv as (Hcur & Hneg & Hpos). split; [done |]. split; [done |].
    intros Hge. destruct (Hpos Hge) as [HF HR]. split; [done |].
    by destruct s as [h [?]]. }
  destruct cur as [k|].
  - pose proof Hinv1 as ((w & Hw & Hr & Hk) & _).
    unfold s1 in Hw. cbn [snd] in Hw.
    unfold RowGroupSerializer.has_column_writer in Ec.
    rewrite Hw in Ec. cbn [when] in Ec.
    rewrite bind_assoc in Ec. bind_inv Ec.
    repeat match goal with x : unit |- _ => destruct x end.
    apply (CheckRowsWritten_Ok_agree k closed) in Ec0 as ((_ & _ & Hpos2) & Hn2 & _);
      [| done].
    apply Close_after_the_check in Ec as [En Hrec].
    rewrite Hn2 in Hpos2. destruct (Hpos2 Hk) as [HF HR].
    subst n. rewrite En, Hn2. split.
    + apply Forall_app. split; [done | by constructor].
    + intros _. split; [done | by apply Hrec].
  - pose proof Hinv1 as (Hw & Hneg & Hpos).
    unfold s1 in Hw. cbn [snd] in Hw.
    unfold RowGroupSerializer.has_column_writer in Ec.
    rewrite Hw in Ec. cbn [when] in Ec.
    assert (K : keeps_the_count s1 s').
    { revert Ec. generalize s1 (Ok tt) s'.
      change (preserved keeps_the_count
                (ret tt ;;
                 total <- RowGroupSerializer.this RowGroupSerializer.total_bytes_written_ ;;
                 RowGroupSerializer.on_metadata (RowGroupMetaDataBuilder.Finish total))).
      preserved_steps;
        first [ apply keeps_the_count_this
              | apply keeps_the_count_on_metadata, Finish_num_rows_ ]. }
    destruct K as [En Hrec]. subst n. rewrite En, app_nil_r.
    destruct (Z.lt_ge_cases (RowGroupSerializer.num_rows_ s1.2) 0) as [Hlt | Hge].
    + rewrite (Hneg Hlt). split; [constructor | done].
    + destruct (Hpos Hge) as [HF HR]. split; [done |]. intros _. split; [done | auto].
Qed.

End ColumnsAgree.

(** ** The open column's place in the schema *)

Section SchemaIndex.
Context {St : Type} `{OutputStream St}.

(** What [metadata_->current_column()] is one less than: the number of
    column chunks the row group's metadata has handed out. *)
Definition next_column_of (s : Heap St * RowGroupSerializer.t) : option Z :=
  RowGroupMetaDataBuilder.next_column_
    <$> (row_group_builders s.1 !! RowGroupSerializer.metadata_ s.2).

Definition keeps_next_column : relation (Heap St * RowGroupSerializer.t) :=
  fun s s' => forall k, next_column_of s = Some k -> next_column_of s' = Some k.

#[local] Instance keeps_next_column_preorder : PreOrder keeps_next_column.
Proof.
  split.
  - by intros s k.
  - intros s1 s2 s3 H1 H2 k Hk. by apply H2, H1.
Qed.

Lemma keeps_next_column_this {A} (g : RowGroupSerializer.t -> A) :
  preserved keeps_next_column (RowGroupSerializer.this g).
Proof. apply preserved_gets, _. Qed.

Lemma keeps_next_column_assign (g : RowGroupSerializer.t -> RowGroupSerializer.t) :
  (forall rg, RowGroupSerializer.metadata_ (g rg) = RowGroupSerializer.metadata_ rg) ->
  preserved keeps_next_column (RowGroupSerializer.assign g).
Proof.
  intros Hm. apply preserved_modify. intros [h rg] k.
  unfold next_column_of. cbn [fst snd]. by rewrite Hm.
Qed.

Lemma keeps_next_column_on_current_column_writer {A} (m : M (St * ColumnWriter.t) A) :
  preserved keeps_next_column (RowGroupSerializer.on_current_column_writer m).
Proof.
  intros [h rg] r [h' rg']. unfold RowGroupSerializer.on_current_column_writer.
  destruct (RowGroupSerializer.current_column_writer_ rg) as [w|];
    [| intros [= _ <- <-]; reflexivity].
  destruct (m (sink h, w)) as [r1 [s1 w1]]. intros [= _ <- <-] k.
  unfold next_column_of. by destruct rg, h.
Qed.

(** A call on the metadata, with what it does to [next_column_]. *)
Lemma on_metadata_next_column {A} (m : M RowGroupMetaDataBuilder.t A) r
    (s s' : Heap St * RowGroupSerializer.t) k :
  RowGroupSerializer.on_metadata m s = (r, s') ->
  next_column_of s = Some k ->
  exists b,
    row_group_builders s.1 !! RowGroupSerializer.metadata_ s.2 = Some b
    /\ RowGroupMetaDataBuilder.next_column_ b = k
    /\ r = (m b).1
    /\ next_column_of s' = Some (RowGroupMetaDataBuilder.next_column_ (m b).2).
Proof.
  destruct s as [h rg]. unfold RowGroupSerializer.on_metadata, next_column_of.
  cbn [fst snd].
  destruct (row_group_builders h !! RowGroupSerializer.metadata_ rg) as [b|] eqn:Eb;
    [| by intros _ [=]].
  destruct (m b) as [r1 b1] eqn:Em. intros [= <- <-] [= <-]. exists b.
  rewrite Em. cbn [fst snd].
  split; [done |]. split; [done |]. split; [done |].
  destruct h as [sk bs]. simpl in *.
  rewrite list_lookup_insert_eq; [done | by eapply lookup_lt_Some].
Qed.

Lemma keeps_next_column_on_metadata {A} (m : M RowGroupMetaDataBuilder.t A) :
  (forall b, RowGroupMetaDataBuilder.next_column_ (m b).2
             = RowGroupMetaDataBuilder.next_column_ b) ->
  preserved keeps_next_column (RowGroupSerializer.on_metadata m).
Proof.
  intros Hm s r s' E k Hk.
  destruct (on_metadata_next_column m r s s' k E Hk) as (b & _ & <- & _ & ->).
  by rewrite Hm.
Qed.

Lemma keeps_next_column_CheckRowsWritten :
  preserved keeps_next_column RowGroupSerializer.CheckRowsWritten.
Proof.
  unfold RowGroupSerializer.CheckRowsWritten.
  preserved_steps;
    first [ apply keeps_next_column_this
          | apply keeps_next_column_on_current_column_writer
          | by apply keeps_next_column_on_metadata
          | by apply keeps_next_column_assign ].
Qed.

Lemma keeps_next_column_close_current_column :
  preserved keeps_next_column RowGroupSerializer.close_current_column.
Proof.
  unfold RowGroupSerializer.close_current_column.
  preserved_steps;
    first [ apply keeps_next_column_this
          | apply keeps_next_column_on_current_column_writer
          | by apply keeps_next_column_assign ].
Qed.

Lemma keeps_next_column_num_rows :
  preserved keeps_next_column RowGroupSerializer.num_rows.
Proof.
  unfold RowGroupSerializer.num_rows.
  preserved_steps;
    first [ apply keeps_next_column_this
          | apply keeps_next_column_on_current_column_writer
          | by apply keeps_next_column_on_metadata
          | by apply keeps_next_column_assign ].
Qed.

(** A [NextColumn] that returns has asked the metadata for one more column
    chunk. *)
Lemma NextColumn_Ok_next_column meta (s s' : Heap St * RowGroupSerializer.t) k :
  RowGroupSerializer.NextColumn meta s = (Ok tt, s') ->
  next_column_of s = Some k -> next_column_of s' = Some (k + 1).
Proof.
  unfold RowGroupSerializer.NextColumn. intros E Hk.
  bind_inv E. unfold RowGroupSerializer.this, gets in E0. injection E0 as <- <-.
  bind_inv E.
  assert (K1 : keeps_next_column s s0).
  { revert E0. apply preserved_when; [apply _ | apply keeps_next_column_CheckRowsWritten]. }
  apply K1 in Hk.
  bind_inv E.
  destruct (on_metadata_next_column _ _ _ _ _ E1 Hk) as (b & _ & Hb & Hr & Hk1).
  unfold RowGroupMetaDataBuilder.NextColumnChunk in Hr, Hk1.
  destruct (_ <=? _) in Hr, Hk1; [done |]. cbn [fst snd] in Hk1.
  cbn [RowGroupMetaDataBuilder.next_column_] in Hk1. rewrite Hb in Hk1.
  match type of E with
  | ?m s1 = _ => assert (Hp : preserved keeps_next_column m)
  end.
  { preserved_steps;
      first [ apply keeps_next_column_this
            | apply keeps_next_column_on_current_column_writer
            | by apply keeps_next_column_assign ]. }
  by apply (Hp _ _ _ E).
Qed.

Lemma column_call_next_column (c : ColumnCall) (s s' : Heap St * RowGroupSerializer.t) k :
  column_call c s = (Ok tt, s') ->
  next_column_of s = Some k -> next_column_of s' = Some (k + opened [c]).
Proof.
  destruct c as [meta|n encoded|]; simpl; intros E Hk.
  - by apply (NextColumn_Ok_next_column meta s).
  - rewrite Z.add_0_r. revert E k Hk.
    apply keeps_next_column_on_current_column_writer.
  - rewrite Z.add_0_r. bind_inv E. injection E as <-.
    by apply (keeps_next_column_num_rows _ _ _ E0).
Qed.

Lemma column_calls_next_column (cs : list ColumnCall)
    (s s' : Heap St * RowGroupSerializer.t) k :
  column_calls cs s = (Ok tt, s') ->
  next_column_of s = Some k -> next_column_of s' = Some (k + opened cs).
Proof.
  revert s k. induction cs as [|c cs IH]; intros s k; simpl.
  - intros [= <-]. by rewrite Z.add_0_r.
  - intros E Hk. bind_inv E. destruct a.
    apply (column_call_next_column _ _ _ k) in E0; [| done].
    apply (IH _ _ E) in E0. rewrite E0. f_equal. destruct c; simpl; lia.
Qed.

(** [current_column()] of the row group reads the metadata. *)
Lemma current_column_next_column (s : Heap St * RowGroupSerializer.t) k :
  next_column_of s = Some k ->
  (RowGroupSerializer.current_column s).1 = Ok (k - 1).
Proof.
  destruct s as [h rg]. unfold next_column_of, RowGroupSerializer.current_column,
    RowGroupSerializer.on_metadata. cbn [fst snd].
  destruct (row_group_builders h !! _) as [b|]; [| done].
  intros [= <-]. done.
Qed.

Lemma rows_per_column_from_length (cs : list ColumnCall) cur :
  Z.of_nat (length (rows_per_column_from cur cs))
  = opened cs + match cur with Some _ => 1 | None => 0 end.
Proof.
  revert cur. induction cs as [|[meta|n e|] cs IH]; intros cur; simpl.
  - by destruct cur.
  - destruct cur; simpl; rewrite ?Nat2Z.inj_succ, IH; lia.
  - rewrite IH. by destruct cur.
  - apply IH.
Qed.

End SchemaIndex.

(** ** Row-count agreement, the theorem *)

Section RowCountAgreement.
Context {St : Type} `{OutputStream St}.

(** C3, amended: in a row group on which the calls [cs] ran, each of them
    returning, and that has a column open, [current_column_index_] is the
    number of columns opened so far, one more than the open column's index
    in the schema, which [current_column()] of the metadata gives.  The
    columns closed so far have all written the row count of the row group,
    which is then the count of the first column that closed, and is recorded
    in the serializer and in the row-group metadata.  If no row count is
    recorded yet, as for the first column when [num_rows()] was not called,
    closing this column (by [NextColumn] or [Close]) records its row count.
    If one is recorded and this column's differs, both calls throw the
    exception whose text gives [current_column_index_] and the two counts;
    equal counts pass the check. *)
Theorem row_count_agreement
    (cs : list ColumnCall) (p : nat) (h0 h : Heap St)
    (rg : RowGroupSerializer.t) (w : ColumnWriter.t) :
  column_calls cs (h0, RowGroupSerializer.new p) = (Ok tt, (h, rg)) ->
  RowGroupSerializer.current_column_writer_ rg = Some w ->
  let rows := ColumnWriter.rows_written w in
  let n := RowGroupSerializer.num_rows_ rg in
  RowGroupSerializer.current_column_index_ rg = opened cs
  /\ (opened cs = 1 -> Forall (fun c => c <> ColNumRows) cs -> n = -1)
  /\ (n < 0 -> is_Some (row_group_builders h !! p) ->
      (forall meta r s',
         RowGroupSerializer.NextColumn meta (h, rg) = (r, s') -> recorded rows s')
      /\ (forall r s', RowGroupSerializer.Close (h, rg) = (r, s') -> recorded rows s'))
  /\ (0 <= n -> n <> rows ->
      let e := ParquetException
                 (RowGroupSerializer.mismatch_message (opened cs) rows n) in
      (forall meta, RowGroupSerializer.NextColumn meta (h, rg) = (Throw e, (h, rg)))
      /\ RowGroupSerializer.Close (h, rg)
         = (Throw e, (h, RowGroupSerializer.set_closed_ true rg)))
  /\ (0 <= n -> n = rows ->
      RowGroupSerializer.CheckRowsWritten (h, rg) = (Ok tt, (h, rg)))
  /\ (forall b0,
        row_group_builders h0 !! p = Some b0 ->
        RowGroupMetaDataBuilder.next_column_ b0 = 0 ->
        (RowGroupSerializer.current_column (h, rg)).1
        = Ok (RowGroupSerializer.current_column_index_ rg - 1))
  /\ (Forall batch_nonneg cs ->
      exists closed,
        rows_per_column cs = closed ++ [rows]
        /\ Z.of_nat (length closed) = opened cs - 1
        /\ (n < 0 -> closed = [])
        /\ (0 <= n -> Forall (fun r => r = n) closed /\ recorded n (h, rg))
        /\ (forall first rest, closed = first :: rest -> n = first /\ 0 <= n)).
Proof.
  intros E Hw rows n.
  assert (Hfirst : opened cs = 1 -> Forall (fun c => c <> ColNumRows) cs -> n = -1).
  { intros H1 Hno.
    apply (first_column_not_recorded cs _ _ Hno) in E; [done | lia | by left]. }
  pose proof E as E'.
  apply column_calls_place in E as (Hi & Hc & Hm). cbn [fst snd] in *.
  change (RowGroupSerializer.current_column_index_ (RowGroupSerializer.new p))
    with 0 in Hi.
  change (RowGroupSerializer.closed_ (RowGroupSerializer.new p)) with false in Hc.
  change (RowGroupSerializer.metadata_ (RowGroupSerializer.new p)) with p in Hm.
  rewrite Z.add_0_l in Hi.
  split; [done |]. split; [done |]. split; [| split; [| split; [| split]]].
  - intros Hneg [b Hb]. rewrite <- Hm in Hb.
    destruct (first_column_to_close_records h rg w b Hw Hneg Hb) as [HN HC].
    split; [exact HN | intros r s'; by apply HC].
  - intros Hpos Hne.
    destruct (closing_calls_mismatch h rg w Hw Hpos Hne) as (HN & HC & _).
    rewrite <- Hi. split; [exact HN | by apply HC].
  - intros Hpos Heq. rewrite (CheckRowsWritten_run _ _ _ Hw). cbn zeta.
    fold n rows.
    destruct (Z.ltb_spec n 0); [lia |].
    destruct (Z.eqb_spec n rows); done.
  - intros b0 Hb0 Hk0.
    apply (column_calls_next_column cs _ _ 0) in E'.
    + apply current_column_next_column in E'. rewrite E', Hi. by rewrite Z.add_0_l.
    + unfold next_column_of. cbn [fst snd RowGroupSerializer.metadata_
        RowGroupSerializer.new]. by rewrite Hb0, <- Hk0.
  - intros Hnn.
    apply (column_calls_columns_so_far cs None []) in E' as (cur & closed & Hinv & Hl);
      [| by repeat split | done].
    rewrite app_nil_l in Hl. fold (rows_per_column cs) in Hl.
    destruct Hinv as (Hcur & Hneg & Hpos). cbn [fst snd] in *.
    destruct cur as [k|]; [| congruence].
    destruct Hcur as (w' & Hw' & Hr & Hk). rewrite Hw in Hw'. injection Hw' as <-.
    fold rows in Hr. subst k. fold n in Hneg, Hpos.
    exists closed. split; [done |]. split; [| split; [done | split; [done |]]].
    + pose proof (rows_per_column_from_length cs None) as Hlen.
      fold (rows_per_column cs) in Hlen. rewrite Hl, length_app in Hlen.
      simpl in Hlen. lia.
    + intros first rest ->.
      destruct (Z.lt_ge_cases n 0) as [Hlt | Hge]; [by specialize (Hneg Hlt) |].
      destruct (Hpos Hge) as [HF _]. apply Forall_cons in HF as [-> _]. done.
Qed.

End RowCountAgreement.

(** Column 0 with 100 rows, column 1 with 99: [Close] throws and names
    column 2, the metadata is at schema index 1, and the one column closed
    has the recorded 100 rows. *)
Lemma row_count_agreement_witness :
  let s := (column_calls columns_100_then_99 fresh_row_group_of_two_columns).2 in
  RowGroupSerializer.Close s
  = (Throw (ParquetException "Column 2 had 99 while previous column had 100"),
     (s.1, RowGroupSerializer.set_closed_ true s.2))
  /\ (RowGroupSerializer.current_column s).1 = Ok 1
  /\ exists closed,
       rows_per_column columns_100_then_99 = closed ++ [99]
       /\ Forall (fun r => r = 100) closed
       /\ recorded 100 s.
Proof.
  intros s.
  assert (E : column_calls columns_100_then_99 fresh_row_group_of_two_columns
              = (Ok tt, (s.1, s.2))) by (vm_compute; reflexivity).
  destruct (row_count_agreement columns_100_then_99 0 _ _ _
              (ColumnWriter.mk 99 1 [Byte.x02] false) E eq_refl)
    as (_ & _ & _ & Hmis & _ & Hcol & Hrows).
  split; [| split].
  - destruct Hmis as [_ HC]; [vm_compute; discriminate | vm_compute; discriminate |].
    exact HC.
  - exact (Hcol (RowGroupMetaDataBuilder.Make 2) eq_refl eq_refl).
  - destruct Hrows as (closed & Hl & _ & _ & Hpos & _).
    + repeat constructor; vm_compute; discriminate.
    + exists closed. split; [exact Hl |]. apply Hpos. vm_compute. discriminate.
Defined.

(** Outside the theorem: a [NextColumn] that throws.  On a device without
    room the flush of column 0 throws in [NextColumn]: the metadata has
    moved to schema index 1 (line 89), [current_column_index_] is still 1
    (line 95 was not reached), and a mismatch on the column still open names
    column 1. *)
Lemma NextColumn_that_threw_in_the_flush_moved_the_metadata_only :
  let s0 := (mkHeap (BoundedOutputStream.mk [] 0 0) [RowGroupMetaDataBuilder.Make 3],
             RowGroupSerializer.new 0) in
  let s := (column_calls [ColNextColumn []; ColWriteBatch 10 [Byte.x01]] s0).2 in
  let s1 := (RowGroupSerializer.NextColumn [] s).2 in
  let s2 := (RowGroupSerializer.column_WriteBatch 5 [Byte.x02] s1).2 in
  (RowGroupSerializer.NextColumn [] s).1
  = Throw (ParquetException "IOError: no space left on device")
  /\ RowGroupSerializer.current_column_index_ s1.2 = 1
  /\ (RowGroupSerializer.current_column s1).1 = Ok 1
  /\ (RowGroupSerializer.NextColumn [] s2).1
     = Throw (ParquetException "Column 1 had 15 while previous column had 10").
Proof. vm_compute. done. Qed.

(** ** The further properties on concrete files *)

Section Further_run.
#[local] Existing Instance toy_thrift.

(** The file of two row groups: [num_row_groups()] is 2.  On a schema of
    two columns, a second [AppendRowGroup] that throws, the first row group
    having one column only, and a third that returns: [num_row_groups()] is
    2 after three calls. *)
Lemma num_row_groups_counts_the_AppendRowGroup_calls_witness :
  let s0 := (ParquetFileWriter.Open InMemoryOutputStream.empty 1 None).2 in
  let t0 := (ParquetFileWriter.Open InMemoryOutputStream.empty 2 None).2 in
  let cs := [CallAppendRowGroup; CallNextColumn []; CallWriteBatch 10 [Byte.x01];
             CallAppendRowGroup; CallAppendRowGroup] in
  (((calls two_row_groups_100_50 ;; ParquetFileWriter.num_row_groups) s0).1 = Ok 2
   /\ 2 = appended two_row_groups_100_50)
  /\ (((calls_caught cs ;; ParquetFileWriter.num_row_groups) t0).1 = Ok 2
      /\ 2 = appended_and_returned cs t0
      /\ appended cs = 3
      /\ (calls (take 4 cs) t0).1
         = Throw (ParquetException
                    "IncompleteRowGroupError: not every column was written")).
Proof.
  intros s0 t0 cs. split.
  - split; [vm_compute; reflexivity |].
    destruct (num_row_groups_counts_the_AppendRowGroup_calls
                InMemoryOutputStream.empty 1 None None s0
                ((calls two_row_groups_100_50 ;; ParquetFileWriter.num_row_groups) s0).2
                two_row_groups_100_50 2) as [Hall _];
      [left; vm_compute; reflexivity |].
    apply Hall. vm_compute. reflexivity.
  - split; [vm_compute; reflexivity |]. split; [| split; vm_compute; reflexivity].
    destruct (num_row_groups_counts_the_AppendRowGroup_calls
                InMemoryOutputStream.empty 2 None None t0
                ((calls_caught cs ;; ParquetFileWriter.num_row_groups) t0).2
                cs 2) as [_ Hcaught];
      [left; vm_compute; reflexivity |].
    apply Hcaught. vm_compute. reflexivity.
Defined.

(** The file of two row groups of 100 and 50 rows, before [Close]. *)
Lemma num_rows_is_0_while_the_file_is_written_witness :
  let s0 := (ParquetFileWriter.Open InMemoryOutputStream.empty 1 None).2 in
  ((calls two_row_groups_100_50 ;; ParquetFileWriter.num_rows) s0).1 = Ok 0.
Proof.
  intros s0.
  destruct ((calls two_row_groups_100_50 ;; ParquetFileWriter.num_rows) s0)
    as [[n|e|] s'] eqn:E; [| vm_compute in E; discriminate..].
  cbn [fst]. f_equal.
  apply (num_rows_is_0_while_the_file_is_written
           InMemoryOutputStream.empty 1 None None s0 s' two_row_groups_100_50 n);
    [left; vm_compute; reflexivity | exact E].
Defined.

(** [Close] on the full device throws; what the sink held is still there. *)
Lemma the_sink_is_only_appended_to_witness :
  let s := file_on_full_device in
  (ParquetFileWriter.Close s).1
  = Throw (ParquetException "IOError: no space left on device")
  /\ exists bs,
       written (sink (ParquetFileWriter.Close s).2.1) = written (sink s.1) ++ bs.
Proof.
  intros s. split; [vm_compute; reflexivity |].
  apply (the_sink_is_only_appended_to s (ParquetFileWriter.Close s).2
           (ParquetFileWriter.Close s).1).
  left. exists [CallClose]. vm_compute. reflexivity.
Defined.

(** The file of two row groups: the sink is open before [Close], and closed
    once after two [Close] calls. *)
Lemma the_sink_is_closed_by_Close_only_and_once_witness :
  let s := (ParquetFileWriter.Open InMemoryOutputStream.empty 1 None).2 in
  closes (sink (calls two_row_groups_100_50 s).2.1) = 0%nat
  /\ closes (sink (calls (two_row_groups_100_50 ++ [CallClose; CallClose]) s).2.1)
     = 1%nat.
Proof.
  intros s. split.
  - change 0%nat with (closes (sink s.1)).
    apply (proj1 (the_sink_is_closed_by_Close_only_and_once
                    two_row_groups_100_50 s (calls two_row_groups_100_50 s).2
                    (calls two_row_groups_100_50 s).1
                    (surjective_pairing _))).
    repeat constructor; discriminate.
  - change 1%nat with (S (closes (sink s.1))).
    apply (proj2 (the_sink_is_closed_by_Close_only_and_once
                    (two_row_groups_100_50 ++ [CallClose; CallClose]) s
                    (calls (two_row_groups_100_50 ++ [CallClose; CallClose]) s).2
                    (calls (two_row_groups_100_50 ++ [CallClose; CallClose]) s).1
                    (surjective_pairing _))).
    + vm_compute. reflexivity.
    + apply in_or_app. right. left. reflexivity.
    + vm_compute. reflexivity.
Defined.

(** The file whose second column is written with 10 rows too, closed. *)
Lemma Close_adds_the_rows_of_the_open_row_group_witness :
  let s := ((FileSerializer.on_row_group_writer (RowGroupWriter.NextColumn []) ;;
             FileSerializer.on_row_group_writer
               (RowGroupWriter.column_WriteBatch 10 [Byte.x02]))
              file_with_a_missing_column).2 in
  adds_the_open_rows s.1 s.2 (FileSerializer.Close s).2.2.
Proof.
  intros s.
  apply (proj1 Close_adds_the_rows_of_the_open_row_group s.1 (FileSerializer.Close s).2.1).
  - vm_compute. reflexivity.
  - vm_compute. reflexivity.
Defined.

(** The file whose second column is written with 9 rows. *)
Lemma a_row_count_mismatch_leaves_the_file_without_footer_witness :
  let s := ((FileSerializer.on_row_group_writer (RowGroupWriter.NextColumn []) ;;
             FileSerializer.on_row_group_writer
               (RowGroupWriter.column_WriteBatch 9 [Byte.x02]))
              file_with_a_missing_column).2 in
  let w := ParquetFileWriter.mk (Some (ParquetFileWriter.FileSerializer_ s.2)) in
  ParquetFileWriter.Close (s.1, w)
  = (Throw (ParquetException "Column 2 had 9 while previous column had 10"), (s.1, w))
  /\ ParquetFileWriter.destructor (s.1, w) = (Ok tt, (s.1, ParquetFileWriter.mk None)).
Proof.
  intros s w.
  destruct (a_row_count_mismatch_leaves_the_file_without_footer s.1 s.2
              (RowGroupSerializer.mk 0 1 false 2 10
                 (Some (ColumnWriter.mk 9 1 [Byte.x02] false)))
              (ColumnWriter.mk 9 1 [Byte.x02] false))
    as (HC & _ & HD & _);
    [vm_compute; reflexivity | vm_compute; reflexivity | reflexivity
    | vm_compute; discriminate | vm_compute; discriminate |].
  split; [exact HC | exact HD].
Defined.

(** A file opened for append without an old footer, one row group, [Close]. *)
Lemma OpenAppend_with_a_null_old_footer_cannot_be_closed_witness :
  let s0 := (ParquetFileWriter.OpenAppend InMemoryOutputStream.empty 1 None None).2 in
  let cs := [CallAppendRowGroup; CallNextColumn []; CallWriteBatch 3 [Byte.x01];
             CallClose] in
  (calls cs s0).1 = Undefined \/ exists e, (calls cs s0).1 = Throw e.
Proof.
  intros s0 cs.
  apply (OpenAppend_with_a_null_old_footer_cannot_be_closed
           InMemoryOutputStream.empty 1 None s0 cs).
  - vm_compute. reflexivity.
  - vm_compute. tauto.
Defined.

(** The file of two row groups after [Close]. *)
Lemma after_Close_every_call_dereferences_null_witness :
  let s := (calls two_row_groups_100_50
              (ParquetFileWriter.Open InMemoryOutputStream.empty 1 None).2).2 in
  let s' := (ParquetFileWriter.Close s).2 in
  ParquetFileWriter.AppendRowGroup s' = (Undefined, s')
  /\ ParquetFileWriter.num_rows s' = (Undefined, s').
Proof.
  intros s s'.
  destruct (after_Close_every_call_dereferences_null s s') as (HA & _ & _ & HN & _).
  - vm_compute. reflexivity.
  - split; [exact HA | exact HN].
Defined.

(** The file opened for append on a device of 16 bytes: the merged footer
    does not fit and [Close] throws; the destructor writes the footer of
    this run, which fits, and closes the sink. *)
Lemma the_destructor_after_a_Close_that_threw_writes_the_plain_footer_witness :
  let s := append_file_on_small_device in
  let s' := (ParquetFileWriter.destructor s).2 in
  (ParquetFileWriter.Close s).1
  = Throw (ParquetException "IOError: no space left on device")
  /\ (ParquetFileWriter.destructor s).1 = Ok tt
  /\ closes (sink s'.1) = 1%nat
  /\ written (sink s'.1)
     = PARQUET_MAGIC ++ [Byte.x01]
       ++ toy_thrift (format.FileMetaData.mk 1 10 [format.RowGroup.mk [[]] 1 10] [] false)
       ++ footer_length_field [Byte.x0a; Byte.x01; Byte.x00] ++ PARQUET_MAGIC.
Proof.
  intros s s'. split; [vm_compute; reflexivity |].
  destruct (proj2 (the_destructor_after_a_Close_that_threw_writes_the_plain_footer
                     s (ParquetFileWriter.Close s).2)
              (ParquetException "IOError: no space left on device"))
    as (f1 & Hf & _ & _ & Hok & _).
  - vm_compute. reflexivity.
  - vm_compute in Hf. injection Hf as <-.
    edestruct Hok as (Hd & Hc & _).
    + vm_compute. reflexivity.
    + subst s'. rewrite Hd. cbn [fst snd].
      split; [reflexivity |]. split; [rewrite Hc; vm_compute; reflexivity |].
      vm_compute. reflexivity.
Defined.

(** A third column asked for on a schema of two. *)
Lemma NextColumn_beyond_the_schema_leaves_the_open_column_witness :
  let s := (column_calls columns_100_then_99 fresh_row_group_of_two_columns).2 in
  exists e s',
    RowGroupSerializer.NextColumn [] s = (Throw e, s')
    /\ RowGroupSerializer.current_column_writer_ s'.2
       = RowGroupSerializer.current_column_writer_ s.2.
Proof.
  intros s.
  destruct (NextColumn_beyond_the_schema_leaves_the_open_column [] s.1 s.2
              (RowGroupMetaDataBuilder.mk 2 2 100 [[]; []] None))
    as (e & s' & E & Hw & _);
    [vm_compute; reflexivity | vm_compute; discriminate |].
  exists e, s'. split; [| exact Hw].
  rewrite <- E. vm_compute. reflexivity.
Defined.

(** [NextColumn] on the fresh row group with [closed_] set. *)
Lemma the_calls_on_columns_never_read_closed__witness :
  exists rg2,
    RowGroupSerializer.NextColumn []
      (fresh_row_group_of_two_columns.1,
       RowGroupSerializer.set_closed_ true fresh_row_group_of_two_columns.2)
    = (Ok tt, ((RowGroupSerializer.NextColumn [] fresh_row_group_of_two_columns).2.1, rg2))
    /\ RowGroupSerializer.current_column_writer_ rg2 = Some ColumnWriter.Make.
Proof.
  destruct (proj2 (proj2 (proj2 the_calls_on_columns_never_read_closed_)) []
              fresh_row_group_of_two_columns.1
              (RowGroupSerializer.NextColumn [] fresh_row_group_of_two_columns).2.1
              fresh_row_group_of_two_columns.2
              (RowGroupSerializer.NextColumn [] fresh_row_group_of_two_columns).2.2)
    as (rg2 & E & Hw & _); [vm_compute; reflexivity |].
  exists rg2. split; [exact E | exact Hw].
Defined.

(** [AppendRowGroup] on the file with a missing column, twice. *)
Lemma AppendRowGroup_that_threw_is_not_retried_witness :
  let s := file_with_a_missing_column in
  (FileSerializer.AppendRowGroup s).1
  = Throw (ParquetException "IncompleteRowGroupError: not every column was written")
  /\ (FileSerializer.AppendRowGroup (FileSerializer.AppendRowGroup s).2).1 = Ok tt.
Proof.
  intros s. split; [vm_compute; reflexivity |].
  apply (AppendRowGroup_that_threw_is_not_retried s (FileSerializer.AppendRowGroup s).2
           (ParquetException "IncompleteRowGroupError: not every column was written")).
  - vm_compute. reflexivity.
  - vm_compute. reflexivity.
Defined.

(** The first row group of a file on a schema of two columns. *)
Lemma AppendRowGroup_opens_a_fresh_row_group_witness :
  let s := (FileSerializer.Open InMemoryOutputStream.empty 2 None).2 in
  let s' := (FileSerializer.AppendRowGroup s).2 in
  FileSerializer.num_row_groups_ s'.2 = 1
  /\ (FileSerializer.on_row_group_writer RowGroupWriter.num_columns s').1 = Ok 2.
Proof.
  intros s s'.
  destruct (AppendRowGroup_opens_a_fresh_row_group s.1 s'.1 s.2 s'.2)
    as (_ & Hn & p & _ & _ & _ & _ & Hc); [vm_compute; reflexivity |].
  split; [exact Hn | exact Hc].
Defined.

(** [num_rows()] twice on an open column of 50 rows. *)
Lemma num_rows_again_returns_the_same_witness :
  let s := (column_calls [ColNextColumn []; ColWriteBatch 50 [Byte.x01]]
              fresh_row_group_of_two_columns).2 in
  let s1 := (RowGroupSerializer.num_rows s).2 in
  RowGroupSerializer.num_rows s = (Ok 50, s1)
  /\ RowGroupSerializer.num_rows s1 = (Ok 50, s1).
Proof.
  intros s s1.
  assert (E : RowGroupSerializer.num_rows s = (Ok 50, s1)) by (vm_compute; reflexivity).
  split; [exact E |].
  exact (num_rows_again_returns_the_same s s1 50 E).
Defined.

(** Two columns of 100 rows, the first one written in two batches. *)
Lemma the_columns_of_a_closed_row_group_have_the_same_rows_witness :
  let cs := [ColNextColumn []; ColWriteBatch 60 [Byte.x01]; ColWriteBatch 40 [Byte.x02];
             ColNextColumn []; ColWriteBatch 100 [Byte.x03]] in
  let s := (column_calls cs fresh_row_group_of_two_columns).2 in
  rows_per_column cs = [100; 100]
  /\ Forall (fun rows => rows = RowGroupSerializer.num_rows_ (RowGroupSerializer.Close s).2.2)
       (rows_per_column cs).
Proof.
  intros cs s. split; [reflexivity |].
  apply (the_columns_of_a_closed_row_group_have_the_same_rows cs 0
           fresh_row_group_of_two_columns.1 s (RowGroupSerializer.Close s).2).
  - vm_compute. reflexivity.
  - repeat constructor; vm_compute; discriminate.
  - vm_compute. reflexivity.
Defined.

End Further_run.
